(** * cjio_dbexport: export of 3D city objects from PostgreSQL to CityJSON

    A shallow embedding of [cjio_dbexport/db3dnl.py] and of the parts of
    [cjio_dbexport/utils.py] and [cjio_dbexport/db.py] it relies on, followed
    by the properties of the export pipeline.

    Layout: Part I holds the definitions, one module per Python module or
    library boundary; Part II holds the lemmas and theorems. *)

From Stdlib Require Import ZArith NArith QArith Ascii String List Lia Bool.
From stdpp Require Import base decidable option list strings pretty gmap.

Import ListNotations.
Set Warnings "-register-all".
Local Open Scope string_scope.
Local Open Scope list_scope.

(* ===================================================================== *)
(** * Part I. Definitions                                                  *)
(* ===================================================================== *)

(** ** Python built-ins used by the code

    A Python [str] is the [string] of the bytes of its UTF-8 encoding; the
    case mapping is the ASCII one. *)
Module Py.

(** [c] in ['A'..'Z'] *)
Definition is_upper (c : ascii) : bool :=
  (65 <=? nat_of_ascii c)%nat && (nat_of_ascii c <=? 90)%nat.

Definition lower_char (c : ascii) : ascii :=
  if is_upper c then ascii_of_nat (nat_of_ascii c + 32) else c.

(** [s.lower()] *)
Fixpoint lower (s : string) : string :=
  match s with
  | EmptyString => EmptyString
  | String c s' => String (lower_char c) (lower s')
  end.

(** The one-byte characters [str.split()] treats as blanks: U+0009 to
    U+000D, U+001C to U+0020. *)
Definition is_space (c : ascii) : bool :=
  let n := nat_of_ascii c in
  ((9 <=? n)%nat && (n <=? 13)%nat) || ((28 <=? n)%nat && (n <=? 32)%nat).

(** The blanks of two and three bytes, by the bytes of their encoding:
    U+0085 and U+00A0; U+1680, U+2000 to U+200A, U+2028, U+2029, U+202F,
    U+205F and U+3000. *)
Definition is_space2 (c1 c2 : ascii) : bool :=
  (nat_of_ascii c1 =? 194)%nat &&
  ((nat_of_ascii c2 =? 133)%nat || (nat_of_ascii c2 =? 160)%nat).

Definition is_space3 (c1 c2 c3 : ascii) : bool :=
  let n1 := nat_of_ascii c1 in
  let n2 := nat_of_ascii c2 in
  let n3 := nat_of_ascii c3 in
  ((n1 =? 225)%nat && (n2 =? 154)%nat && (n3 =? 128)%nat) ||
  ((n1 =? 226)%nat && (n2 =? 128)%nat &&
   (((128 <=? n3)%nat && (n3 <=? 138)%nat) ||
    (n3 =? 168)%nat || (n3 =? 169)%nat || (n3 =? 175)%nat)) ||
  ((n1 =? 226)%nat && (n2 =? 129)%nat && (n3 =? 159)%nat) ||
  ((n1 =? 227)%nat && (n2 =? 128)%nat && (n3 =? 128)%nat).

(** The number of bytes of the blank [s] starts with; [0] when it starts
    with none. *)
Definition blank_bytes (s : string) : nat :=
  match s with
  | EmptyString => 0
  | String c1 r1 =>
      if is_space c1 then 1
      else match r1 with
           | EmptyString => 0
           | String c2 r2 =>
               if is_space2 c1 c2 then 2
               else match r2 with
                    | EmptyString => 0
                    | String c3 _ => if is_space3 c1 c2 c3 then 3 else 0
                    end
           end
  end.

(** [s.split(sep)] for a one-character separator: always at least one piece. *)
Fixpoint split (sep : ascii) (s : string) : list string :=
  match s with
  | EmptyString => [EmptyString]
  | String c s' =>
      if Ascii.eqb c sep then EmptyString :: split sep s'
      else match split sep s' with
           | [] => [String c EmptyString]
           | piece :: pieces => String c piece :: pieces
           end
  end.

(** [s.split()]: pieces between runs of blanks, no empty piece.
    [cur] is the piece being read, reversed; [skip] counts the bytes of a
    blank that are still to pass. *)
Fixpoint split_ws_aux (skip : nat) (cur : list ascii) (s : string) : list string :=
  let flush := match cur with
               | [] => []
               | _ => [string_of_list_ascii (rev cur)]
               end in
  match s with
  | EmptyString => flush
  | String c s' =>
      match skip with
      | S skip' => split_ws_aux skip' cur s'
      | O =>
          match blank_bytes s with
          | O => split_ws_aux 0 (c :: cur) s'
          | S more => flush ++ split_ws_aux more [] s'
          end
      end
  end.

Definition split_ws (s : string) : list string := split_ws_aux 0 [] s.

(** [sep.join(pieces)] *)
Fixpoint join (sep : string) (pieces : list string) : string :=
  match pieces with
  | [] => EmptyString
  | [p] => p
  | p :: ps => p +:+ sep +:+ join sep ps
  end.

(** Truth value of an optional sequence: [None] and the empty sequence
    are false. *)
Definition truthy {A} (x : option (list A)) : bool :=
  match x with
  | Some (_ :: _) => true
  | _ => false
  end.

(** [needle in s] *)
Fixpoint contains (needle s : string) : bool :=
  String.prefix needle s ||
  match s with
  | EmptyString => false
  | String _ s' => contains needle s'
  end.

(** What ends the run of a generator or a call. *)
Inductive exn :=
| IndexError
| KeyError (key : string)
| AttributeError (msg : string)
| ValueError (msg : string)
| TypeError (msg : string)
| ClickException (msg : string).

Inductive outcome :=
| Finished
| Raised (e : exn).

End Py.

(** ** The fragment of Python's [re] the module uses

    A pattern is a sequence of items; matching is by backtracking, greedy
    repetition first, as in [re]. A position in the subject is the pair of
    the characters before it (nearest first) and the characters after it. *)
Module re.

Inductive item :=
| Char (p : ascii -> bool)      (** one character of a class: [\(], [.], [[^)]] *)
| Star (p : ascii -> bool)      (** greedy [*] over a one-character class *)
| LookBehind (w : string)       (** [(?<=w)] *)
| NotAtEnd                      (** [(?!$)] *)
| GroupOpen                     (** [(] of the capture group *)
| GroupClose.                   (** [)] of the capture group *)

Definition pattern := list item.

(** [.] matches anything but a newline. *)
Definition dot (c : ascii) : bool := negb (Ascii.eqb c "010").
Definition is_char (a c : ascii) : bool := Ascii.eqb c a.
Definition not_char (a c : ascii) : bool := negb (Ascii.eqb c a).

(** [$] (no MULTILINE flag): the end of the subject, or just before a
    newline that ends it. *)
Definition at_end (after : list ascii) : bool :=
  match after with
  | [] => true
  | [c] => Ascii.eqb c "010"
  | _ => false
  end.

(** [w] stands just before the position. *)
Fixpoint starts_with (w before : list ascii) : bool :=
  match w, before with
  | [], _ => true
  | a :: w', b :: before' => Ascii.eqb a b && starts_with w' before'
  | _ :: _, [] => false
  end.

(** The text between an earlier position [b0] and a later one [b1]. *)
Definition between (b0 b1 : list ascii) : list ascii :=
  rev (take (length b1 - length b0) b1).

(** A successful match: the position where it ends and the group's text. *)
Definition result : Type := list ascii * list ascii * option (list ascii).

(** Greedy repetition: the longest run first, shorter ones when the rest
    of the pattern, [k], fails. *)
Fixpoint star (p : ascii -> bool)
    (k : list ascii -> list ascii -> option result)
    (before after : list ascii) : option result :=
  match after with
  | c :: after' =>
      if p c then
        match star p k (c :: before) after' with
        | Some r => Some r
        | None => k before after
        end
      else k before after
  | [] => k before after
  end.

(** Match [pat] at the position; [gstart] is where the open group began
    and [grp] the text of the closed group. *)
Fixpoint match_here (pat : pattern) (gstart : option (list ascii))
    (grp : option (list ascii)) (before after : list ascii) : option result :=
  match pat with
  | [] => Some (before, after, grp)
  | Char p :: pat' =>
      match after with
      | c :: after' =>
          if p c then match_here pat' gstart grp (c :: before) after' else None
      | [] => None
      end
  | Star p :: pat' => star p (match_here pat' gstart grp) before after
  | LookBehind w :: pat' =>
      if starts_with (rev (list_ascii_of_string w)) before
      then match_here pat' gstart grp before after else None
  | NotAtEnd :: pat' =>
      if at_end after then None else match_here pat' gstart grp before after
  | GroupOpen :: pat' => match_here pat' (Some before) grp before after
  | GroupClose :: pat' =>
      match_here pat' gstart
        (match gstart with Some b0 => Some (between b0 before) | None => grp end)
        before after
  end.

(** What [findall] lists for a match that starts at [b0]: the group when
    the pattern has one, the whole match otherwise. *)
Definition listed (b0 : list ascii) (r : result) : string :=
  match r with
  | (b1, _, Some g) => string_of_list_ascii g
  | (b1, _, None) => string_of_list_ascii (between b0 b1)
  end.

(** [findall] from a position, left to right, matches not overlapping:
    after a match of [n] characters the next [n - 1] positions are
    skipped ([skip]); after an empty match the scan moves on by one. *)
Fixpoint findall_from (pat : pattern) (skip : nat)
    (before after : list ascii) : list string :=
  match after with
  | [] =>
      match skip with
      | O => match match_here pat None None before [] with
             | Some r => [listed before r]
             | None => []
             end
      | S _ => []
      end
  | c :: after' =>
      match skip with
      | S skip' => findall_from pat skip' (c :: before) after'
      | O =>
          match match_here pat None None before after with
          | Some (b1, a1, g) =>
              listed before (b1, a1, g)
                :: findall_from pat (length b1 - length before - 1) (c :: before) after'
          | None => findall_from pat 0 (c :: before) after'
          end
      end
  end.

(** [pat.findall(s)] *)
Definition findall (pat : pattern) (s : string) : list string :=
  findall_from pat 0 [] (list_ascii_of_string s).

End re.

(** ** Results, exceptions and the log

    A call returns its log records and either a value or the exception it
    raised. [log.debug] records are left out. *)
Module Run.

Inductive level := INFO | WARNING | ERROR.

(** A record: level, message, and the values the message is formatted with. *)
Record log_record := LogRecord { lvl : level; msg : string; args : list string }.

Inductive res (A : Type) :=
| Ok (a : A)
| Err (e : Py.exn).
Arguments Ok {A} a.
Arguments Err {A} e.

Definition M (A : Type) : Type := list log_record * res A.

Definition ret {A} (a : A) : M A := ([], Ok a).
Definition raise {A} (e : Py.exn) : M A := ([], Err e).
Definition log (l : level) (m : string) (a : list string) : M unit :=
  ([LogRecord l m a], Ok tt).

Definition bind {A B} (m : M A) (f : A -> M B) : M B :=
  match m with
  | (l, Err e) => (l, Err e)
  | (l, Ok a) => let (l', r) := f a in (l ++ l', r)
  end.

(** [seq[i]] *)
Definition item {A} (seq : list A) (i : nat) : M A :=
  match nth_error seq i with
  | Some a => ret a
  | None => raise Py.IndexError
  end.

(** The run of a generator: what it yielded, what it logged, how it ended. *)
Record gen (A : Type) := Gen {
  yields : list A;
  logged : list log_record;
  ending : Py.outcome
}.
Arguments Gen {A} yields logged ending.
Arguments yields {A} g.
Arguments logged {A} g.
Arguments ending {A} g.

(** The generator that first yields [a], then runs as [g]. *)
Definition yield_then {A} (l : list log_record) (a : A) (g : gen A) : gen A :=
  Gen (a :: yields g) (l ++ logged g) (ending g).

End Run.

Notation "x <- m ; k" := (Run.bind m (fun x => k))
  (at level 20, m at level 100, k at level 200, only parsing).
Notation "' p <- m ; k" := (Run.bind m (fun x => let 'p := x in k))
  (at level 20, p pattern, m at level 100, k at level 200, only parsing).

(** ** [psycopg2.sql]: composable pieces of a query *)
Module sql.

Inductive literal :=
| LInt (z : Z)
| LNum (q : Q)
| LText (s : string)
| LTuple (items : list string).

Inductive Composable :=
| SQL (text : string)
| Identifier (names : list string)
| Literal (v : literal)
| Composed (parts : list Composable).

Definition kwargs := list (string * Composable).

Fixpoint lookup (name : string) (kw : kwargs) : option Composable :=
  match kw with
  | [] => None
  | (n, c) :: kw' => if String.eqb n name then Some c else lookup name kw'
  end.

Definition flush (text : list ascii) : list Composable :=
  match text with
  | [] => []
  | _ => [SQL (string_of_list_ascii (rev text))]
  end.

(** [SQL(template).format] with keyword arguments [kw]: the template's text cut at its [{name}]
    fields, each field replaced by its argument. [text] is the text read
    since the last field and [field] the name being read, both reversed.
    The templates of this module have no escaped brace. *)
Fixpoint format_from (kw : kwargs) (text : list ascii) (field : option (list ascii))
    (template : string) : Run.res (list Composable) :=
  match template, field with
  | EmptyString, None => Run.Ok (flush text)
  | EmptyString, Some _ => Run.Err (Py.ValueError "expected '}' before end of string")
  | String c rest, None =>
      if Ascii.eqb c "{" then
        match format_from kw [] (Some []) rest with
        | Run.Ok parts => Run.Ok (flush text ++ parts)
        | Run.Err e => Run.Err e
        end
      else format_from kw (c :: text) None rest
  | String c rest, Some name =>
      if Ascii.eqb c "}" then
        let key := string_of_list_ascii (rev name) in
        match lookup key kw with
        | Some arg =>
            match format_from kw [] None rest with
            | Run.Ok parts => Run.Ok (arg :: parts)
            | Run.Err e => Run.Err e
            end
        | None => Run.Err (Py.KeyError key)
        end
      else format_from kw text (Some (c :: name)) rest
  end.

Definition format (template : string) (kw : kwargs) : Run.M Composable :=
  match format_from kw [] None template with
  | Run.Ok parts => Run.ret (Composed parts)
  | Run.Err e => Run.raise e
  end.

(** [sep.join(seq)] *)
Fixpoint join (sep : Composable) (seq : list Composable) : list Composable :=
  match seq with
  | [] => []
  | [c] => [c]
  | c :: seq' => c :: sep :: join sep seq'
  end.

End sql.

(** ** [cjio_dbexport.db]: table descriptions and the connection *)
Module db.

(** Modelled from the spec: [db.Schema] ([cjio_dbexport/db.py] is not among
    the sources). A table description is a named source table plus a field
    map: primary key column, city-object-id column, one geometry column per
    level of detail, and an exclusion list of attribute columns. *)
Record Fields := {
  pk : string;
  cityobject_id : string;
  geometry : list (string * string);      (** level of detail, column *)
  exclude : option (list (option string))
}.

Record Schema := {
  schema : string;
  table : string;
  field : Fields;
  mapping : string     (** what Python prints for the mapping it is made of *)
}.

(** The tile index has one geometry column. *)
Record TileSchema := {
  tx_schema : string;
  tx_table : string;
  tx_pk : string;
  tx_geometry : string
}.

(** [f.sqlid] of a field [f]. *)
Definition sqlid (column : string) : sql.Composable := sql.Identifier [column].

(** [schema + table] *)
Definition qualified (schema table : string) : sql.Composable :=
  sql.Identifier [schema; table].

(** A value of a result row; a timestamp is carried as its ISO-8601 text. *)
Inductive pyval :=
| PyNone
| PyBool (b : bool)
| PyInt (z : Z)
| PyFloat (q : Q)
| PyStr (s : string)
| PyDatetime (iso : string)
| PyList (items : list pyval).

(** A result row: column name and value, in column order. *)
Definition record := list (string * pyval).

(** What [conn.get_dict] is called with: a composed query, or the function
    object [db3dnl.query]. *)
Inductive get_dict_arg :=
| ArgSql (q : sql.Composable)
| ArgFunctionQuery.

Inductive db_result :=
| Rows (rs : list record)
| PgError (pgcode pgerror : string)
| OtherError (e : Py.exn).

(** The connection, as far as the module uses it. *)
Record Db := {
  get_fields : sql.Composable -> list string;
  get_dict : get_dict_arg -> db_result
}.

End db.

(** ** [cjio_dbexport.utils]: Morton codes, EWKT *)
Module utils.

(** Modelled from the spec: [morton_code] ([cjio_dbexport/utils.py] is not
    among the sources). The 2D Morton code interleaves the bits of the two
    coordinates, [x] on the even and [y] on the odd positions; [precision]
    is the number of bits of a coordinate that are used. *)
Fixpoint morton_code (precision : nat) (x y : N) : N :=
  match precision with
  | O => 0
  | S p =>
      (x mod 2 + 2 * (y mod 2) + 4 * morton_code p (x / 2) (y / 2))%N
  end.

(** Modelled from the spec: [rev_morton_code], the inverse of
    [morton_code]: the even bits of the key give [x], the odd bits [y]. *)
Fixpoint rev_morton_code (precision : nat) (key : N) : N * N :=
  match precision with
  | O => (0, 0)%N
  | S p =>
      let (x, y) := rev_morton_code p (key / 4) in
      (key mod 2 + 2 * x, (key / 2) mod 2 + 2 * y)%N
  end.

(** A polygon: rings of points, a coordinate carried as the text Python
    prints for it. *)
Definition polygon := list (list (string * string)).

(** Modelled from the spec: [to_ewkt] ([utils.py] is not among the
    sources): [SRID=<srid>;POLYGON((x y,x y,...),...)]. *)
Definition to_ewkt (polygon : polygon) (srid : Z) : string :=
  "SRID=" +:+ pretty srid +:+ ";POLYGON(" +:+
  Py.join ","
    (map (fun ring =>
            "(" +:+ Py.join "," (map (fun '(x, y) => x +:+ " " +:+ y) ring) +:+ ")")
         polygon) +:+ ")".

End utils.

(** ** [cjio.models]: the city-model objects, as the module uses them

    A new [Geometry] has no boundaries; a new [CityObject] has no type, no
    geometry and no attributes. *)
Module cjio.

Record Geometry := {
  g_type : string;
  g_lod : string;
  boundaries : db.pyval
}.

Record CityObject := {
  id : db.pyval;
  co_type : option string;
  co_geometry : list Geometry;
  attributes : gmap string db.pyval
}.

Definition new_Geometry (type lod : string) : Geometry :=
  {| g_type := type; g_lod := lod; boundaries := db.PyList [] |}.

Definition new_CityObject (id : db.pyval) : CityObject :=
  {| id := id; co_type := None; co_geometry := []; attributes := ∅ |}.

End cjio.

(** ** [cjio_dbexport.db3dnl] *)
Module db3dnl.

Import Run.

(** The three fragments a selection gives: polygon source, attribute
    filter, extent. *)
Definition fragments : Type := sql.Composable * sql.Composable * sql.Composable.

(** [getattr(features.field.geometry, lod).sqlid] *)
Definition geometry_sqlid (features : db.Schema) (lod : string) : M sql.Composable :=
  match List.find (fun '(l, _) => String.eqb l lod) (db.geometry (db.field features)) with
  | Some (_, column) => ret (db.sqlid column)
  | None => raise (Py.AttributeError lod)
  end.

Definition tbl (features : db.Schema) : sql.Composable :=
  db.qualified (db.schema features) (db.table features).

(** [query_all]: the subquery of all the geometry in the table. *)
Definition query_all (features : db.Schema) (lod : string) : M fragments :=
  geometry <- geometry_sqlid features lod ;
  let query_params :=
    [("pk", db.sqlid (db.pk (db.field features)));
     ("coid", db.sqlid (db.cityobject_id (db.field features)));
     ("geometry", geometry);
     ("tbl", tbl features)] in
  sql_polygons <- sql.format "
    polygons AS (
        SELECT
            {pk}                      pk,
            ST_DumpPoints({geometry}) geom
        FROM 
            {tbl}
    )
    " query_params ;
  ret (sql_polygons, sql.Composed [], sql.Composed []).

(** [query_bbox]: the subquery of the geometry in a bounding box. *)
Definition query_bbox (features : db.Schema) (bbox : list Q) (epsg : Z) (lod : string)
    : M fragments :=
  geometry <- geometry_sqlid features lod ;
  xmin <- item bbox 0 ;
  ymin <- item bbox 1 ;
  xmax <- item bbox 2 ;
  ymax <- item bbox 3 ;
  let query_params :=
    [("pk", db.sqlid (db.pk (db.field features)));
     ("coid", db.sqlid (db.cityobject_id (db.field features)));
     ("geometry", geometry);
     ("epsg", sql.Literal (sql.LInt epsg));
     ("xmin", sql.Literal (sql.LNum xmin));
     ("ymin", sql.Literal (sql.LNum ymin));
     ("xmax", sql.Literal (sql.LNum xmax));
     ("ymax", sql.Literal (sql.LNum ymax));
     ("tbl", tbl features)] in
  sql_polygons <- sql.format "
    polygons AS (
        SELECT {pk}                      pk,
               ST_DumpPoints({geometry}) geom
        FROM
            {tbl}
        WHERE ST_Intersects(
            {geometry},
            ST_MakeEnvelope({xmin}, {ymin}, {xmax}, {ymax}, {epsg})
            )
    )
    " query_params ;
  sql_where_attr_intersects <- sql.format "
    WHERE ST_Intersects(
        a.{geometry},
        ST_MakeEnvelope({xmin}, {ymin}, {xmax}, {ymax}, {epsg})
        )
    " query_params ;
  ret (sql_polygons, sql_where_attr_intersects, sql.Composed []).

(** [query_extent]: the subquery of the geometry in a polygon. *)
Definition query_extent (features : db.Schema) (ewkt : string) (lod : string)
    : M fragments :=
  geometry <- geometry_sqlid features lod ;
  let query_params :=
    [("pk", db.sqlid (db.pk (db.field features)));
     ("coid", db.sqlid (db.cityobject_id (db.field features)));
     ("geometry", geometry);
     ("tbl", tbl features);
     ("poly", sql.Literal (sql.LText ewkt))] in
  sql_polygons <- sql.format "
    polygons AS (
        SELECT
            {pk}                      pk,
            ST_DumpPoints({geometry}) geom
        FROM
            {tbl}
        WHERE ST_Intersects(
            {geometry},
            {poly}
            )
    )
    " query_params ;
  sql_where_attr_intersects <- sql.format "
    WHERE ST_Intersects(
        a.{geometry},
        {poly}
        )
    " query_params ;
  ret (sql_polygons, sql_where_attr_intersects, sql.Composed []).

(** [query_tiles_in_list]: the subquery of the geometry in the tile list. *)
Definition query_tiles_in_list (features : db.Schema) (tile_index : db.TileSchema)
    (tile_list : list string) (lod : string) : M fragments :=
  tbl_geom <- geometry_sqlid features lod ;
  let query_params :=
    [("tbl", tbl features);
     ("tbl_pk", db.sqlid (db.pk (db.field features)));
     ("tbl_coid", db.sqlid (db.cityobject_id (db.field features)));
     ("tbl_geom", tbl_geom);
     ("tile_index", db.qualified (db.tx_schema tile_index) (db.tx_table tile_index));
     ("tx_geom", db.sqlid (db.tx_geometry tile_index));
     ("tx_pk", db.sqlid (db.tx_pk tile_index));
     ("tile_list", sql.Literal (sql.LTuple tile_list))] in
  sql_extent <- sql.format "
    extent AS (
        SELECT ST_Union({tx_geom}) geom
        FROM {tile_index}
        WHERE {tx_pk} IN {tile_list}),
    " query_params ;
  sql_polygon <- sql.format "
    geom_in_extent AS (
        SELECT a.*
        FROM {tbl} a,
            extent t
        WHERE ST_Intersects(t.geom,
                            a.{tbl_geom})),
    polygons AS (
        SELECT {tbl_pk}                  pk,
            ST_DumpPoints({tbl_geom}) geom
        FROM geom_in_extent b)
    " query_params ;
  sql_where_attr_intersects <- sql.format "
    ,extent t WHERE ST_Intersects(t.geom, a.{tbl_geom})
    " query_params ;
  ret (sql_polygon, sql_where_attr_intersects, sql_extent).

(** [query_geometry]: the PostGIS geometry re-aggregated into a
    CityJSON-like array, vertices into rings, rings into surfaces, surfaces
    into multi-surfaces. In [expand_points] the first vertex is skipped. *)
Definition query_geometry (conn : db.Db) (features : db.Schema)
    (polygons_sub extent_sub : sql.Composable) (lod : string) : M sql.Composable :=
  geometry <- geometry_sqlid features lod ;
  let query_params :=
    [("pk", db.sqlid (db.pk (db.field features)));
     ("coid", db.sqlid (db.cityobject_id (db.field features)));
     ("geometry", geometry);
     ("tbl", tbl features);
     ("polygons", polygons_sub);
     ("extent", extent_sub)] in
  sql.format "
    WITH
         {extent}
         {polygons},
         expand_points AS (
             SELECT pk,
                    (geom).PATH[1]         exterior,
                    (geom).PATH[2]         interior,
                    (geom).PATH[3]         vertex,
                    ARRAY [ST_X((geom).geom),
                        ST_Y((geom).geom),
                        ST_Z((geom).geom)] point
             FROM polygons
             WHERE (geom).PATH[3] > 1
             ORDER BY pk,
                      exterior,
                      interior,
                      vertex),
         rings AS (
             SELECT pk,
                    exterior,
                    interior,
                    ARRAY_AGG(point) geom
             FROM expand_points
             GROUP BY interior,
                      exterior,
                      pk
             ORDER BY exterior,
                      interior),
         surfaces AS (
             SELECT pk,
                    ARRAY_AGG(geom) geom
             FROM rings
             GROUP BY exterior,
                      pk
             ORDER BY exterior),
         multisurfaces AS (
             SELECT pk,
                    ARRAY_AGG(geom) geom
             FROM surfaces
             GROUP BY pk)
    SELECT b.pk,
           b.geom
    FROM multisurfaces b
    " query_params.

(** The columns of the attribute projection (lines 53-61 of
    [build_query]): the table's columns but the primary key, the geometry
    columns, the city-object id and the excluded ones. *)
Definition attr_columns (table_fields : list string) (features : db.Schema) : list string :=
  let f := db.field features in
  let exclude :=
    match db.exclude f with
    | Some (e :: es) => omap (fun x => x) (e :: es)
    | _ => []
    end in
  filter (fun col => (col ≠ db.pk f) ∧ (col ∉ map snd (db.geometry f)) ∧
                     (col ≠ db.cityobject_id f) ∧ (col ∉ exclude)) table_fields.

Definition attr_select (table_fields : list string) (features : db.Schema) : sql.Composable :=
  sql.Composed
    (sql.join (sql.SQL ", ")
       (map (fun col => sql.Identifier [col]) (attr_columns table_fields features))).

(** The levels of detail of the table, [list(features.field.geometry.keys())]. *)
Definition lods (features : db.Schema) : list string :=
  map fst (db.geometry (db.field features)).

(** The polygons subquery (lines 64-85 of [build_query]): the branch on
    the selection parameters. *)
Definition selection (features : db.Schema) (tile_index : db.TileSchema)
    (tile_list : option (list string)) (bbox : option (list Q))
    (extent : option utils.polygon) (epsg : Z) : M fragments :=
  if Py.truthy bbox then
    _ <- log INFO "Exporting with BBOX" [] ;
    lod <- item (lods features) 0 ;
    query_bbox features (default [] bbox) epsg lod
  else if Py.truthy tile_list then
    _ <- log INFO "Exporting with a list of tiles" (default [] tile_list) ;
    lod <- item (lods features) 0 ;
    query_tiles_in_list features tile_index (default [] tile_list) lod
  else if Py.truthy extent then
    _ <- log INFO "Exporting with polygon extent" [] ;
    let ewkt := utils.to_ewkt (default [] extent) epsg in
    lod <- item (lods features) 0 ;
    query_extent features ewkt lod
  else
    _ <- log INFO "Exporting the whole database" [] ;
    lod <- item (lods features) 0 ;
    query_all features lod.

(** The main query (lines 87-117 of [build_query]). *)
Definition main_query (conn : db.Db) (features : db.Schema) (fr : fragments)
    : M sql.Composable :=
  let '(polygons_sub, attr_where, extent_sub) := fr in
  lod <- item (lods features) 0 ;
  geometry <- query_geometry conn features polygons_sub extent_sub lod ;
  let query_params :=
    [("pk", db.sqlid (db.pk (db.field features)));
     ("coid", db.sqlid (db.cityobject_id (db.field features)));
     ("tbl", tbl features);
     ("attr", attr_select (db.get_fields conn (tbl features)) features);
     ("where_instersects", attr_where);
     ("extent", extent_sub);
     ("query_geometry", geometry)] in
  sql.format "
    WITH
         {extent}
         attr_in_extent AS (
             SELECT {pk} pk,
                    {coid} coid,
                    {attr}
             FROM {tbl} a
             {where_instersects}),
         multisurfaces AS ({query_geometry})
    SELECT *
    FROM multisurfaces b
             INNER JOIN attr_in_extent a ON
        b.pk = a.pk;
    " query_params.

(** [build_query]: the SQL query that extracts the city objects of one
    table. *)
Definition build_query (conn : db.Db) (features : db.Schema) (tile_index : db.TileSchema)
    (tile_list : option (list string)) (bbox : option (list Q))
    (extent : option utils.polygon) : M sql.Composable :=
  let epsg := 7415%Z in
  fr <- selection features tile_index tile_list bbox extent epsg ;
  main_query conn features fr.

(** *** What [expand_points] computes

    The relational reading of the first subquery of [query_geometry]:
    [SELECT pk, (geom).PATH[1] exterior, (geom).PATH[2] interior,
    (geom).PATH[3] vertex, point FROM polygons WHERE (geom).PATH[3] > 1
    ORDER BY pk, exterior, interior, vertex]. *)














(** *** Tile selection

    [index] stands for the tile-id column of the tile index table as the
    connection reads it, row by row. *)

(** [all_in_index]: [SELECT DISTINCT tile FROM index]. *)
Definition all_in_index (index : list string) : list string := remove_dups index.

(** [tiles_in_index]: [SELECT DISTINCT tile FROM index WHERE tile IN tiles];
    the ids that are not found are logged. *)
Definition tiles_in_index (index tile_list : list string) : M (list string) :=
  let in_index := remove_dups (filter (fun t => t ∈ tile_list) index) in
  let not_found : gset string := list_to_set tile_list ∖ list_to_set in_index in
  _ <- (if (0 <? size not_found)%nat
        then log WARNING "The provided tile IDs are not in the index, they are skipped."
                 (elements not_found)
        else ret tt) ;
  ret in_index.

(** [with_list]: the tiles selected by a list of tile ids. *)
Definition with_list (index tile_list : list string) : M (list string) :=
  first <- item tile_list 0 ;
  in_index <-
    (if String.eqb "all" (Py.lower first) then
       _ <- log INFO "Getting all tiles from the index." [] ;
       ret (all_in_index index)
     else
       _ <- log INFO "Verifying if the provided tiles are in the index." [] ;
       tiles_in_index index tile_list) ;
  if (length in_index =? 0)%nat then
    raise (Py.AttributeError "None of the provided tiles are present in the index.")
  else ret in_index.

(** *** Parsing POLYGON Z *)

(** [(?<=POLYGON Z \().*(?!$)] *)
Definition outer_pat : re.pattern :=
  [re.LookBehind "POLYGON Z ("; re.Star re.dot; re.NotAtEnd].

(** [\(([^)]+)\)] *)
Definition ring_pat : re.pattern :=
  [re.Char (re.is_char "("); re.GroupOpen;
   re.Char (re.not_char ")"); re.Star (re.not_char ")");
   re.GroupClose; re.Char (re.is_char ")")].

Section parse_polygonz.

(** [float(s)]: the number a text stands for, [None] when it is none. *)
Variable F : Type.
Variable float : string -> option F.

(** [tuple(map(float, pt.split()))] *)
Definition parse_point (pt : string) : option (list F) := mapM float (Py.split_ws pt).

(** [[tuple(map(float, pt.split())) for pt in ring.split(',')]] *)
Definition parse_ring (ring : string) : option (list (list F)) :=
  mapM parse_point (Py.split "," ring).

(** The loop over the rings: every ring is yielded without its first
    point. *)
Fixpoint parse_rings (rings : list string) : gen (list (list F)) :=
  match rings with
  | [] => Gen [] [] Py.Finished
  | ring :: rings' =>
      match parse_ring ring with
      | Some pts => yield_then [] (tail pts) (parse_rings rings')
      | None => Gen [] [] (Py.Raised (Py.ValueError "could not convert string to float"))
      end
  end.

(** [parse_polygonz]: a POLYGON Z of WKT into the rings of a surface. *)
Definition parse_polygonz (wkt_polygonz : string) : gen (list (list F)) :=
  match re.findall outer_pat wkt_polygonz with
  | outer0 :: _ => parse_rings (re.findall ring_pat outer0)
  | [] => Gen [] [LogRecord ERROR "Not a POLYGON Z" []] Py.Finished
  end.

End parse_polygonz.

(** *** The export scheduler *)

(** The database the export runs on: the connection [db.Db] opens from
    [conn_cfg], and the one the pool gives for a key. *)
Record Server := {
  connect : db.Db;
  getconn : string * string -> db.Db
}.

(** What the scheduler yields: (object type, table name) and the rows. *)
Definition table_result : Type := (string * string) * list db.record.

(** A run of the scheduler: the generator's run, and what [get_dict] was
    called with, call by call. *)
Record export_run := {
  run : gen table_result;
  executed : list db.get_dict_arg
}.

(** One thread per table: the pairs of [cityobject_type.items()] with
    each of their tables. *)
Definition tables (cityobject_type : list (string * list db.Schema))
    : list (string * db.Schema) :=
  cotype_cotables ← cityobject_type;
  map (pair (fst cotype_cotables)) (snd cotype_cotables).

(** [ClickException(f"Could not query {cotable}. Check the logs for
    details.")] *)
Definition could_not_query (cotable : db.Schema) : Py.exn :=
  Py.ClickException ("Could not query " +:+ db.mapping cotable +:+
                     ". Check the logs for details.").

(** The loop of [threads == 1] (lines 403-419). The query built for the
    table is bound to [sql_query]; [get_dict] is called with [query], the
    name of the enclosing function. *)
Fixpoint query_single (conn : db.Db) (tile_index : db.TileSchema)
    (tile_list : option (list string)) (bbox : option (list Q))
    (extent : option utils.polygon) (todo : list (string * db.Schema)) : export_run :=
  match todo with
  | [] => {| run := Gen [] [] Py.Finished; executed := [] |}
  | (cotype, cotable) :: todo' =>
      match build_query conn cotable tile_index tile_list bbox extent with
      | (l, Err e) => {| run := Gen [] l (Py.Raised e); executed := [] |}
      | (l, Ok sql_query) =>
          match db.get_dict conn db.ArgFunctionQuery with
          | db.Rows resultset =>
              let rest := query_single conn tile_index tile_list bbox extent todo' in
              {| run := yield_then l ((cotype, db.table cotable), resultset) (run rest);
                 executed := db.ArgFunctionQuery :: executed rest |}
          | db.PgError pgcode pgerror =>
              {| run := Gen [] (l ++ [LogRecord ERROR "pgError" [pgcode; pgerror]])
                            (Py.Raised (could_not_query cotable));
                 executed := [db.ArgFunctionQuery] |}
          | db.OtherError e =>
              {| run := Gen [] l (Py.Raised e); executed := [db.ArgFunctionQuery] |}
          end
      end
  end.

(** A submitted query: its key in [future_to_table], the query, and what
    [future.result()] gives. *)
Record future := {
  key : string * string;
  submitted : sql.Composable;
  outcome : db.db_result
}.

(** The submission loop of [threads > 1] (lines 431-447): every table's
    query is built and submitted on a connection of its own. *)
Fixpoint submit_all (server : Server) (tile_index : db.TileSchema)
    (tile_list : option (list string)) (bbox : option (list Q))
    (extent : option utils.polygon) (todo : list (string * db.Schema)) : M (list future) :=
  match todo with
  | [] => ret []
  | (cotype, cotable) :: todo' =>
      let tablename := db.table cotable in
      let conn := getconn server (cotype, tablename) in
      sql_query <- build_query conn cotable tile_index tile_list bbox extent ;
      let f := {| key := (cotype, tablename);
                  submitted := sql_query;
                  outcome := db.get_dict conn (db.ArgSql sql_query) |} in
      futures <- submit_all server tile_index tile_list bbox extent todo' ;
      ret (f :: futures)
  end.

(** The queries that were submitted when the submission loop ends, also
    when it ends with the error of a table whose query cannot be built:
    the executor runs what was submitted before the [with] block is
    left. *)
Fixpoint submitted_queries (server : Server) (tile_index : db.TileSchema)
    (tile_list : option (list string)) (bbox : option (list Q))
    (extent : option utils.polygon) (todo : list (string * db.Schema))
    : list sql.Composable :=
  match todo with
  | [] => []
  | (cotype, cotable) :: todo' =>
      let conn := getconn server (cotype, db.table cotable) in
      match snd (build_query conn cotable tile_index tile_list bbox extent) with
      | Ok sql_query =>
          sql_query :: submitted_queries server tile_index tile_list bbox extent todo'
      | Err _ => []
      end
  end.

(** The loop over [as_completed(future_to_table)] (lines 452-460). The key
    of the future gives [cotype] and [tablename]; the name that is yielded
    is [cotable['table']], and [cotable] is what the submission loop left
    in it: its last table. *)
Fixpoint yield_completed (cotable : db.Schema) (completed : list future)
    : gen table_result :=
  match completed with
  | [] => Gen [] [] Py.Finished
  | f :: completed' =>
      let '(cotype, tablename) := key f in
      match outcome f with
      | db.Rows resultset =>
          yield_then [] ((cotype, db.table cotable), resultset)
                     (yield_completed cotable completed')
      | db.PgError pgcode pgerror =>
          Gen [] [LogRecord ERROR "pgError" [pgcode; pgerror]]
              (Py.Raised (could_not_query cotable))
      | db.OtherError e => Gen [] [] (Py.Raised e)
      end
  end.

(** The futures in the order they complete; [completion] lists their
    positions in submission order. *)
Definition as_completed (completion : list nat) (futures : list future) : list future :=
  omap (fun i => futures !! i) completion.

Definition query_pool (server : Server) (tile_index : db.TileSchema)
    (tile_list : option (list string)) (bbox : option (list Q))
    (extent : option utils.polygon) (todo : list (string * db.Schema))
    (completion : list nat) : export_run :=
  match submit_all server tile_index tile_list bbox extent todo with
  | (l, Err e) =>
      {| run := Gen [] l (Py.Raised e);
         executed :=
           map db.ArgSql
               (submitted_queries server tile_index tile_list bbox extent todo) |}
  | (l, Ok futures) =>
      let g :=
        match List.last (map Some (map snd todo)) None with
        | Some cotable => yield_completed cotable (as_completed completion futures)
        | None => Gen [] [] Py.Finished
        end in
      {| run := Gen (yields g) (l ++ logged g) (ending g);
         executed := map (fun f => db.ArgSql (submitted f)) futures |}
  end.

(** [query]: export the tables from PostgreSQL, single-threaded or with a
    thread and a pooled connection per table. [completion] is the order in
    which the submitted queries complete. *)
Definition query (server : Server) (tile_index : db.TileSchema)
    (cityobject_type : list (string * list db.Schema)) (threads : option Z)
    (tile_list : option (list string)) (bbox : option (list Q))
    (extent : option utils.polygon) (completion : list nat) : export_run :=
  let todo := tables cityobject_type in
  let threads := default (Z.of_nat (length todo)) threads in
  if (threads =? 1)%Z then
    query_single (connect server) tile_index tile_list bbox extent todo
  else if (1 <? threads)%Z then
    query_pool server tile_index tile_list bbox extent todo completion
  else
    {| run := Gen [] [] (Py.Raised (Py.ValueError "Number of threads must be greater than 0."));
       executed := [] |}.

(** *** The record converter *)

(** [record[key]] *)
Definition get (record : db.record) (key : string) : M db.pyval :=
  match List.find (fun kv => String.eqb (fst kv) key) record with
  | Some (_, v) => ret v
  | None => raise (Py.KeyError key)
  end.

(** The attribute loop (lines 552-557): every item of the record but
    [pk], [geom] and [coid] is copied, a timestamp as its ISO text. *)
Definition parse_attributes (record : db.record) (attributes : gmap string db.pyval)
    : gmap string db.pyval :=
  fold_left
    (fun attrs kv =>
       let '(key, attr) := kv in
       if negb (String.eqb key "pk") && negb (String.eqb key "geom") &&
          negb (String.eqb key "coid")
       then match attr with
            | db.PyDatetime iso => <[key := db.PyStr iso]> attrs
            | _ => <[key := attr]> attrs
            end
       else attrs)
    record attributes.

(** The body of the loop of [table_to_cityobjects]: one record into one
    city object. *)
Definition record_to_cityobject (record : db.record) (cotype geomtype lod : string)
    : M (db.pyval * cjio.CityObject) :=
  coid <- get record "coid" ;
  let co := cjio.new_CityObject coid in
  let geom := cjio.new_Geometry geomtype lod in
  geom <-
    (if String.eqb geomtype "Solid" then
       g <- get record "geom" ;
       ret {| cjio.g_type := cjio.g_type geom; cjio.g_lod := cjio.g_lod geom;
              cjio.boundaries := db.PyList [g] |}
     else if String.eqb geomtype "MultiSurface" then
       g <- get record "geom" ;
       ret {| cjio.g_type := cjio.g_type geom; cjio.g_lod := cjio.g_lod geom;
              cjio.boundaries := g |}
     else ret geom) ;
  ret (coid,
       {| cjio.id := cjio.id co;
          cjio.co_type := Some cotype;
          cjio.co_geometry := cjio.co_geometry co ++ [geom];
          cjio.attributes := parse_attributes record (cjio.attributes co) |}).

(** [table_to_cityobjects]: the records of a table into city objects. *)
Fixpoint table_to_cityobjects (tabledata : list db.record) (cotype geomtype lod : string)
    : gen (db.pyval * cjio.CityObject) :=
  match tabledata with
  | [] => Gen [] [] Py.Finished
  | record :: tabledata' =>
      match record_to_cityobject record cotype geomtype lod with
      | (l, Ok coid_co) =>
          yield_then l coid_co (table_to_cityobjects tabledata' cotype geomtype lod)
      | (l, Err e) => Gen [] l (Py.Raised e)
      end
  end.

(** The geometry kind of an object type (lines 566-571 of
    [dbexport_to_cityobjects]). *)
Definition geomtype (cotype : string) : string :=
  if String.eqb (Py.lower cotype) "building" then "Solid" else "MultiSurface".

(** The generator [g], then the generator [next] when [g] finished. *)
Definition gen_then {A} (g next : gen A) : gen A :=
  match ending g with
  | Py.Finished => Gen (yields g ++ yields next) (logged g ++ logged next) (ending next)
  | Py.Raised e => g
  end.

(** [dbexport_to_cityobjects]: the city objects of every exported table.
    [dbexport] is what the export yields and [at_end] how it ends. *)
Fixpoint dbexport_to_cityobjects (dbexport : list table_result) (at_end : Py.outcome)
    (lod : string) : gen (db.pyval * cjio.CityObject) :=
  match dbexport with
  | [] => Gen [] [] at_end
  | ((cotype, cotable), tabledata) :: dbexport' =>
      gen_then (table_to_cityobjects tabledata cotype (geomtype cotype) lod)
               (dbexport_to_cityobjects dbexport' at_end lod)
  end.

(** The nesting depth of a boundary: a list is one level above its
    deepest item. *)
Fixpoint depth (v : db.pyval) : nat :=
  match v with
  | db.PyList items => S (foldr (fun item d => Nat.max (depth item) d) 0%nat items)
  | _ => 0%nat
  end.

(** *** The other schedulers *)

(** [_query_single] (lines 512-533): single thread, single connection.
    The query built for the table is the one that is executed, and the
    table's rows are yielded after it. *)
Fixpoint _query_single (conn : db.Db) (tile_index : db.TileSchema)
    (tile_list : option (list string)) (bbox : option (list Q))
    (extent : option utils.polygon) (todo : list (string * db.Schema)) : export_run :=
  match todo with
  | [] => {| run := Gen [] [] Py.Finished; executed := [] |}
  | (cotype, cotable) :: todo' =>
      let info := LogRecord INFO "CityObject from table" [cotype; db.table cotable] in
      match build_query conn cotable tile_index tile_list bbox extent with
      | (l, Err e) => {| run := Gen [] (info :: l) (Py.Raised e); executed := [] |}
      | (l, Ok query) =>
          match db.get_dict conn (db.ArgSql query) with
          | db.Rows tabledata =>
              let rest := _query_single conn tile_index tile_list bbox extent todo' in
              {| run := yield_then (info :: l) ((cotype, db.table cotable), tabledata)
                                   (run rest);
                 executed := db.ArgSql query :: executed rest |}
          | db.PgError pgcode pgerror =>
              {| run := Gen [] (info :: l ++ [LogRecord ERROR "pgError" [pgcode; pgerror]])
                            (Py.Raised (could_not_query cotable));
                 executed := [db.ArgSql query] |}
          | db.OtherError e =>
              {| run := Gen [] (info :: l) (Py.Raised e); executed := [db.ArgSql query] |}
          end
      end
  end.

(** [_query_no_pool] (lines 468-510): a thread per table, all on one
    connection. [ThreadPoolExecutor] refuses a number of workers that is
    not positive. *)
Definition _query_no_pool (conn : db.Db) (tile_index : db.TileSchema)
    (cityobject_type : list (string * list db.Schema)) (threads : option Z)
    (tile_list : option (list string)) (bbox : option (list Q))
    (extent : option utils.polygon) (completion : list nat) : export_run :=
  let todo := tables cityobject_type in
  let threads := default (Z.of_nat (length todo)) threads in
  if (threads <=? 0)%Z then
    {| run := Gen [] [] (Py.Raised (Py.ValueError "max_workers must be greater than 0"));
       executed := [] |}
  else
    query_pool {| connect := conn; getconn := fun _ => conn |}
               tile_index tile_list bbox extent todo completion.

(** *** From the export to the city model and the file *)

(** What [fout.write(json_str)] and the closing of the file at the end of
    [with] do to a file that was opened: the text is [Written]; or one of
    them raises [OSError], which [IOError] names, and [kept] is what the
    file holds then. *)
Inductive written :=
| Written
| WriteFailed (kept : string).

Section to_citymodel.

(** [cjio.cityjson.CityJSON], and what the module asks of it: the new
    city model of the converted objects ([cm.cityobjects = dict(...)],
    [reference_geometry], [add_to_j], [update_bbox], [set_epsg]), its truth
    value, the two clean-ups, and [json.dumps] of [cm.j]. *)
Variable CityJSON : Type.
Variable assemble : list (db.pyval * cjio.CityObject) -> res CityJSON.
Variable bool_of : CityJSON -> bool.
Variable remove_duplicate_vertices : CityJSON -> res CityJSON.
Variable remove_orphan_vertices : CityJSON -> res CityJSON.
Variable dumps : CityJSON -> res string.

(** Writing a text to the file opened at a path. *)
Variable write : string -> string -> written.

(** [convert]: the exported city model as CityJSON. [dbexport] is the run
    of the export generator, which [dict(...)] consumes; [assemble] has
    the error of [dict] for an id that cannot be a key. *)
Definition convert (dbexport : export_run) (lod : string) : M CityJSON :=
  let g := dbexport_to_cityobjects (yields (run dbexport)) (ending (run dbexport)) lod in
  match ending g with
  | Py.Raised e => (logged (run dbexport) ++ logged g, Err e)
  | Py.Finished =>
      match assemble (yields g) with
      | Ok cm => (logged (run dbexport) ++ logged g ++
                  [LogRecord INFO "Exported CityModel" []], Ok cm)
      | Err e => (logged (run dbexport) ++ logged g, Err e)
      end
  end.

(** [to_citymodel]: the cleaned city model, or [None] after an error. *)
Definition to_citymodel (dbexport : export_run) (lod : string)
    : list log_record * option CityJSON :=
  match convert dbexport lod with
  | (l, Err e) =>
      (l ++ [LogRecord ERROR "Failed to convert database export to CityJSON" []], None)
  | (l, Ok cm) =>
      if bool_of cm then
        match remove_duplicate_vertices cm with
        | Err e => (l ++ [LogRecord ERROR "Failed to remove duplicate vertices" []], None)
        | Ok cm1 =>
            match remove_orphan_vertices cm1 with
            | Err e => (l ++ [LogRecord ERROR "Failed to remove orphan vertices" []], None)
            | Ok cm2 => (l, Some cm2)
            end
        end
      else (l, None)
  end.

(** The configuration [export] reads. *)
Record Config := {
  database : Server;
  cfg_tile_index : db.TileSchema;
  cfg_cityobject_type : list (string * list db.Schema);
  cfg_lod : string
}.

(** The files: path to content. [can_open] tells whether [open(path, 'w')]
    succeeds; when it does the file is empty, and when it does not it
    raises [OSError]. *)
Definition files := gmap string string.

(** [export]: a tile from PostgreSQL to a CityJSON file. The result is the
    files after the call, the log, and what is returned or raised.
    [filepath] is the text of a path. An error of [json.dumps] is none
    that [except IOError] catches. *)
Definition export (can_open : string -> bool) (fs : files) (tile : string)
    (filepath : string) (cfg : Config) : files * M (bool * string) :=
  let dbexport :=
    query (database cfg) (cfg_tile_index cfg) (cfg_cityobject_type cfg) (Some 1%Z)
          (Some [tile]) None None [] in
  match to_citymodel dbexport (cfg_lod cfg) with
  | (l, Some cm) =>
      if can_open filepath then
        match dumps cm with
        | Ok json_str =>
            match write filepath json_str with
            | Written => (<[filepath := json_str]> fs, (l, Ok (true, filepath)))
            | WriteFailed kept =>
                (<[filepath := kept]> fs,
                 (l ++ [LogRecord ERROR "Invalid output file" [filepath]],
                  Ok (false, filepath)))
            end
        | Err e => (<[filepath := ""]> fs, (l, Err e))
        end
      else (fs, (l ++ [LogRecord ERROR "Invalid output file" [filepath]],
                 Ok (false, filepath)))
  | (l, None) =>
      (fs, (l ++ [LogRecord ERROR "Failed to create CityJSON" [filepath]],
            Ok (false, filepath)))
  end.

End to_citymodel.

End db3dnl.

(** ** Notions the properties are stated with *)
Module Spec.

(** The tiles a tile list stands for: every tile of the index for [all],
    the listed tiles that the index has otherwise. *)
Definition effective_tiles (index tile_list : list string) : gset string :=
  match tile_list with
  | first :: _ =>
      if String.eqb "all" (Py.lower first) then list_to_set index
      else list_to_set tile_list ∩ list_to_set index
  | [] => ∅
  end.

(** What [with_list] raises when no tile is selected. *)
Definition none_present : Py.exn :=
  Py.AttributeError "None of the provided tiles are present in the index.".

(** The record that tells which tile ids were skipped. *)
Definition skipped (ids : list string) : Run.log_record :=
  Run.LogRecord Run.WARNING
    "The provided tile IDs are not in the index, they are skipped." ids.

(** The four selections of the query builder. *)
Inductive branch := BoundingBox | TileList | PolygonExtent | WholeTable.

(** BoundingBox over TileList over PolygonExtent over WholeTable. *)
Definition precedence (tile_list : option (list string)) (bbox : option (list Q))
    (extent : option utils.polygon) : branch :=
  if Py.truthy bbox then BoundingBox
  else if Py.truthy tile_list then TileList
  else if Py.truthy extent then PolygonExtent
  else WholeTable.

(** The branch a log record tells of. *)
Definition branch_of (r : Run.log_record) : option branch :=
  if String.eqb (Run.msg r) "Exporting with BBOX" then Some BoundingBox
  else if String.eqb (Run.msg r) "Exporting with a list of tiles" then Some TileList
  else if String.eqb (Run.msg r) "Exporting with polygon extent" then Some PolygonExtent
  else if String.eqb (Run.msg r) "Exporting the whole database" then Some WholeTable
  else None.

Definition branches_taken (log : list Run.log_record) : list branch :=
  omap branch_of log.

(** The plan of a branch: its log record and its fragments. *)
Definition plan (b : branch) (features : db.Schema) (tile_index : db.TileSchema)
    (tile_list : option (list string)) (bbox : option (list Q))
    (extent : option utils.polygon) : Run.M db3dnl.fragments :=
  match b with
  | BoundingBox =>
      _ <- Run.log Run.INFO "Exporting with BBOX" [] ;
      lod <- Run.item (db3dnl.lods features) 0 ;
      db3dnl.query_bbox features (default [] bbox) 7415 lod
  | TileList =>
      _ <- Run.log Run.INFO "Exporting with a list of tiles" (default [] tile_list) ;
      lod <- Run.item (db3dnl.lods features) 0 ;
      db3dnl.query_tiles_in_list features tile_index (default [] tile_list) lod
  | PolygonExtent =>
      _ <- Run.log Run.INFO "Exporting with polygon extent" [] ;
      lod <- Run.item (db3dnl.lods features) 0 ;
      db3dnl.query_extent features (utils.to_ewkt (default [] extent) 7415) lod
  | WholeTable =>
      _ <- Run.log Run.INFO "Exporting the whole database" [] ;
      lod <- Run.item (db3dnl.lods features) 0 ;
      db3dnl.query_all features lod
  end.

(** The text of a POLYGON Z with the given rings, a ring being the texts
    of its points: [POLYGON Z ((p,p,...),(p,...))]. *)
Definition ring_text (ring : list string) : string :=
  "(" +:+ Py.join "," ring +:+ ")".

Definition polygonz_text (rings : list (list string)) : string :=
  "POLYGON Z (" +:+ Py.join "," (map ring_text rings) +:+ ")".

(** A character a point's text may have: no comma, parenthesis or
    newline. *)
Definition point_char (c : ascii) : bool :=
  negb (Ascii.eqb c ",") && negb (Ascii.eqb c "(") && negb (Ascii.eqb c ")") &&
  negb (Ascii.eqb c "010").

Definition point_text (pt : string) : Prop :=
  pt <> "" ∧ forallb point_char (list_ascii_of_string pt) = true.

(** A well-formed ring has a point, and every point is a text that stands
    for a tuple of numbers. *)
Definition well_formed_ring {F} (float : string -> option F) (ring : list string) : Prop :=
  ring <> [] ∧
  Forall (fun pt => point_text pt ∧ is_Some (db3dnl.parse_point F float pt)) ring.


(** The class does not hold of the first character of [rest], if any. *)
Definition stops (p : ascii -> bool) (rest : list ascii) : Prop :=
  match rest with
  | [] => True
  | c :: _ => p c = false
  end.

(** The boundary of the geometry a record is converted to. *)
Definition boundary_of (record : db.record) (cotype geomtype lod : string)
    : option db.pyval :=
  match snd (db3dnl.record_to_cityobject record cotype geomtype lod) with
  | Run.Ok (_, co) => cjio.boundaries <$> head (cjio.co_geometry co)
  | Run.Err _ => None
  end.

(** The attributes a record is converted to. *)
Definition attributes_of (record : db.record) (cotype geomtype lod : string)
    : option (gmap string db.pyval) :=
  match snd (db3dnl.record_to_cityobject record cotype geomtype lod) with
  | Run.Ok (_, co) => Some (cjio.attributes co)
  | Run.Err _ => None
  end.

(** The columns of a row of the main query: [pk] and [geom] of
    [multisurfaces], [pk], [coid] and the attribute projection of
    [attr_in_extent]. *)
Definition result_columns (table_fields : list string) (features : db.Schema)
    : list string :=
  "pk" :: "geom" :: "coid" :: db3dnl.attr_columns table_fields features.

(** The primary-key, city-object-id and geometry columns of a table. *)
Definition key_columns (features : db.Schema) : list string :=
  db.pk (db.field features) :: db.cityobject_id (db.field features)
    :: map snd (db.geometry (db.field features)).

(** The column names an attribute projection lists. *)
Definition identifiers (c : sql.Composable) : list string :=
  match c with
  | sql.Composed parts =>
      omap (fun part => match part with
                        | sql.Identifier [col] => Some col
                        | _ => None
                        end) parts
  | _ => []
  end.

(** What the attribute loop stores for a value: a timestamp as its ISO
    text, anything else as it is. *)
Definition attribute_value (v : db.pyval) : db.pyval :=
  match v with
  | db.PyDatetime iso => db.PyStr iso
  | _ => v
  end.

(** The keys the attribute loop skips. *)
Definition skipped_keys : list string := ["pk"; "geom"; "coid"].

(** The kinds whose boundary is read from the record. *)
Definition reads_geom (geomtype : string) : bool :=
  String.eqb geomtype "Solid" || String.eqb geomtype "MultiSurface".

(** A record has the keys its conversion reads. *)
Definition convertible (geomtype : string) (record : db.record) : Prop :=
  (exists coid, db3dnl.get record "coid" = Run.ret coid) ∧
  (reads_geom geomtype = true -> exists geom, db3dnl.get record "geom" = Run.ret geom).

(** The rows a table's own query is answered with on its pooled
    connection; none when the query is not built or not answered. *)
Definition table_rows (server : db3dnl.Server) (tile_index : db.TileSchema)
    (tile_list : option (list string)) (bbox : option (list Q))
    (extent : option utils.polygon) (t : string * db.Schema) : list db.record :=
  let conn := db3dnl.getconn server (fst t, db.table (snd t)) in
  match db3dnl.build_query conn (snd t) tile_index tile_list bbox extent with
  | (_, Run.Ok q) =>
      match db.get_dict conn (db.ArgSql q) with
      | db.Rows rows => rows
      | _ => []
      end
  | _ => []
  end.

(** A table whose query is built and answered with rows. *)
Definition answered (server : db3dnl.Server) (tile_index : db.TileSchema)
    (tile_list : option (list string)) (bbox : option (list Q))
    (extent : option utils.polygon) (t : string * db.Schema) : Prop :=
  let conn := db3dnl.getconn server (fst t, db.table (snd t)) in
  exists l q rows,
    db3dnl.build_query conn (snd t) tile_index tile_list bbox extent = (l, Run.Ok q) ∧
    db.get_dict conn (db.ArgSql q) = db.Rows rows.

(** A selection parameter with the empty sequence read as [None]. *)
Definition supplied_only {A} (x : option (list A)) : option (list A) :=
  match x with
  | Some [] => None
  | _ => x
  end.

End Spec.

(** ** A small database to run the export on *)
Module Fixture.

Definition fields (pk coid geom : string) : db.Fields :=
  {| db.pk := pk; db.cityobject_id := coid;
     db.geometry := [("lod12", geom)]; db.exclude := None |}.

Definition building_a : db.Schema :=
  {| db.schema := "public"; db.table := "a"; db.field := fields "gid" "id" "geometrie";
     db.mapping := "{'schema': 'public', 'table': 'a', 'field': {'pk': 'gid', " +:+
                   "'geometry': {'lod12': 'geometrie'}, 'cityobject_id': 'id'}}" |}.

Definition building_b : db.Schema :=
  {| db.schema := "public"; db.table := "b"; db.field := fields "gid" "id" "geometrie";
     db.mapping := "{'schema': 'public', 'table': 'b', 'field': {'pk': 'gid', " +:+
                   "'geometry': {'lod12': 'geometrie'}, 'cityobject_id': 'id'}}" |}.

(** A table description that names no geometry column. *)
Definition no_geometry : db.Schema :=
  {| db.schema := "public"; db.table := "c";
     db.field := {| db.pk := "gid"; db.cityobject_id := "id";
                    db.geometry := []; db.exclude := None |};
     db.mapping := "{'schema': 'public', 'table': 'c', 'field': {'pk': 'gid', " +:+
                   "'geometry': {}, 'cityobject_id': 'id'}}" |}.

Definition tile_index : db.TileSchema :=
  {| db.tx_schema := "tile_index"; db.tx_table := "tiles";
     db.tx_pk := "tile_id"; db.tx_geometry := "geom" |}.

(** The table a composed query selects from: its first qualified name. *)
Definition queried_table (q : sql.Composable) : string :=
  match q with
  | sql.Composed parts =>
      default "" (head (omap (fun part => match part with
                                           | sql.Identifier [_; t] => Some t
                                           | _ => None
                                           end) parts))
  | _ => ""
  end.

(** A connection whose every table has one row, which names its table;
    executing what is no query is a type error. *)
Definition conn : db.Db :=
  {| db.get_fields := fun _ => ["gid"; "id"; "geometrie"; "name"];
     db.get_dict := fun arg =>
       match arg with
       | db.ArgSql q => db.Rows [[("rows_of", db.PyStr (queried_table q))]]
       | db.ArgFunctionQuery =>
           db.OtherError (Py.TypeError "argument 1 must be a string or unicode object")
       end |}.

Definition server : db3dnl.Server :=
  {| db3dnl.connect := conn; db3dnl.getconn := fun _ => conn |}.

Definition cityobject_type : list (string * list db.Schema) :=
  [("Building", [building_a; building_b])].

(** A connection on which the table [b] does not exist. *)
Definition conn_without_b : db.Db :=
  {| db.get_fields := fun _ => ["gid"; "id"; "geometrie"; "name"];
     db.get_dict := fun arg =>
       match arg with
       | db.ArgSql q =>
           if String.eqb (queried_table q) "b"
           then db.PgError "42P01" "relation does not exist"
           else db.Rows [[("rows_of", db.PyStr (queried_table q))]]
       | db.ArgFunctionQuery =>
           db.OtherError (Py.TypeError "argument 1 must be a string or unicode object")
       end |}.

Definition cfg : db3dnl.Config :=
  {| db3dnl.database := server;
     db3dnl.cfg_tile_index := tile_index;
     db3dnl.cfg_cityobject_type := cityobject_type;
     db3dnl.cfg_lod := "lod12" |}.

End Fixture.

(* ===================================================================== *)
(** * Part II. Properties                                                  *)
(* ===================================================================== *)

(** ** The definitions on small inputs *)

Example lower_Building : Py.lower "BuiLDing" = "building".
Proof. reflexivity. Qed.

Example split_ring : Py.split "," "0 0 0,1 0 0" = ["0 0 0"; "1 0 0"].
Proof. reflexivity. Qed.

Example split_ws_pt : Py.split_ws " 1.5  2 3 " = ["1.5"; "2"; "3"].
Proof. reflexivity. Qed.

(** U+00A0, the bytes 194 160, is a blank; U+00E0, the bytes 195 160, is
    none. *)
Example split_ws_no_break_space :
  Py.split_ws ("1" +:+ String (ascii_of_nat 194) (String (ascii_of_nat 160) "2 3"))
  = ["1"; "2"; "3"] ∧
  Py.split_ws (String (ascii_of_nat 195) (String (ascii_of_nat 160) "2 3"))
  = [String (ascii_of_nat 195) (String (ascii_of_nat 160) "2"); "3"] ∧
  Py.split_ws ("1" +:+ String (ascii_of_nat 227) (String (ascii_of_nat 128)
                         (String (ascii_of_nat 128) "2")))
  = ["1"; "2"].
Proof. repeat split; reflexivity. Qed.

Example findall_groups :
  re.findall db3dnl.ring_pat "(ab),(c)()" = ["ab"; "c"].
Proof. reflexivity. Qed.

Example findall_outer_empty : re.findall db3dnl.outer_pat "POLYGON Z (" = [].
Proof. reflexivity. Qed.

Example to_ewkt_test :
  utils.to_ewkt [[("0.0","0.0"); ("1.0","1.0"); ("1.0","0.0"); ("0.0","0.0")]] 7415
  = "SRID=7415;POLYGON((0.0 0.0,1.0 1.0,1.0 0.0,0.0 0.0))".
Proof. vm_compute. reflexivity. Qed.

Example morton_code_3_5 : utils.morton_code 32 3 5 = 39%N.
Proof. reflexivity. Qed.

Example parse_polygonz_test :
  db3dnl.parse_polygonz string (fun s => Some s)
    "POLYGON Z ((0 0 0,1 0 0,1 1 0,0 0 0),(2 2 2,3 3 3,2 2 2))"
  = Run.Gen [[["1";"0";"0"];["1";"1";"0"];["0";"0";"0"]]; [["3";"3";"3"];["2";"2";"2"]]]
            [] Py.Finished.
Proof. vm_compute. reflexivity. Qed.

Example parse_polygonz_not_polygon :
  db3dnl.parse_polygonz string (fun s => Some s) "LINESTRING Z (0 0 0,1 0 0)"
  = Run.Gen [] [Run.LogRecord Run.ERROR "Not a POLYGON Z" []] Py.Finished.
Proof. vm_compute. reflexivity. Qed.

(** ** The record converter *)


Lemma get_Some record key v :
  List.find (fun kv => String.eqb (fst kv) key) record = Some (key, v) ->
  db3dnl.get record key = Run.ret v.
Proof. unfold db3dnl.get. intros ->. reflexivity. Qed.

Lemma get_cases record key :
  (exists v, db3dnl.get record key = Run.ret v) ∨
  db3dnl.get record key = Run.raise (Py.KeyError key).
Proof.
  unfold db3dnl.get. destruct (List.find _ record) as [[k v]|]; eauto.
Qed.

(** A converted record has one geometry, of the kind asked for. *)
Lemma record_to_cityobject_geometry record cotype geomtype lod l coid co :
  db3dnl.record_to_cityobject record cotype geomtype lod = (l, Run.Ok (coid, co)) ->
  exists g, cjio.co_geometry co = [g] ∧ cjio.g_type g = geomtype ∧
            cjio.attributes co = db3dnl.parse_attributes record ∅.
Proof.
  unfold db3dnl.record_to_cityobject, Run.bind.
  destruct (get_cases record "coid") as [[c ->] | ->]; simpl; [|discriminate].
  destruct (String.eqb geomtype "Solid"); [|destruct (String.eqb geomtype "MultiSurface")];
    simpl; try (destruct (get_cases record "geom") as [[g ->] | ->]; simpl; [|discriminate]);
    intros [= <- <- <-]; eexists; repeat split; reflexivity.
Qed.

(** What holds of every converted record holds of everything a table
    yields. *)
Lemma table_to_cityobjects_Forall (P : db.pyval * cjio.CityObject -> Prop)
    tabledata cotype geomtype lod :
  (forall record l y, record ∈ tabledata ->
     db3dnl.record_to_cityobject record cotype geomtype lod = (l, Run.Ok y) -> P y) ->
  Forall P (Run.yields (db3dnl.table_to_cityobjects tabledata cotype geomtype lod)).
Proof.
  induction tabledata as [|record tabledata IH]; intros H; simpl.
  - constructor.
  - destruct (db3dnl.record_to_cityobject record cotype geomtype lod) as [l [y | e]] eqn:E;
      simpl; [|constructor].
    constructor.
    + eapply H; [left | exact E].
    + apply IH. intros r l' y' Hr. apply H. right. exact Hr.
Qed.

Lemma gen_then_yields_Forall {A} (P : A -> Prop) (g next : Run.gen A) :
  Forall P (Run.yields g) -> Forall P (Run.yields next) ->
  Forall P (Run.yields (db3dnl.gen_then g next)).
Proof.
  intros Hg Hn. unfold db3dnl.gen_then. destruct (Run.ending g); simpl; [|exact Hg].
  apply Forall_app; split; assumption.
Qed.

(** ** Object type classification *)

Lemma geomtype_cases cotype :
  db3dnl.geomtype cotype = "Solid" ∧ Py.lower cotype = "building" ∨
  db3dnl.geomtype cotype = "MultiSurface" ∧ Py.lower cotype ≠ "building".
Proof.
  unfold db3dnl.geomtype.
  destruct (String.eqb_spec (Py.lower cotype) "building") as [E | E]; auto.
Qed.

(** C7, as the claim states it, fails: the type name [BuildingPart] holds
    [building] as a substring, case-insensitively, and is given
    [MultiSurface]. *)
Lemma geomtype_substring_counterexample :
  Py.contains "building" (Py.lower "BuildingPart") = true ∧
  db3dnl.geomtype "BuildingPart" = "MultiSurface".
Proof. split; reflexivity. Qed.

(** C7 (amended): the geometry kind of an object type is [Solid] exactly
    when the type name, lowercased, is the whole word [building]; every
    other type name is given [MultiSurface], and the objects converted for
    the type carry one geometry of that kind. *)
Theorem geomtype_solid_iff_building :
  forall cotype : string,
    (db3dnl.geomtype cotype = "Solid" <-> Py.lower cotype = "building") ∧
    (db3dnl.geomtype cotype <> "Solid" <-> db3dnl.geomtype cotype = "MultiSurface") ∧
    (forall cotable tabledata at_end lod,
       Forall (fun coid_co =>
                 exists g, cjio.co_geometry (snd coid_co) = [g] ∧
                           cjio.g_type g = db3dnl.geomtype cotype)
              (Run.yields (db3dnl.dbexport_to_cityobjects
                             [((cotype, cotable), tabledata)] at_end lod))).
Proof.
  intros cotype. split; [|split].
  - destruct (geomtype_cases cotype) as [[-> E] | [-> E]]; split; intros H;
      try done.
  - destruct (geomtype_cases cotype) as [[-> E] | [-> E]]; split; intros H;
      try done.
  - intros cotable tabledata at_end lod. simpl.
    apply gen_then_yields_Forall; [|constructor].
    apply table_to_cityobjects_Forall.
    intros record l [coid co] _ E.
    destruct (record_to_cityobject_geometry _ _ _ _ _ _ _ E) as (g & Hg & Ht & _).
    exists g. auto.
Qed.


(** ** Boundaries by geometry kind *)

Lemma boundary_of_Solid record cotype lod coid geom :
  db3dnl.get record "coid" = Run.ret coid ->
  db3dnl.get record "geom" = Run.ret geom ->
  Spec.boundary_of record cotype "Solid" lod = Some (db.PyList [geom]).
Proof.
  intros Hc Hg. unfold Spec.boundary_of, db3dnl.record_to_cityobject, Run.bind.
  rewrite Hc. simpl. rewrite Hg. reflexivity.
Qed.

Lemma boundary_of_MultiSurface record cotype lod coid geom :
  db3dnl.get record "coid" = Run.ret coid ->
  db3dnl.get record "geom" = Run.ret geom ->
  Spec.boundary_of record cotype "MultiSurface" lod = Some geom.
Proof.
  intros Hc Hg. unfold Spec.boundary_of, db3dnl.record_to_cityobject, Run.bind.
  rewrite Hc. simpl. rewrite Hg. reflexivity.
Qed.

Lemma boundary_of_other record cotype geomtype lod coid :
  db3dnl.get record "coid" = Run.ret coid ->
  geomtype <> "Solid" -> geomtype <> "MultiSurface" ->
  Spec.boundary_of record cotype geomtype lod = Some (db.PyList []).
Proof.
  intros Hc Hs Hm. unfold Spec.boundary_of, db3dnl.record_to_cityobject, Run.bind.
  rewrite Hc. simpl.
  destruct (String.eqb_spec geomtype "Solid"); [done|].
  destruct (String.eqb_spec geomtype "MultiSurface"); [done|].
  reflexivity.
Qed.

(** C2, as the claim states it, fails: processed as [CompositeSurface], a
    kind other than [Solid], a row's boundary is not the row's
    multi-surface boundary: it is the empty boundary of a new geometry. *)
Lemma boundary_other_kind_counterexample :
  let geom := db.PyList [db.PyList [db.PyList
                [db.PyList [db.PyFloat 0; db.PyFloat 0; db.PyFloat 0];
                 db.PyList [db.PyFloat 1; db.PyFloat 0; db.PyFloat 0];
                 db.PyList [db.PyFloat 1; db.PyFloat 1; db.PyFloat 0]]]] in
  let record := [("pk", db.PyInt 1); ("geom", geom); ("coid", db.PyStr "b1")] in
  "CompositeSurface" <> "Solid" ∧
  Spec.boundary_of record "Road" "CompositeSurface" "1.2" = Some (db.PyList []) ∧
  Spec.boundary_of record "Road" "CompositeSurface" "1.2" <> Some geom.
Proof. cbv zeta. split; [done|]. split; [reflexivity|]. vm_compute. discriminate. Qed.

(** C2 (amended): for every row that has its id and its boundary, the
    record's boundary is the row's multi-surface boundary wrapped in one
    singleton list when the geometry kind is [Solid], and the row's
    boundary unchanged when the kind is [MultiSurface]; so the row
    processed as [Solid] has exactly one more nesting level than processed
    as [MultiSurface]. For any other kind the row's boundary is not used:
    the geometry keeps the empty boundary it is created with. *)
Theorem solid_wraps_multisurface :
  forall (record : db.record) (cotype lod : string) (coid geom : db.pyval),
    db3dnl.get record "coid" = Run.ret coid ->
    db3dnl.get record "geom" = Run.ret geom ->
    Spec.boundary_of record cotype "Solid" lod = Some (db.PyList [geom]) ∧
    Spec.boundary_of record cotype "MultiSurface" lod = Some geom ∧
    (forall s m, Spec.boundary_of record cotype "Solid" lod = Some s ->
                 Spec.boundary_of record cotype "MultiSurface" lod = Some m ->
                 s = db.PyList [m] ∧ db3dnl.depth s = S (db3dnl.depth m)) ∧
    (forall geomtype, geomtype <> "Solid" -> geomtype <> "MultiSurface" ->
       Spec.boundary_of record cotype geomtype lod = Some (db.PyList [])).
Proof.
  intros record cotype lod coid geom Hc Hg.
  pose proof (boundary_of_Solid record cotype lod coid geom Hc Hg) as Hs.
  pose proof (boundary_of_MultiSurface record cotype lod coid geom Hc Hg) as Hm.
  split; [exact Hs|]. split; [exact Hm|]. split.
  - intros s m Es Em. rewrite Hs in Es. rewrite Hm in Em.
    injection Es as <-. injection Em as <-.
    split; [reflexivity|]. simpl. rewrite Nat.max_0_r. reflexivity.
  - intros geomtype H1 H2. eapply boundary_of_other; eassumption.
Qed.

Lemma solid_wraps_multisurface_witness :
  let geom := db.PyList [db.PyList [db.PyList
                [db.PyList [db.PyFloat 0; db.PyFloat 0; db.PyFloat 0];
                 db.PyList [db.PyFloat 1; db.PyFloat 0; db.PyFloat 0];
                 db.PyList [db.PyFloat 1; db.PyFloat 1; db.PyFloat 0]]]] in
  let record := [("pk", db.PyInt 1); ("geom", geom); ("coid", db.PyStr "b1");
                 ("name", db.PyStr "town hall")] in
  Spec.boundary_of record "Building" "Solid" "1.2" = Some (db.PyList [geom]) ∧
  Spec.boundary_of record "Building" "MultiSurface" "1.2" = Some geom.
Proof.
  cbv zeta.
  pose proof (solid_wraps_multisurface
    [("pk", db.PyInt 1);
     ("geom", db.PyList [db.PyList [db.PyList
                [db.PyList [db.PyFloat 0; db.PyFloat 0; db.PyFloat 0];
                 db.PyList [db.PyFloat 1; db.PyFloat 0; db.PyFloat 0];
                 db.PyList [db.PyFloat 1; db.PyFloat 1; db.PyFloat 0]]]]);
     ("coid", db.PyStr "b1"); ("name", db.PyStr "town hall")]
    "Building" "1.2" (db.PyStr "b1") _ eq_refl eq_refl) as (H1 & H2 & _).
  split; [exact H1 | exact H2].
Defined.


(** ** The attribute projection and the attribute mapping *)

Lemma attr_columns_spec table_fields features col :
  col ∈ db3dnl.attr_columns table_fields features ->
  col ∈ table_fields ∧ col ∉ Spec.key_columns features.
Proof.
  unfold db3dnl.attr_columns, Spec.key_columns.
  rewrite list_elem_of_filter. intros [(Hpk & Hgeom & Hcoid & _) Hin].
  split; [exact Hin|]. rewrite !not_elem_of_cons. auto.
Qed.

Lemma identifiers_join (cols : list string) :
  Spec.identifiers
    (sql.Composed (sql.join (sql.SQL ", ") (map (fun col => sql.Identifier [col]) cols)))
  = cols.
Proof.
  unfold Spec.identifiers.
  induction cols as [|c cols IH]; [reflexivity|].
  destruct cols as [|c' cols]; [reflexivity|].
  change (map (fun col => sql.Identifier [col]) (c :: c' :: cols))
    with (sql.Identifier [c] :: map (fun col => sql.Identifier [col]) (c' :: cols)).
  change (map (fun col => sql.Identifier [col]) (c' :: cols))
    with (sql.Identifier [c'] :: map (fun col => sql.Identifier [col]) cols) in *.
  cbn [sql.join omap list_omap] in *. rewrite IH. reflexivity.
Qed.

(** The attribute loop leaves the entries of [pk], [geom] and [coid] as
    they are, and adds entries for keys of the record only. *)
Lemma parse_attributes_lookup record attrs key :
  db3dnl.parse_attributes record attrs !! key = attrs !! key ∨
  (key ∈ map fst record ∧ key <> "pk" ∧ key <> "geom" ∧ key <> "coid").
Proof.
  unfold db3dnl.parse_attributes.
  revert attrs. induction record as [|[k v] record IH]; intros attrs; simpl.
  - left. reflexivity.
  - destruct (String.eqb_spec k "pk") as [->|Npk]; simpl.
    { destruct (IH attrs) as [H | (H & ?)]; [left; exact H | right; split; [right; exact H | done]]. }
    destruct (String.eqb_spec k "geom") as [->|Ngeom]; simpl.
    { destruct (IH attrs) as [H | (H & ?)]; [left; exact H | right; split; [right; exact H | done]]. }
    destruct (String.eqb_spec k "coid") as [->|Ncoid]; simpl.
    { destruct (IH attrs) as [H | (H & ?)]; [left; exact H | right; split; [right; exact H | done]]. }
    destruct (decide (k = key)) as [->|Nk].
    { right. split; [left | done]. }
    assert (forall x, (<[k:=x]> attrs : gmap string db.pyval) !! key = attrs !! key) as Hne.
    { intros x. apply lookup_insert_ne. exact Nk. }
    destruct v;
      match goal with
      | |- context [fold_left _ record ?a] =>
          destruct (IH a) as [H | (H & ?)];
            [left; rewrite H; apply Hne | right; split; [right; exact H | done]]
      end.
Qed.

Lemma parse_attributes_skips record key :
  key = "pk" ∨ key = "geom" ∨ key = "coid" ->
  db3dnl.parse_attributes record ∅ !! key = None.
Proof.
  intros Hk. destruct (parse_attributes_lookup record ∅ key) as [-> | (_ & H1 & H2 & H3)].
  - apply lookup_empty.
  - destruct Hk as [-> | [-> | ->]]; done.
Qed.

Lemma attributes_of_spec record cotype geomtype lod attrs :
  Spec.attributes_of record cotype geomtype lod = Some attrs ->
  attrs = db3dnl.parse_attributes record ∅.
Proof.
  unfold Spec.attributes_of.
  destruct (db3dnl.record_to_cityobject record cotype geomtype lod) as [l [[coid co]|e]] eqn:E;
    simpl; [|discriminate].
  intros [= <-].
  destruct (record_to_cityobject_geometry _ _ _ _ _ _ _ E) as (_ & _ & _ & H). exact H.
Qed.

Lemma main_query_template (pk coid tbl attr wh ext qg : sql.Composable) :
  exists s1 s2 s3 s4 s5 s6 s7 s8,
  sql.format "
    WITH
         {extent}
         attr_in_extent AS (
             SELECT {pk} pk,
                    {coid} coid,
                    {attr}
             FROM {tbl} a
             {where_instersects}),
         multisurfaces AS ({query_geometry})
    SELECT *
    FROM multisurfaces b
             INNER JOIN attr_in_extent a ON
        b.pk = a.pk;
    "
    [("pk", pk); ("coid", coid); ("tbl", tbl); ("attr", attr);
     ("where_instersects", wh); ("extent", ext); ("query_geometry", qg)]
  = Run.ret (sql.Composed [sql.SQL s1; ext; sql.SQL s2; pk; sql.SQL s3; coid; sql.SQL s4;
                           attr; sql.SQL s5; tbl; sql.SQL s6; wh; sql.SQL s7; qg; sql.SQL s8]).
Proof.
  do 8 eexists. vm_compute. reflexivity.
Qed.

Lemma main_query_projection conn features fr l q :
  db3dnl.main_query conn features fr = (l, Run.Ok q) ->
  exists parts, q = sql.Composed parts ∧
    db3dnl.attr_select (db.get_fields conn (db3dnl.tbl features)) features ∈ parts.
Proof.
  destruct fr as [[p w] e]. unfold db3dnl.main_query, Run.bind.
  destruct (Run.item (db3dnl.lods features) 0) as [l1 [lod|?]]; [|discriminate].
  destruct (db3dnl.query_geometry conn features p e lod) as [l2 [qg|?]]; [|discriminate].
  match goal with |- context [sql.format ?t [("pk", ?a); ("coid", ?b); ("tbl", ?c); ("attr", ?d);
     ("where_instersects", ?e'); ("extent", ?f); ("query_geometry", ?g)]] =>
    destruct (main_query_template a b c d e' f g) as (s1&s2&s3&s4&s5&s6&s7&s8&->) end.
  simpl. intros [= _ <-]. eexists; split; [reflexivity|].
  rewrite !elem_of_cons. auto 20.
Qed.

Lemma build_query_projection conn features tile_index tile_list bbox extent l q :
  db3dnl.build_query conn features tile_index tile_list bbox extent = (l, Run.Ok q) ->
  exists parts, q = sql.Composed parts ∧
    db3dnl.attr_select (db.get_fields conn (db3dnl.tbl features)) features ∈ parts.
Proof.
  unfold db3dnl.build_query, Run.bind.
  destruct (db3dnl.selection _ _ _ _ _ _) as [l1 [fr|e]]; [|discriminate].
  destruct (db3dnl.main_query conn features fr) as [l2 r] eqn:E.
  intros [= _ ->]. eapply main_query_projection. exact E.
Qed.

(** C6: the attribute projection of the query lists none of the
    primary-key, city-object-id and geometry columns; the record converter
    never copies the keys [pk], [geom] and [coid] into a record's
    attributes, for every row of every table; and so the attributes of a
    converted row of the query hold none of those columns. *)
Theorem attributes_exclude_keys :
  forall (table_fields : list string) (features : db.Schema),
    Forall (fun col => col ∉ Spec.key_columns features)
           (Spec.identifiers (db3dnl.attr_select table_fields features)) ∧
    (forall conn tile_index tile_list bbox extent l q,
       db3dnl.build_query conn features tile_index tile_list bbox extent = (l, Run.Ok q) ->
       exists parts, q = sql.Composed parts ∧
         db3dnl.attr_select (db.get_fields conn (db3dnl.tbl features)) features ∈ parts) ∧
    (forall (tabledata : list db.record) (cotype geomtype lod : string),
       Forall (fun coid_co =>
                 cjio.attributes (snd coid_co) !! "pk" = None ∧
                 cjio.attributes (snd coid_co) !! "geom" = None ∧
                 cjio.attributes (snd coid_co) !! "coid" = None)
              (Run.yields (db3dnl.table_to_cityobjects tabledata cotype geomtype lod))) ∧
    (forall (record : db.record) (cotype geomtype lod : string) attrs,
       Forall (fun kv => fst kv ∈ Spec.result_columns table_fields features) record ->
       Spec.attributes_of record cotype geomtype lod = Some attrs ->
       Forall (fun col => attrs !! col = None) (Spec.key_columns features)).
Proof.
  intros table_fields features. split; [|split; [|split]].
  - unfold db3dnl.attr_select. rewrite identifiers_join.
    apply Forall_forall. intros col Hcol.
    apply (attr_columns_spec table_fields features col), Hcol.
  - intros conn tile_index tile_list bbox extent l q. apply build_query_projection.
  - intros tabledata cotype geomtype lod.
    apply table_to_cityobjects_Forall. intros record l [coid co] _ E.
    destruct (record_to_cityobject_geometry _ _ _ _ _ _ _ E) as (_ & _ & _ & Hattrs).
    simpl. rewrite Hattrs, !parse_attributes_skips; auto.
  - intros record cotype geomtype lod attrs Hrow Hattrs.
    apply attributes_of_spec in Hattrs. subst attrs.
    apply Forall_forall. intros col Hcol.
    destruct (parse_attributes_lookup record ∅ col) as [-> | (Hin & H1 & H2 & H3)].
    { apply lookup_empty. }
    exfalso.
    apply list_elem_of_fmap in Hin. destruct Hin as ([k v] & -> & Hkv).
    rewrite Forall_forall in Hrow. specialize (Hrow _ Hkv). simpl in *.
    unfold Spec.result_columns in Hrow.
    rewrite !elem_of_cons in Hrow.
    destruct Hrow as [? | [? | [? | Hattr]]]; try done.
    apply attr_columns_spec in Hattr. destruct Hattr as [_ Hattr]. done.
Qed.


(** ** Tile selection *)

Lemma all_in_index_elem index x : x ∈ db3dnl.all_in_index index <-> x ∈ index.
Proof. apply elem_of_remove_dups. Qed.

Lemma in_index_elem (index tile_list : list string) x :
  x ∈ remove_dups (filter (fun t => t ∈ tile_list) index) <-> x ∈ tile_list ∧ x ∈ index.
Proof. rewrite elem_of_remove_dups, list_elem_of_filter. reflexivity. Qed.

Lemma length_eqb_0 {A} (l : list A) : (length l =? 0)%nat = true <-> l = [].
Proof. destruct l; simpl; split; intros; done. Qed.

(** [with_list] on a list whose first element is [all], whatever its case. *)
Lemma with_list_all index first rest :
  Py.lower first = "all" ->
  db3dnl.with_list index (first :: rest) =
  ([Run.LogRecord Run.INFO "Getting all tiles from the index." []],
   match db3dnl.all_in_index index with
   | [] => Run.Err Spec.none_present
   | _ :: _ => Run.Ok (db3dnl.all_in_index index)
   end).
Proof.
  intros E. unfold db3dnl.with_list.
  change (Run.item (first :: rest) 0) with (Run.ret first).
  unfold Run.bind at 1. unfold Run.ret at 1. cbv beta iota. rewrite E.
  change (String.eqb "all" "all") with true. cbv iota.
  unfold Run.bind, Run.log, Run.ret, Run.raise.
  destruct (db3dnl.all_in_index index); reflexivity.
Qed.

(** [with_list] on a list whose first element is not [all]. *)
Lemma with_list_explicit index first rest :
  Py.lower first <> "all" ->
  let tile_list := first :: rest in
  let in_index := remove_dups (filter (fun t => t ∈ tile_list) index) in
  let not_found : gset string := list_to_set tile_list ∖ list_to_set in_index in
  db3dnl.with_list index tile_list =
  (Run.LogRecord Run.INFO "Verifying if the provided tiles are in the index." []
     :: (if (0 <? size not_found)%nat
         then [Spec.skipped (elements not_found)]
         else []),
   match in_index with
   | [] => Run.Err Spec.none_present
   | _ :: _ => Run.Ok in_index
   end).
Proof.
  intros E. cbv zeta.
  assert (String.eqb "all" (Py.lower first) = false) as Hf.
  { destruct (String.eqb_spec "all" (Py.lower first)); [congruence | reflexivity]. }
  unfold db3dnl.with_list.
  change (Run.item (first :: rest) 0) with (Run.ret first).
  unfold Run.bind at 1. unfold Run.ret at 1. cbv beta iota. rewrite Hf.
  unfold db3dnl.tiles_in_index, Run.bind, Run.log, Run.ret, Run.raise.
  destruct (0 <? size _)%nat; cbv beta iota;
    destruct (remove_dups _); reflexivity.
Qed.

Lemma effective_tiles_all index first rest :
  Py.lower first = "all" ->
  Spec.effective_tiles index (first :: rest) = list_to_set index.
Proof. intros E. unfold Spec.effective_tiles. rewrite E. reflexivity. Qed.

Lemma effective_tiles_explicit index first rest :
  Py.lower first <> "all" ->
  Spec.effective_tiles index (first :: rest) =
  list_to_set (first :: rest) ∩ list_to_set index.
Proof.
  intros E. unfold Spec.effective_tiles.
  destruct (String.eqb_spec "all" (Py.lower first)); [congruence | reflexivity].
Qed.

Lemma list_to_set_empty_iff (l : list string) :
  (list_to_set l : gset string) = ∅ <-> l = [].
Proof.
  split; [|intros ->; reflexivity].
  destruct l as [|x l]; [reflexivity|]. intros H. exfalso.
  assert (x ∈ (list_to_set (x :: l) : gset string)) as Hx by set_solver.
  rewrite H in Hx. set_solver.
Qed.

(** What [with_list] returns is the effective tile set, and it raises
    exactly when that set is empty. *)
Lemma with_list_effective index first rest :
  (snd (db3dnl.with_list index (first :: rest)) = Run.Err Spec.none_present ∧
   Spec.effective_tiles index (first :: rest) = ∅) ∨
  (exists ids, snd (db3dnl.with_list index (first :: rest)) = Run.Ok ids ∧ ids <> [] ∧
               list_to_set ids = Spec.effective_tiles index (first :: rest)).
Proof.
  destruct (decide (Py.lower first = "all")) as [E | E].
  - rewrite (with_list_all _ _ _ E), (effective_tiles_all _ _ _ E). cbn [snd].
    destruct (db3dnl.all_in_index index) as [|x ids] eqn:Hall.
    + left. split; [reflexivity|].
      apply set_eq. intros x. rewrite elem_of_list_to_set, <- all_in_index_elem, Hall.
      set_solver.
    + right. exists (x :: ids). split; [reflexivity|]. split; [done|].
      apply set_eq. intros y. rewrite !elem_of_list_to_set, <- Hall.
      apply all_in_index_elem.
  - rewrite (with_list_explicit _ _ _ E), (effective_tiles_explicit _ _ _ E). cbn [snd].
    destruct (remove_dups _) as [|x ids] eqn:Hin.
    + left. split; [reflexivity|].
      apply set_eq. intros x. rewrite elem_of_intersection, !elem_of_list_to_set.
      rewrite <- in_index_elem, Hin. set_solver.
    + right. exists (x :: ids). split; [reflexivity|]. split; [done|].
      apply set_eq. intros y.
      rewrite elem_of_intersection, !elem_of_list_to_set, <- Hin.
      apply in_index_elem.
Qed.

(** C8, as stated, fails on the tile list without an id: its effective
    tile set is empty, and [with_list] raises [IndexError] on reading
    [tile_list[0]], not the empty-selection error. *)
Lemma with_list_empty_list_counterexample :
  Spec.effective_tiles ["t1"; "t2"] [] = ∅ ∧
  db3dnl.with_list ["t1"; "t2"] [] = ([], Run.Err Py.IndexError) ∧
  ~ (snd (db3dnl.with_list ["t1"; "t2"] []) = Run.Err Spec.none_present <->
     Spec.effective_tiles ["t1"; "t2"] [] = ∅).
Proof.
  split; [reflexivity|]. split; [reflexivity|].
  intros [_ H]. specialize (H eq_refl). discriminate H.
Qed.

(** C8: resolving a tile list that has at least one id fails with the
    empty-selection error exactly when the effective tile set is empty,
    and returns that set otherwise: [all] on an index with no tile raises,
    a list none of whose ids is in the index raises, and an id that the
    index lacks is logged as skipped while the ids that the index has are
    returned. *)
Theorem with_list_raises_iff_empty :
  forall (index : list string) (first : string) (rest : list string),
    let tile_list := first :: rest in
    let result := snd (db3dnl.with_list index tile_list) in
    (result = Run.Err Spec.none_present <-> Spec.effective_tiles index tile_list = ∅) ∧
    (Spec.effective_tiles index tile_list <> ∅ <->
     exists ids, result = Run.Ok ids ∧
                 list_to_set ids = Spec.effective_tiles index tile_list) ∧
    (Py.lower first = "all" -> index = [] -> result = Run.Err Spec.none_present) ∧
    (Py.lower first <> "all" -> (forall t, t ∈ tile_list -> t ∉ index) ->
     result = Run.Err Spec.none_present) ∧
    (Py.lower first <> "all" ->
     forall absent present, absent ∈ tile_list -> absent ∉ index ->
       present ∈ tile_list -> present ∈ index ->
       (exists ids, Spec.skipped ids ∈ fst (db3dnl.with_list index tile_list) ∧ absent ∈ ids) ∧
       (exists ids, result = Run.Ok ids ∧ present ∈ ids ∧ absent ∉ ids)).
Proof.
  intros index first rest tile_list result. subst tile_list result.
  pose proof (with_list_effective index first rest) as Heff.
  assert (forall ids : list string, ids <> [] -> (list_to_set ids : gset string) <> ∅) as Hne.
  { intros ids Hids Hset. apply Hids, list_to_set_empty_iff, Hset. }
  split; [|split; [|split; [|split]]].
  - destruct Heff as [[Hr He] | (ids & Hr & Hids & He)]; rewrite Hr.
    + split; [intros _; exact He | reflexivity].
    + split; [discriminate|]. intros Hempty. exfalso.
      rewrite <- He in Hempty. exact (Hne ids Hids Hempty).
  - destruct Heff as [[Hr He] | (ids & Hr & Hids & He)]; rewrite Hr.
    + split; [intros H; done | intros (ids & [=] & _)].
    + split; [intros _; exists ids; done|].
      intros _. rewrite <- He. exact (Hne ids Hids).
  - intros Hall ->. destruct Heff as [[-> _] | (ids & _ & Hids & Hset)]; [reflexivity|].
    exfalso. rewrite (effective_tiles_all _ _ _ Hall) in Hset. exact (Hne ids Hids Hset).
  - intros Hexp Hnone. destruct Heff as [[-> _] | (ids & _ & Hids & Hset)]; [reflexivity|].
    exfalso. rewrite (effective_tiles_explicit _ _ _ Hexp) in Hset.
    destruct ids as [|x ids]; [done|].
    assert (x ∈ (list_to_set (x :: ids) : gset string)) as Hx.
    { apply elem_of_list_to_set. left. }
    rewrite Hset, elem_of_intersection, !elem_of_list_to_set in Hx.
    destruct Hx as [Hx1 Hx2]. exact (Hnone x Hx1 Hx2).
  - intros Hexp absent present Ha1 Ha2 Hp1 Hp2.
    rewrite (with_list_explicit _ _ _ Hexp). cbn [fst snd].
    set (in_index := remove_dups (filter (fun t => t ∈ first :: rest) index)).
    set (not_found := (list_to_set (first :: rest) ∖ list_to_set in_index : gset string)).
    assert (absent ∈ not_found) as Hnf.
    { unfold not_found. rewrite elem_of_difference, !elem_of_list_to_set.
      split; [exact Ha1|]. unfold in_index. rewrite in_index_elem. tauto. }
    assert (present ∈ in_index) as Hpi.
    { unfold in_index. rewrite in_index_elem. tauto. }
    assert (absent ∉ in_index) as Hai.
    { unfold in_index. rewrite in_index_elem. tauto. }
    split.
    + exists (elements not_found). split; [|apply elem_of_elements, Hnf].
      assert ((0 <? size not_found)%nat = true) as ->.
      { apply Nat.ltb_lt. destruct (size not_found) eqn:Hsz; [|lia].
        apply size_empty_iff in Hsz. rewrite (leibniz_equiv _ _ Hsz) in Hnf. set_solver. }
      right. left.
    + exists in_index. destruct in_index as [|x ids]; [set_solver|]. done.
Qed.

(** C10: tile-list resolution looks for [all] in the first element only.
    When the first element, lowercased, is [all], every tile id of the
    index is selected and the other supplied ids are ignored; otherwise the
    selected ids are exactly the supplied ids that the index has, whatever
    stands later in the list. In both cases an empty selection raises. *)
Theorem with_list_reads_first_only :
  forall (index : list string) (first : string) (rest : list string),
    (Py.lower first = "all" ->
     exists ids, (forall x, x ∈ ids <-> x ∈ index) ∧
       forall rest',
         snd (db3dnl.with_list index (first :: rest')) =
         match ids with [] => Run.Err Spec.none_present | _ :: _ => Run.Ok ids end) ∧
    (Py.lower first <> "all" ->
     exists ids, (forall x, x ∈ ids <-> x ∈ first :: rest ∧ x ∈ index) ∧
       snd (db3dnl.with_list index (first :: rest)) =
       match ids with [] => Run.Err Spec.none_present | _ :: _ => Run.Ok ids end).
Proof.
  intros index first rest. split.
  - intros Hall. exists (db3dnl.all_in_index index). split.
    + intros x. apply all_in_index_elem.
    + intros rest'. rewrite (with_list_all _ _ _ Hall). reflexivity.
  - intros Hexp. exists (remove_dups (filter (fun t => t ∈ first :: rest) index)). split.
    + intros x. apply in_index_elem.
    + rewrite (with_list_explicit _ _ _ Hexp). reflexivity.
Qed.

Example with_list_all_later :
  db3dnl.with_list ["t1"; "t2"; "t3"] ["t2"; "ALL"] =
  ([Run.LogRecord Run.INFO "Verifying if the provided tiles are in the index." [];
    Spec.skipped ["ALL"]], Run.Ok ["t2"]).
Proof. vm_compute. reflexivity. Qed.

Example with_list_no_first : snd (db3dnl.with_list ["t1"] []) = Run.Err Py.IndexError.
Proof. reflexivity. Qed.


(** ** The query builder *)

Lemma bind_log_nil {A B} (m : Run.M A) (f : A -> Run.M B) :
  fst m = [] -> (forall a, fst (f a) = []) -> fst (Run.bind m f) = [].
Proof.
  destruct m as [l [a|e]]; simpl; intros -> Hf; [|reflexivity].
  specialize (Hf a). destruct (f a) as [l' r]. simpl in *. exact Hf.
Qed.

Lemma bind_log_cons {A B} r (m : Run.M A) (f : A -> Run.M B) :
  fst m = [r] -> (forall a, fst (f a) = []) -> fst (Run.bind m f) = [r].
Proof.
  destruct m as [l [a|e]]; simpl; intros -> Hf; [|reflexivity].
  specialize (Hf a). destruct (f a) as [l' r']. simpl in *. rewrite Hf. reflexivity.
Qed.

Lemma format_log template kw : fst (sql.format template kw) = [].
Proof. unfold sql.format. destruct (sql.format_from kw [] None template); reflexivity. Qed.

Lemma item_log {A} (l : list A) i : fst (Run.item l i) = [].
Proof. unfold Run.item. destruct (nth_error l i); reflexivity. Qed.

Lemma geometry_sqlid_log features lod : fst (db3dnl.geometry_sqlid features lod) = [].
Proof. unfold db3dnl.geometry_sqlid. destruct (List.find _ _) as [[? ?]|]; reflexivity. Qed.

Ltac quiet :=
  repeat first
    [ apply format_log | apply item_log | apply geometry_sqlid_log | reflexivity
    | apply bind_log_nil; [|intros ?] ].

Lemma query_all_log features lod : fst (db3dnl.query_all features lod) = [].
Proof. unfold db3dnl.query_all. quiet. Qed.

Lemma query_bbox_log features bbox epsg lod : fst (db3dnl.query_bbox features bbox epsg lod) = [].
Proof. unfold db3dnl.query_bbox. quiet. Qed.

Lemma query_extent_log features ewkt lod : fst (db3dnl.query_extent features ewkt lod) = [].
Proof. unfold db3dnl.query_extent. quiet. Qed.

Lemma query_tiles_in_list_log features tx tile_list lod :
  fst (db3dnl.query_tiles_in_list features tx tile_list lod) = [].
Proof. unfold db3dnl.query_tiles_in_list. quiet. Qed.

Lemma query_geometry_log conn features p e lod :
  fst (db3dnl.query_geometry conn features p e lod) = [].
Proof. unfold db3dnl.query_geometry. quiet. Qed.

Lemma main_query_log conn features fr : fst (db3dnl.main_query conn features fr) = [].
Proof.
  destruct fr as [[p w] e]. unfold db3dnl.main_query.
  apply bind_log_nil; [apply item_log | intros lod].
  apply bind_log_nil; [apply query_geometry_log | intros g]. apply format_log.
Qed.

(** The selection is the plan of the branch that has precedence. *)
Lemma selection_plan features tile_index tile_list bbox extent :
  db3dnl.selection features tile_index tile_list bbox extent 7415 =
  Spec.plan (Spec.precedence tile_list bbox extent) features tile_index tile_list bbox extent.
Proof.
  unfold db3dnl.selection, Spec.precedence.
  destruct (Py.truthy bbox); [reflexivity|].
  destruct (Py.truthy tile_list); [reflexivity|].
  destruct (Py.truthy extent); reflexivity.
Qed.

(** A plan logs the record of its branch and nothing else. *)
Lemma plan_branches b features tile_index tile_list bbox extent :
  Spec.branches_taken (fst (Spec.plan b features tile_index tile_list bbox extent)) = [b].
Proof.
  destruct b; unfold Spec.plan;
    match goal with
    | |- context [Run.log ?lv ?m ?a] => rewrite (bind_log_cons (Run.LogRecord lv m a))
    end; try reflexivity;
    intros _; (apply bind_log_nil; [apply item_log | intros lod]).
  - apply query_bbox_log.
  - apply query_tiles_in_list_log.
  - apply query_extent_log.
  - apply query_all_log.
Qed.

Lemma bind_log_left {A B} (m : Run.M A) (f : A -> Run.M B) :
  (forall a, fst (f a) = []) -> fst (Run.bind m f) = fst m.
Proof.
  destruct m as [l [a|e]]; simpl; intros Hf; [|reflexivity].
  specialize (Hf a). destruct (f a) as [l' r']. simpl in *. rewrite Hf. apply app_nil_r.
Qed.

(** C3: every call of the query builder takes exactly one selection
    branch, the one that has precedence among the selection parameters
    that are supplied (not [None] and not empty): BoundingBox over TileList
    over PolygonExtent over WholeTable. The query that is built is the main
    query over the plan of that branch; with both a bounding box and a tile
    list, it is the bounding-box plan. *)
Theorem build_query_precedence :
  forall (conn : db.Db) (features : db.Schema) (tile_index : db.TileSchema)
         (tile_list : option (list string)) (bbox : option (list Q))
         (extent : option utils.polygon),
    let b := Spec.precedence tile_list bbox extent in
    Spec.branches_taken
      (fst (db3dnl.build_query conn features tile_index tile_list bbox extent)) = [b] ∧
    db3dnl.build_query conn features tile_index tile_list bbox extent =
      Run.bind (Spec.plan b features tile_index tile_list bbox extent)
               (db3dnl.main_query conn features) ∧
    (forall x xs t ts,
       Spec.branches_taken
         (fst (db3dnl.build_query conn features tile_index (Some (t :: ts))
                 (Some (x :: xs)) extent)) = [Spec.BoundingBox] ∧
       db3dnl.build_query conn features tile_index (Some (t :: ts)) (Some (x :: xs)) extent =
         Run.bind (Spec.plan Spec.BoundingBox features tile_index (Some (t :: ts))
                     (Some (x :: xs)) extent)
                  (db3dnl.main_query conn features)).
Proof.
  intros conn features tile_index tile_list bbox extent b.
  assert (forall tl bb,
    db3dnl.build_query conn features tile_index tl bb extent =
    Run.bind (Spec.plan (Spec.precedence tl bb extent) features tile_index tl bb extent)
             (db3dnl.main_query conn features)) as Hbuild.
  { intros tl bb. unfold db3dnl.build_query. rewrite selection_plan. reflexivity. }
  assert (forall tl bb,
    Spec.branches_taken (fst (db3dnl.build_query conn features tile_index tl bb extent)) =
    [Spec.precedence tl bb extent]) as Hlog.
  { intros tl bb. rewrite Hbuild, bind_log_left; [apply plan_branches|].
    intros fr. apply main_query_log. }
  split; [apply Hlog|]. split; [apply Hbuild|].
  intros x xs t ts. split; [apply Hlog | apply Hbuild].
Qed.


(** ** The export scheduler *)

(** With one thread, [get_dict] is never called with a query that was
    built: every call passes the function [query]. *)
Lemma query_single_executed conn tile_index tile_list bbox extent todo :
  Forall (fun arg => arg = db.ArgFunctionQuery)
         (db3dnl.executed (db3dnl.query_single conn tile_index tile_list bbox extent todo)).
Proof.
  induction todo as [|[cotype cotable] todo IH]; simpl; [constructor|].
  destruct (db3dnl.build_query _ _ _ _ _ _) as [l [q|e]]; simpl; [|constructor].
  destruct (db.get_dict conn db.ArgFunctionQuery); simpl; repeat constructor. exact IH.
Qed.

(** With a thread per table, every result is yielded under the name of
    the table submitted last. *)
Lemma yield_completed_table_name cotable completed :
  Forall (fun y => snd (fst y) = db.table cotable)
         (Run.yields (db3dnl.yield_completed cotable completed)).
Proof.
  induction completed as [|f completed IH]; simpl; [constructor|].
  destruct (db3dnl.key f) as [cotype tablename].
  destruct (db3dnl.outcome f); simpl; [|constructor|constructor].
  constructor; [reflexivity | exact IH].
Qed.

(** C4 does not hold of the code. With a thread per table, the results of
    the tables [a] and [b] of one object type are both yielded under the
    name [b], the table submitted last; with one thread, [get_dict] is
    called with the function [query] and never with a query that was
    built, so that no table's result set is yielded. *)
Theorem query_yields_stale_table_name_and_executes_no_query :
  (Run.yields (db3dnl.run
     (db3dnl.query Fixture.server Fixture.tile_index Fixture.cityobject_type
        (Some 2%Z) None None None [0; 1]%nat))
   = [(("Building", "b"), [[("rows_of", db.PyStr "a")]]);
      (("Building", "b"), [[("rows_of", db.PyStr "b")]])]) ∧
  (let r := db3dnl.query Fixture.server Fixture.tile_index Fixture.cityobject_type
              (Some 1%Z) None None None [] in
   Run.yields (db3dnl.run r) = [] ∧
   Run.ending (db3dnl.run r) =
     Py.Raised (Py.TypeError "argument 1 must be a string or unicode object") ∧
   db3dnl.executed r = [db.ArgFunctionQuery]) ∧
  (forall server tile_index cityobject_type tile_list bbox extent completion,
     Forall (fun arg => arg = db.ArgFunctionQuery)
       (db3dnl.executed
          (db3dnl.query server tile_index cityobject_type (Some 1%Z)
             tile_list bbox extent completion))).
Proof.
  split; [vm_compute; reflexivity|]. split; [vm_compute; auto|].
  intros. unfold db3dnl.query. simpl. apply query_single_executed.
Qed.


(** A query that cannot be built ends the submission loop: nothing is
    yielded, and the queries submitted before it are still executed. *)
Example query_pool_submission_error :
  let r := db3dnl.query Fixture.server Fixture.tile_index
             [("Building", [Fixture.building_a; Fixture.no_geometry; Fixture.building_b])]
             (Some 3%Z) None None None [] in
  Run.yields (db3dnl.run r) = [] ∧
  Run.ending (db3dnl.run r) = Py.Raised Py.IndexError ∧
  omap (fun arg => match arg with
                   | db.ArgSql q => Some (Fixture.queried_table q)
                   | db.ArgFunctionQuery => None
                   end) (db3dnl.executed r) = ["a"].
Proof. vm_compute. repeat split. Qed.

(** ** Morton codes *)

Local Open Scope N_scope.

Lemma morton_step_div4 (a b m : N) : a < 2 -> b < 2 -> (a + 2 * b + 4 * m) / 4 = m.
Proof.
  intros Ha Hb. symmetry. apply (N.div_unique _ 4 m (a + 2 * b)); lia.
Qed.

Lemma morton_step_mod2 (a b m : N) : a < 2 -> (a + 2 * b + 4 * m) mod 2 = a.
Proof.
  intros Ha. symmetry. apply (N.mod_unique _ 2 (b + 2 * m) a); lia.
Qed.

Lemma morton_step_div2_mod2 (a b m : N) :
  a < 2 -> b < 2 -> ((a + 2 * b + 4 * m) / 2) mod 2 = b.
Proof.
  intros Ha Hb.
  assert ((a + 2 * b + 4 * m) / 2 = b + 2 * m) as ->.
  { symmetry. apply (N.div_unique _ 2 (b + 2 * m) a); lia. }
  symmetry. apply (N.mod_unique _ 2 m b); lia.
Qed.

Lemma half_lt (p : nat) (x : N) : x < 2 ^ N.of_nat (S p) -> x / 2 < 2 ^ N.of_nat p.
Proof.
  intros H. apply N.Div0.div_lt_upper_bound.
  rewrite Nat2N.inj_succ, N.pow_succ_r' in H. exact H.
Qed.

(** Decoding the code of a pair gives the pair back, when both
    coordinates fit in the bits that are used. *)
Lemma rev_morton_code_morton_code (precision : nat) :
  forall x y : N,
    x < 2 ^ N.of_nat precision -> y < 2 ^ N.of_nat precision ->
    utils.rev_morton_code precision (utils.morton_code precision x y) = (x, y).
Proof.
  induction precision as [|p IH]; intros x y Hx Hy.
  - simpl in *. f_equal; lia.
  - cbn [utils.morton_code utils.rev_morton_code].
    pose proof (N.mod_upper_bound x 2 ltac:(lia)) as Ha.
    pose proof (N.mod_upper_bound y 2 ltac:(lia)) as Hb.
    rewrite (morton_step_div4 _ _ _ Ha Hb).
    rewrite (IH (x / 2) (y / 2) (half_lt p x Hx) (half_lt p y Hy)).
    rewrite (morton_step_mod2 _ _ _ Ha), (morton_step_div2_mod2 _ _ _ Ha Hb).
    f_equal.
    + pose proof (N.div_mod x 2 ltac:(lia)). lia.
    + pose proof (N.div_mod y 2 ltac:(lia)). lia.
Qed.

Lemma morton_code_inj (precision : nat) (x y x' y' : N) :
  x < 2 ^ N.of_nat precision -> y < 2 ^ N.of_nat precision ->
  x' < 2 ^ N.of_nat precision -> y' < 2 ^ N.of_nat precision ->
  utils.morton_code precision x y = utils.morton_code precision x' y' ->
  x = x' ∧ y = y'.
Proof.
  intros Hx Hy Hx' Hy' E.
  pose proof (rev_morton_code_morton_code precision x y Hx Hy) as H1.
  pose proof (rev_morton_code_morton_code precision x' y' Hx' Hy') as H2.
  rewrite E in H1. rewrite H1 in H2. injection H2 as -> ->. done.
Qed.

(** C5: for all non-negative integers [x] and [y] within the coordinate
    precision, decoding the Morton code of [(x, y)] returns [(x, y)]. *)
Theorem rev_morton_code_inverse :
  forall (precision : nat) (x y : N),
    x < 2 ^ N.of_nat precision -> y < 2 ^ N.of_nat precision ->
    utils.rev_morton_code precision (utils.morton_code precision x y) = (x, y).
Proof. exact rev_morton_code_morton_code. Qed.

Lemma rev_morton_code_inverse_witness :
  utils.rev_morton_code 32 (utils.morton_code 32 25291423 60821160) = (25291423, 60821160).
Proof. apply rev_morton_code_inverse; reflexivity. Defined.

Local Close Scope N_scope.


(** ** The vertex re-aggregation: [expand_points] *)











(** ** Matching *)

Lemma list_ascii_of_string_app (s1 s2 : string) :
  list_ascii_of_string (s1 +:+ s2) = list_ascii_of_string s1 ++ list_ascii_of_string s2.
Proof. induction s1 as [|c s1 IH]; simpl; [reflexivity|]. rewrite IH. reflexivity. Qed.

Lemma between_app (xs b0 : list ascii) : re.between b0 (rev xs ++ b0) = xs.
Proof.
  unfold re.between. rewrite length_app, length_rev.
  replace (length xs + length b0 - length b0)%nat with (length (rev xs)) by (rewrite length_rev; lia).
  rewrite take_app_length. apply rev_involutive.
Qed.

(** A greedy repetition takes the whole run when the rest of the pattern
    matches after it. *)
Lemma star_longest p k r xs : forall before rest,
  forallb p xs = true -> Spec.stops p rest ->
  k (rev xs ++ before) rest = Some r ->
  re.star p k before (xs ++ rest) = Some r.
Proof.
  induction xs as [|x xs IH]; intros before rest Hxs Hrest Hk.
  - simpl in *. destruct rest as [|c rest]; simpl in *; [exact Hk|].
    rewrite Hrest. exact Hk.
  - simpl in Hxs. apply andb_prop in Hxs. destruct Hxs as [Hx Hxs].
    cbn [app re.star]. rewrite Hx.
    rewrite (IH (x :: before) rest Hxs Hrest); [reflexivity|].
    simpl in Hk. rewrite <- app_assoc in Hk. exact Hk.
Qed.

(** A greedy repetition gives one character back when the rest of the
    pattern fails after the whole run and matches one character before. *)
Lemma star_gives_back p k r xs c : forall before,
  forallb p xs = true -> p c = true ->
  k (c :: rev xs ++ before) [] = None ->
  k (rev xs ++ before) [c] = Some r ->
  re.star p k before (xs ++ [c]) = Some r.
Proof.
  induction xs as [|x xs IH]; intros before Hxs Hc Hend Hk.
  - simpl in *. rewrite Hc, Hend. exact Hk.
  - simpl in Hxs. apply andb_prop in Hxs. destruct Hxs as [Hx Hxs].
    cbn [app re.star]. rewrite Hx.
    rewrite (IH (x :: before) Hxs Hc); [reflexivity | |].
    + simpl in Hend. rewrite <- app_assoc in Hend. exact Hend.
    + simpl in Hk. rewrite <- app_assoc in Hk. exact Hk.
Qed.

(** Skipped positions are passed over. *)
Lemma findall_from_skip pat xs : forall before rest,
  re.findall_from pat (length xs) before (xs ++ rest) =
  re.findall_from pat 0 (rev xs ++ before) rest.
Proof.
  induction xs as [|x xs IH]; intros before rest; [reflexivity|].
  cbn [length app re.findall_from]. rewrite IH. simpl. rewrite <- app_assoc. reflexivity.
Qed.

(** The first match that [findall] lists. *)
Lemma findall_from_first pat before c after r :
  re.match_here pat None None before (c :: after) = Some r ->
  exists more, re.findall_from pat 0 before (c :: after) = re.listed before r :: more.
Proof.
  intros H. cbn [re.findall_from]. rewrite H. destruct r as [[b1 a1] g]. eauto.
Qed.


(** ** Splitting and joining *)

Lemma split_no_sep (sep : ascii) (s : string) :
  forallb (fun c => negb (Ascii.eqb c sep)) (list_ascii_of_string s) = true ->
  Py.split sep s = [s].
Proof.
  induction s as [|c s IH]; simpl; [reflexivity|].
  intros H. apply andb_prop in H. destruct H as [Hc Hs].
  apply negb_true_iff in Hc. rewrite Hc, (IH Hs). reflexivity.
Qed.

Lemma split_sep (sep : ascii) (s t : string) :
  forallb (fun c => negb (Ascii.eqb c sep)) (list_ascii_of_string s) = true ->
  Py.split sep (s +:+ String sep t) = s :: Py.split sep t.
Proof.
  induction s as [|c s IH]; simpl.
  - intros _. rewrite Ascii.eqb_refl. reflexivity.
  - intros H. apply andb_prop in H. destruct H as [Hc Hs].
    apply negb_true_iff in Hc. rewrite Hc, (IH Hs). reflexivity.
Qed.

Lemma point_char_no_comma (pt : string) :
  forallb Spec.point_char (list_ascii_of_string pt) = true ->
  forallb (fun c => negb (Ascii.eqb c ",")) (list_ascii_of_string pt) = true.
Proof.
  rewrite !forallb_forall. intros H c Hc. specialize (H c Hc).
  unfold Spec.point_char in H. rewrite !andb_true_iff in H. tauto.
Qed.

(** Splitting at the commas gives the points back. *)
Lemma split_join (ring : list string) :
  ring <> [] -> Forall Spec.point_text ring ->
  Py.split "," (Py.join "," ring) = ring.
Proof.
  induction ring as [|pt ring IH]; [done|]. intros _ Hring.
  apply Forall_cons in Hring. destruct Hring as [[_ Hpt] Hring].
  apply point_char_no_comma in Hpt.
  destruct ring as [|pt' ring].
  - simpl. apply split_no_sep, Hpt.
  - change (Py.join "," (pt :: pt' :: ring))
      with (pt +:+ String "," (Py.join "," (pt' :: ring))).
    rewrite (split_sep _ _ _ Hpt), IH; [reflexivity | done | exact Hring].
Qed.

(** The characters between the parentheses of a ring. *)
Lemma join_chars (ring : list string) :
  ring <> [] -> Forall Spec.point_text ring ->
  let inner := list_ascii_of_string (Py.join "," ring) in
  inner <> [] ∧ forallb (re.not_char ")") inner = true ∧ forallb re.dot inner = true.
Proof.
  cbv zeta.
  assert (forall pt, Spec.point_text pt ->
            forallb (re.not_char ")") (list_ascii_of_string pt) = true ∧
            forallb re.dot (list_ascii_of_string pt) = true) as Hchars.
  { intros pt [_ Hpt]. rewrite !forallb_forall in *.
    split; intros c Hc; specialize (Hpt c Hc); unfold Spec.point_char in Hpt;
      rewrite !andb_true_iff in Hpt; unfold re.not_char, re.dot; tauto. }
  induction ring as [|pt ring IH]; [done|]. intros _ Hring.
  apply Forall_cons in Hring. destruct Hring as [Hpt Hring].
  destruct (Hchars pt Hpt) as [H1 H2].
  destruct ring as [|pt' ring].
  - simpl. split; [|split; assumption].
    destruct Hpt as [Hne _]. destruct pt; [done | simpl; done].
  - change (Py.join "," (pt :: pt' :: ring))
      with (pt +:+ String "," (Py.join "," (pt' :: ring))).
    rewrite list_ascii_of_string_app. cbn [list_ascii_of_string].
    destruct (IH ltac:(done) Hring) as (_ & H3 & H4).
    split; [|split].
    + destruct Hpt as [Hne _]. destruct pt; [done | simpl; done].
    + rewrite forallb_app. cbn [forallb]. rewrite H1, H3. reflexivity.
    + rewrite forallb_app. cbn [forallb]. rewrite H2, H4. reflexivity.
Qed.

(** ** Matching the rings *)

Lemma match_ring (inner before rest : list ascii) :
  inner <> [] -> forallb (re.not_char ")") inner = true ->
  re.match_here db3dnl.ring_pat None None before ("(" :: inner ++ ")" :: rest)%char =
  Some ((")" :: rev inner ++ "(" :: before)%char, rest, Some inner).
Proof.
  intros Hne Hinner. destruct inner as [|c inner]; [done|].
  simpl in Hinner. apply andb_prop in Hinner. destruct Hinner as [Hc Hinner].
  unfold db3dnl.ring_pat.
  cbn [re.match_here app]. change (re.is_char "(" "(") with true. cbv iota.
  rewrite Hc.
  erewrite (star_longest _ _ _ inner); [reflexivity | exact Hinner | reflexivity |].
  cbn [re.match_here]. change (re.is_char ")" ")") with true. cbv iota.
  change (rev inner ++ c :: "("%char :: before)
    with (rev inner ++ [c] ++ "("%char :: before).
  rewrite app_assoc. change (rev inner ++ [c]) with (rev (c :: inner)).
  rewrite between_app. reflexivity.
Qed.

Lemma findall_ring (inner before rest : list ascii) :
  inner <> [] -> forallb (re.not_char ")") inner = true ->
  re.findall_from db3dnl.ring_pat 0 before ("(" :: inner ++ ")" :: rest)%char =
  string_of_list_ascii inner ::
    re.findall_from db3dnl.ring_pat 0 (")" :: rev inner ++ "(" :: before)%char rest.
Proof.
  intros Hne Hinner. cbn [re.findall_from].
  rewrite (match_ring inner before rest Hne Hinner). cbn [re.listed]. f_equal.
  replace (length (")"%char :: rev inner ++ "("%char :: before) - length before - 1)%nat
    with (length (inner ++ [")"%char])).
  2:{ cbn [length]. rewrite !length_app, length_rev. simpl. lia. }
  change (inner ++ ")"%char :: rest) with (inner ++ [")"%char] ++ rest).
  rewrite app_assoc, findall_from_skip.
  rewrite rev_app_distr. simpl. reflexivity.
Qed.

Lemma findall_comma (before rest : list ascii) :
  re.findall_from db3dnl.ring_pat 0 before (","%char :: rest) =
  re.findall_from db3dnl.ring_pat 0 (","%char :: before) rest.
Proof. reflexivity. Qed.

(** [ring_pat.findall] lists, ring by ring, the text between the
    parentheses. *)
Lemma findall_rings (rings : list (list string)) : forall before,
  Forall (fun ring => ring <> [] ∧ Forall Spec.point_text ring) rings ->
  re.findall_from db3dnl.ring_pat 0 before
    (list_ascii_of_string (Py.join "," (map Spec.ring_text rings)))
  = map (Py.join ",") rings.
Proof.
  assert (forall ring, list_ascii_of_string (Spec.ring_text ring) =
            ("(" :: list_ascii_of_string (Py.join "," ring) ++ [")"])%char) as Htext.
  { intros ring. unfold Spec.ring_text. rewrite !list_ascii_of_string_app. reflexivity. }
  induction rings as [|ring rings IH]; intros before Hrings; [reflexivity|].
  apply Forall_cons in Hrings. destruct Hrings as [[Hne Hpts] Hrings].
  destruct (join_chars ring Hne Hpts) as (Hinner & Hclose & _).
  destruct rings as [|ring' rings].
  - cbn [map Py.join]. rewrite Htext.
    rewrite (findall_ring _ before [] Hinner Hclose).
    rewrite string_of_list_ascii_of_string. reflexivity.
  - change (Py.join "," (map Spec.ring_text (ring :: ring' :: rings)))
      with (Spec.ring_text ring +:+
            String "," (Py.join "," (map Spec.ring_text (ring' :: rings)))).
    rewrite list_ascii_of_string_app, Htext. cbn [list_ascii_of_string app].
    rewrite <- app_assoc. cbn [app].
    rewrite (findall_ring _ before _ Hinner Hclose).
    rewrite string_of_list_ascii_of_string. cbn [map]. f_equal.
    rewrite findall_comma. apply IH. exact Hrings.
Qed.


(** ** Parsing a POLYGON Z *)

(** [outer_pat.findall] lists first what stands between [POLYGON Z (] and
    the last character. *)
Lemma findall_outer (body : string) :
  forallb re.dot (list_ascii_of_string body) = true ->
  exists more,
    re.findall db3dnl.outer_pat ("POLYGON Z (" +:+ body +:+ ")") = body :: more.
Proof.
  intros Hbody. unfold re.findall.
  rewrite !list_ascii_of_string_app.
  set (chars := list_ascii_of_string body) in *.
  set (before := rev (list_ascii_of_string "POLYGON Z (")).
  assert (re.findall_from db3dnl.outer_pat 0 []
            (list_ascii_of_string "POLYGON Z (" ++ chars ++ list_ascii_of_string ")")
          = re.findall_from db3dnl.outer_pat 0 before (chars ++ [")"%char])) as ->.
  { reflexivity. }
  assert (re.match_here db3dnl.outer_pat None None before (chars ++ [")"%char])
          = Some (rev chars ++ before, [")"%char], None)) as Hmatch.
  { unfold db3dnl.outer_pat. cbn [re.match_here].
    change (re.starts_with (rev (list_ascii_of_string "POLYGON Z (")) before) with true.
    cbv iota. apply star_gives_back; [exact Hbody | reflexivity | reflexivity | reflexivity]. }
  destruct (chars ++ [")"%char]) as [|c after] eqn:E.
  { destruct chars; discriminate. }
  destruct (findall_from_first _ _ _ _ _ Hmatch) as [more ->].
  exists more. f_equal. cbn [re.listed]. rewrite between_app.
  apply string_of_list_ascii_of_string.
Qed.

Lemma rings_chars (rings : list (list string)) :
  Forall (fun ring => ring <> [] ∧ Forall Spec.point_text ring) rings ->
  forallb re.dot (list_ascii_of_string (Py.join "," (map Spec.ring_text rings))) = true.
Proof.
  assert (forall ring, ring <> [] -> Forall Spec.point_text ring ->
            forallb re.dot (list_ascii_of_string (Spec.ring_text ring)) = true) as Hring.
  { intros ring Hne Hpts. destruct (join_chars ring Hne Hpts) as (_ & _ & Hdot).
    unfold Spec.ring_text. rewrite !list_ascii_of_string_app, !forallb_app, Hdot.
    reflexivity. }
  induction rings as [|ring rings IH]; intros Hrings; [reflexivity|].
  apply Forall_cons in Hrings. destruct Hrings as [[Hne Hpts] Hrings].
  destruct rings as [|ring' rings].
  - cbn [map Py.join]. apply Hring; assumption.
  - change (Py.join "," (map Spec.ring_text (ring :: ring' :: rings)))
      with (Spec.ring_text ring +:+
            String "," (Py.join "," (map Spec.ring_text (ring' :: rings)))).
    rewrite list_ascii_of_string_app, forallb_app. cbn [list_ascii_of_string forallb].
    rewrite (Hring ring Hne Hpts), (IH Hrings). reflexivity.
Qed.

Section parse_polygonz_properties.

Variable F : Type.
Variable float : string -> option F.

Lemma well_formed_ring_points (ring : list string) :
  Spec.well_formed_ring float ring ->
  ring <> [] ∧ Forall Spec.point_text ring ∧
  exists pts, mapM (db3dnl.parse_point F float) ring = Some pts ∧
              length pts = length ring.
Proof.
  intros [Hne Hpts]. split; [exact Hne|]. split.
  - eapply Forall_impl; [exact Hpts|]. intros pt [H _]. exact H.
  - assert (is_Some (mapM (db3dnl.parse_point F float) ring)) as [pts Hsome].
    { apply mapM_is_Some. eapply Forall_impl; [exact Hpts|]. intros pt [_ H]. exact H. }
    exists pts. split; [exact Hsome|]. symmetry. eapply length_mapM. exact Hsome.
Qed.

(** The rings that are yielded for the texts of well-formed rings. *)
Lemma parse_rings_well_formed (rings : list (list string)) :
  Forall (Spec.well_formed_ring float) rings ->
  exists raw : list (list (list F)),
    Forall2 (fun ring pts => mapM (db3dnl.parse_point F float) ring = Some pts ∧
                             length pts = length ring) rings raw ∧
    db3dnl.parse_rings F float (map (Py.join ",") rings) =
    Run.Gen (map tail raw) [] Py.Finished.
Proof.
  induction rings as [|ring rings IH]; intros Hrings.
  - exists []. split; [constructor | reflexivity].
  - apply Forall_cons in Hrings. destruct Hrings as [Hring Hrings].
    destruct (IH Hrings) as (raw & Hraw & Hparse).
    destruct (well_formed_ring_points ring Hring) as (Hne & Hpts & pts & Hsome & Hlen).
    exists (pts :: raw). split; [constructor; [split; assumption | exact Hraw]|].
    cbn [map db3dnl.parse_rings]. unfold db3dnl.parse_ring.
    rewrite (split_join ring Hne Hpts), Hsome, Hparse. reflexivity.
Qed.

End parse_polygonz_properties.





(* ===================================================================== *)
(** * Part III. Further properties of the module                           *)
(* ===================================================================== *)

(** ** The query builder: when it succeeds *)

Lemma item_some {A} (l : list A) (x : A) (xs : list A) (i : nat) :
  l = x :: xs -> i = 0%nat -> Run.item l i = Run.ret x.
Proof. intros -> ->. reflexivity. Qed.

Lemma lods_nil features :
  db.geometry (db.field features) = [] -> Run.item (db3dnl.lods features) 0 = Run.raise Py.IndexError.
Proof. unfold db3dnl.lods. intros ->. reflexivity. Qed.

Lemma lods_cons features lod column rest :
  db.geometry (db.field features) = (lod, column) :: rest ->
  Run.item (db3dnl.lods features) 0 = Run.ret lod ∧
  db3dnl.geometry_sqlid features lod = Run.ret (db.sqlid column).
Proof.
  unfold db3dnl.lods, db3dnl.geometry_sqlid. intros ->. simpl.
  rewrite String.eqb_refl. split; reflexivity.
Qed.

(** Every field of a template has its argument: the fragment builders
    succeed once the level of detail has a column. *)
Lemma query_all_ok features lod g :
  db3dnl.geometry_sqlid features lod = Run.ret g ->
  exists p, db3dnl.query_all features lod = Run.ret (p, sql.Composed [], sql.Composed []).
Proof.
  intros Hg. unfold db3dnl.query_all. rewrite Hg.
  eexists. vm_compute. reflexivity.
Qed.

Lemma bind_ret_l {A B} (a : A) (f : A -> Run.M B) : Run.bind (Run.ret a) f = f a.
Proof. unfold Run.bind, Run.ret. destruct (f a). reflexivity. Qed.

Lemma bind_raise_l {A B} (e : Py.exn) (f : A -> Run.M B) :
  Run.bind (Run.raise e) f = Run.raise e.
Proof. reflexivity. Qed.

Lemma bind_log_l {B} lv m a (f : unit -> Run.M B) :
  Run.bind (Run.log lv m a) f = (Run.LogRecord lv m a :: fst (f tt), snd (f tt)).
Proof. unfold Run.bind, Run.log. destruct (f tt). reflexivity. Qed.

Lemma item_bbox (bbox : list Q) :
  (4 <= length bbox)%nat ->
  exists x0 x1 x2 x3, Run.item bbox 0 = Run.ret x0 ∧ Run.item bbox 1 = Run.ret x1 ∧
                      Run.item bbox 2 = Run.ret x2 ∧ Run.item bbox 3 = Run.ret x3.
Proof.
  intros H. destruct bbox as [|x0 [|x1 [|x2 [|x3 rest]]]]; simpl in H; try lia.
  exists x0, x1, x2, x3. repeat split; reflexivity.
Qed.

Lemma query_bbox_ok features bbox epsg lod g :
  db3dnl.geometry_sqlid features lod = Run.ret g -> (4 <= length bbox)%nat ->
  exists p w, db3dnl.query_bbox features bbox epsg lod = Run.ret (p, w, sql.Composed []).
Proof.
  intros Hg Hlen. unfold db3dnl.query_bbox. rewrite Hg, bind_ret_l.
  destruct (item_bbox bbox Hlen) as (x0 & x1 & x2 & x3 & -> & -> & -> & ->).
  rewrite !bind_ret_l.
  generalize (sql.Literal (sql.LNum x0)), (sql.Literal (sql.LNum x1)),
             (sql.Literal (sql.LNum x2)), (sql.Literal (sql.LNum x3)),
             (sql.Literal (sql.LInt epsg)).
  intros l0 l1 l2 l3 le.
  do 2 eexists. vm_compute. reflexivity.
Qed.

Lemma query_bbox_short features bbox epsg lod g :
  db3dnl.geometry_sqlid features lod = Run.ret g -> (length bbox < 4)%nat ->
  db3dnl.query_bbox features bbox epsg lod = Run.raise Py.IndexError.
Proof.
  intros Hg Hlen. unfold db3dnl.query_bbox. rewrite Hg, bind_ret_l.
  destruct bbox as [|x0 [|x1 [|x2 [|x3 rest]]]]; simpl in Hlen; try lia; reflexivity.
Qed.

Lemma query_extent_ok features ewkt lod g :
  db3dnl.geometry_sqlid features lod = Run.ret g ->
  exists p w, db3dnl.query_extent features ewkt lod = Run.ret (p, w, sql.Composed []).
Proof.
  intros Hg. unfold db3dnl.query_extent. rewrite Hg, bind_ret_l.
  generalize (sql.Literal (sql.LText ewkt)). intros lit.
  do 2 eexists. vm_compute. reflexivity.
Qed.

Lemma query_tiles_in_list_ok features tile_index tile_list lod g :
  db3dnl.geometry_sqlid features lod = Run.ret g ->
  exists p w s1 s2 s3 s4 s5,
    db3dnl.query_tiles_in_list features tile_index tile_list lod =
    Run.ret (p, w,
             sql.Composed
               [sql.SQL s1; db.sqlid (db.tx_geometry tile_index);
                sql.SQL s2; db.qualified (db.tx_schema tile_index) (db.tx_table tile_index);
                sql.SQL s3; db.sqlid (db.tx_pk tile_index);
                sql.SQL s4; sql.Literal (sql.LTuple tile_list); sql.SQL s5]).
Proof.
  intros Hg. unfold db3dnl.query_tiles_in_list. rewrite Hg, bind_ret_l.
  generalize (sql.Literal (sql.LTuple tile_list)),
             (db.sqlid (db.tx_geometry tile_index)),
             (db.qualified (db.tx_schema tile_index) (db.tx_table tile_index)),
             (db.sqlid (db.tx_pk tile_index)).
  intros lit i1 i2 i3.
  do 7 eexists. vm_compute. reflexivity.
Qed.

Lemma query_geometry_ok conn features p e lod g :
  db3dnl.geometry_sqlid features lod = Run.ret g ->
  exists q, db3dnl.query_geometry conn features p e lod = Run.ret q.
Proof.
  intros Hg. unfold db3dnl.query_geometry. rewrite Hg, bind_ret_l.
  eexists. vm_compute. reflexivity.
Qed.

Lemma main_query_ok conn features fr lod column rest :
  db.geometry (db.field features) = (lod, column) :: rest ->
  exists q, db3dnl.main_query conn features fr = Run.ret q.
Proof.
  intros Hgeom. destruct (lods_cons _ _ _ _ Hgeom) as [Hlod Hg].
  destruct fr as [[p w] e]. unfold db3dnl.main_query. rewrite Hlod, bind_ret_l.
  destruct (query_geometry_ok conn features p e lod _ Hg) as [qg ->]. rewrite bind_ret_l.
  match goal with
  | |- context [sql.format ?t [("pk", ?a); ("coid", ?b); ("tbl", ?c); ("attr", ?d);
                                ("where_instersects", ?e'); ("extent", ?f);
                                ("query_geometry", ?g')]] =>
      destruct (main_query_template a b c d e' f g') as (s1&s2&s3&s4&s5&s6&s7&s8&->)
  end.
  eexists. reflexivity.
Qed.

Lemma main_query_no_geometry conn features fr :
  db.geometry (db.field features) = [] ->
  db3dnl.main_query conn features fr = Run.raise Py.IndexError.
Proof.
  intros Hgeom. destruct fr as [[p w] e]. unfold db3dnl.main_query.
  rewrite (lods_nil _ Hgeom). reflexivity.
Qed.

Lemma plan_no_geometry b features tile_index tile_list bbox extent :
  db.geometry (db.field features) = [] ->
  snd (Spec.plan b features tile_index tile_list bbox extent) = Run.Err Py.IndexError.
Proof.
  intros Hgeom. destruct b; unfold Spec.plan;
    rewrite bind_log_l, (lods_nil _ Hgeom), bind_raise_l; reflexivity.
Qed.

Lemma snd_bind_err {A B} (m : Run.M A) (f : A -> Run.M B) e :
  snd m = Run.Err e -> snd (Run.bind m f) = Run.Err e.
Proof. destruct m as [l [a|e']]; simpl; [discriminate | intros [= ->]; reflexivity]. Qed.

Lemma snd_bind_ok {A B} (m : Run.M A) (f : A -> Run.M B) a :
  snd m = Run.Ok a -> snd (Run.bind m f) = snd (f a).
Proof.
  destruct m as [l [a'|e']]; simpl; [intros [= ->] | discriminate].
  destruct (f a). reflexivity.
Qed.

(** The fragments of a plan, for a table with a geometry column: an error
    only for a bounding box of fewer than four numbers. *)
Lemma plan_outcome b features tile_index tile_list bbox extent lod column rest :
  db.geometry (db.field features) = (lod, column) :: rest ->
  (b = Spec.BoundingBox ∧ (length (default [] bbox) < 4)%nat ∧
   snd (Spec.plan b features tile_index tile_list bbox extent) = Run.Err Py.IndexError) ∨
  ((b = Spec.BoundingBox -> (4 <= length (default [] bbox))%nat) ∧
   exists p w e, snd (Spec.plan b features tile_index tile_list bbox extent) = Run.Ok (p, w, e) ∧
     (b <> Spec.TileList -> e = sql.Composed []) ∧
     (b = Spec.TileList ->
      exists s1 s2 s3 s4 s5,
        e = sql.Composed
              [sql.SQL s1; db.sqlid (db.tx_geometry tile_index);
               sql.SQL s2; db.qualified (db.tx_schema tile_index) (db.tx_table tile_index);
               sql.SQL s3; db.sqlid (db.tx_pk tile_index);
               sql.SQL s4; sql.Literal (sql.LTuple (default [] tile_list)); sql.SQL s5])).
Proof.
  intros Hgeom. destruct (lods_cons _ _ _ _ Hgeom) as [Hlod Hg].
  destruct b; unfold Spec.plan; rewrite bind_log_l, Hlod, bind_ret_l; cbn [snd].
  - destruct (le_lt_dec 4 (length (default [] bbox))) as [Hlen | Hlen].
    + right. split; [intros _; exact Hlen|].
      destruct (query_bbox_ok features (default [] bbox) 7415 lod _ Hg Hlen) as (p & w & ->).
      exists p, w, (sql.Composed []). split; [reflexivity|]. split; [reflexivity | discriminate].
    + left. rewrite (query_bbox_short features (default [] bbox) 7415 lod _ Hg Hlen). auto.
  - right. split; [discriminate|].
    destruct (query_tiles_in_list_ok features tile_index (default [] tile_list) lod _ Hg)
      as (p & w & s1 & s2 & s3 & s4 & s5 & ->).
    eexists p, w, _. split; [reflexivity|]. split; [done|]. intros _. eauto 10.
  - right. split; [discriminate|].
    destruct (query_extent_ok features (utils.to_ewkt (default [] extent) 7415) lod _ Hg)
      as (p & w & ->).
    exists p, w, (sql.Composed []). split; [reflexivity|]. split; [reflexivity | discriminate].
  - right. split; [discriminate|].
    destruct (query_all_ok features lod _ Hg) as (p & ->).
    exists p, (sql.Composed []), (sql.Composed []).
    split; [reflexivity|]. split; [reflexivity | discriminate].
Qed.

Lemma precedence_BoundingBox tile_list bbox extent :
  Spec.precedence tile_list bbox extent = Spec.BoundingBox <-> Py.truthy bbox = true.
Proof.
  unfold Spec.precedence. destruct (Py.truthy bbox); [done|].
  destruct (Py.truthy tile_list); [done|]. destruct (Py.truthy extent); done.
Qed.

(** X1: [build_query] returns a query exactly when the table has a
    geometry column and the bounding box, when one is supplied, has at
    least four numbers; otherwise it raises [IndexError], from [lods[0]] or
    from [bbox[i]]. No template lacks an argument. *)
Theorem build_query_outcome :
  forall (conn : db.Db) (features : db.Schema) (tile_index : db.TileSchema)
         (tile_list : option (list string)) (bbox : option (list Q))
         (extent : option utils.polygon),
    let built := snd (db3dnl.build_query conn features tile_index tile_list bbox extent) in
    let well_configured :=
      db.geometry (db.field features) <> [] ∧
      (Py.truthy bbox = true -> (4 <= length (default [] bbox))%nat) in
    (well_configured ∧ exists q, built = Run.Ok q) ∨
    (~ well_configured ∧ built = Run.Err Py.IndexError).
Proof.
  intros conn features tile_index tile_list bbox extent. cbv zeta.
  unfold db3dnl.build_query. rewrite selection_plan.
  set (b := Spec.precedence tile_list bbox extent).
  destruct (db.geometry (db.field features)) as [|[lod column] rest] eqn:Hgeom.
  - right. split; [intros [H _]; done|].
    apply snd_bind_err, plan_no_geometry, Hgeom.
  - destruct (plan_outcome b features tile_index tile_list bbox extent _ _ _ Hgeom)
      as [(Hb & Hlen & Herr) | (Hlen & p & w & e & Hok & _)].
    + right. split; [|apply snd_bind_err, Herr].
      intros [_ H]. apply precedence_BoundingBox in Hb. specialize (H Hb). lia.
    + left. split.
      * split; [done|]. intros Ht. apply Hlen, precedence_BoundingBox, Ht.
      * rewrite (snd_bind_ok _ _ _ Hok).
        destruct (main_query_ok conn features (p, w, e) _ _ _ Hgeom) as [q ->].
        exists q. reflexivity.
Qed.

(** X2: only a tile-list selection has an extent: the extent fragment of
    the selection is empty for a bounding box, a polygon extent and the
    whole table, and for a tile list it is the subquery over the tile
    index that holds the whole list as one literal. *)
Theorem selection_extent_fragment :
  forall (features : db.Schema) (tile_index : db.TileSchema)
         (tile_list : option (list string)) (bbox : option (list Q))
         (extent : option utils.polygon) (p w e : sql.Composable),
    snd (db3dnl.selection features tile_index tile_list bbox extent 7415) = Run.Ok (p, w, e) ->
    (Spec.precedence tile_list bbox extent <> Spec.TileList -> e = sql.Composed []) ∧
    (Spec.precedence tile_list bbox extent = Spec.TileList ->
     exists s1 s2 s3 s4 s5,
       e = sql.Composed
             [sql.SQL s1; db.sqlid (db.tx_geometry tile_index);
              sql.SQL s2; db.qualified (db.tx_schema tile_index) (db.tx_table tile_index);
              sql.SQL s3; db.sqlid (db.tx_pk tile_index);
              sql.SQL s4; sql.Literal (sql.LTuple (default [] tile_list)); sql.SQL s5]).
Proof.
  intros features tile_index tile_list bbox extent p w e. rewrite selection_plan.
  set (b := Spec.precedence tile_list bbox extent).
  destruct (db.geometry (db.field features)) as [|[lod column] rest] eqn:Hgeom.
  - rewrite (plan_no_geometry b _ _ _ _ _ Hgeom). discriminate.
  - destruct (plan_outcome b features tile_index tile_list bbox extent _ _ _ Hgeom)
      as [(_ & _ & ->) | (_ & p' & w' & e' & -> & H1 & H2)]; [discriminate|].
    intros [= <- <- <-]. split; assumption.
Qed.

Lemma selection_extent_fragment_witness :
  exists p w e,
    snd (db3dnl.selection Fixture.building_a Fixture.tile_index (Some ["t1"; "t2"]) None None 7415)
      = Run.Ok (p, w, e) ∧
    exists s1 s2 s3 s4 s5,
      e = sql.Composed
            [sql.SQL s1; db.sqlid "geom"; sql.SQL s2; db.qualified "tile_index" "tiles";
             sql.SQL s3; db.sqlid "tile_id"; sql.SQL s4;
             sql.Literal (sql.LTuple ["t1"; "t2"]); sql.SQL s5].
Proof.
  destruct (db3dnl.selection Fixture.building_a Fixture.tile_index (Some ["t1"; "t2"]) None None 7415)
    as [l [[[p w] e]|err]] eqn:E; [|vm_compute in E; discriminate].
  exists p, w, e. split; [reflexivity|].
  refine (proj2 (selection_extent_fragment Fixture.building_a Fixture.tile_index
                   (Some ["t1"; "t2"]) None None p w e _) eq_refl).
  rewrite E. reflexivity.
Defined.

(** ** The attribute projection *)

Lemma excluded_names (exclude : option (list (option string))) (col : string) :
  col ∈ match exclude with
        | Some (e :: es) => omap (fun x => x) (e :: es)
        | _ => []
        end
  <-> Some col ∈ default [] exclude.
Proof.
  assert (forall l : list (option string), col ∈ omap (fun x => x) l <-> Some col ∈ l) as H.
  { intros l. rewrite list_elem_of_omap. split.
    - intros (x & Hx & ->). exact Hx.
    - intros Hin. exists (Some col). split; [exact Hin | reflexivity]. }
  destruct exclude as [[|e es]|]; cbn [default].
  - split; intros Hin; inversion Hin.
  - apply H.
  - split; intros Hin; inversion Hin.
Qed.

(** X3: the attribute projection lists, in table order, exactly the
    columns of the table that are not the primary key, the city-object id
    or a geometry column and that the exclusion list does not name. So a
    [None] entry of the exclusion list, and an entry that names no column
    of the table, change nothing. *)
Theorem attr_columns_exactly :
  forall (table_fields : list string) (features : db.Schema),
    (forall col,
       col ∈ db3dnl.attr_columns table_fields features <->
       col ∈ table_fields ∧ (col ∉ Spec.key_columns features) ∧
       Some col ∉ default [] (db.exclude (db.field features))) ∧
    sublist (db3dnl.attr_columns table_fields features) table_fields.
Proof.
  intros table_fields features. split.
  - intros col. unfold db3dnl.attr_columns, Spec.key_columns.
    rewrite list_elem_of_filter, excluded_names, !not_elem_of_cons. tauto.
  - unfold db3dnl.attr_columns. apply sublist_filter.
Qed.

(** ** Selection parameters that are empty *)

(** X4: a selection parameter that is an empty sequence counts as not
    supplied: [build_query] builds the same query, with the same log, as
    for [None]. So an empty tile list, with no bounding box and no extent,
    selects the whole table. *)
Theorem build_query_empty_is_missing :
  forall (conn : db.Db) (features : db.Schema) (tile_index : db.TileSchema)
         (tile_list : option (list string)) (bbox : option (list Q))
         (extent : option utils.polygon),
    db3dnl.build_query conn features tile_index (Spec.supplied_only tile_list)
      (Spec.supplied_only bbox) (Spec.supplied_only extent) =
    db3dnl.build_query conn features tile_index tile_list bbox extent ∧
    Spec.branches_taken
      (fst (db3dnl.build_query conn features tile_index (Some []) (Some []) (Some [])))
    = [Spec.WholeTable].
Proof.
  intros conn features tile_index tile_list bbox extent. split.
  - unfold db3dnl.build_query, db3dnl.selection.
    destruct bbox as [[|x bbox]|], tile_list as [[|t tile_list]|], extent as [[|r extent]|];
      reflexivity.
  - unfold db3dnl.build_query. rewrite selection_plan, bind_log_left.
    + apply plan_branches.
    + intros fr. apply main_query_log.
Qed.

(** ** A closed ring through [expand_points] *)


(** ** The record converter: every record, or the first error *)

Lemma get_outcome record key :
  (exists v, db3dnl.get record key = Run.ret v) ∨
  db3dnl.get record key = Run.raise (Py.KeyError key).
Proof. apply get_cases. Qed.

(** A record is converted exactly when it has the keys that are read;
    otherwise the conversion raises [KeyError], of [coid] first. *)
Lemma record_to_cityobject_outcome record cotype geomtype lod :
  (Spec.convertible geomtype record ∧
   exists coid co,
     db3dnl.record_to_cityobject record cotype geomtype lod = Run.ret (coid, co) ∧
     db3dnl.get record "coid" = Run.ret coid ∧
     cjio.id co = coid ∧ cjio.co_type co = Some cotype) ∨
  (~ Spec.convertible geomtype record ∧
   exists key, (key = "coid" ∨ key = "geom") ∧
     db3dnl.record_to_cityobject record cotype geomtype lod = Run.raise (Py.KeyError key)).
Proof.
  unfold Spec.convertible, Spec.reads_geom.
  destruct (get_outcome record "coid") as [[coid Hc] | Hc].
  2:{ right. split; [intros [[c Hc'] _]; rewrite Hc in Hc'; discriminate|].
      exists "coid". split; [left; reflexivity|].
      unfold db3dnl.record_to_cityobject. rewrite Hc. reflexivity. }
  destruct (String.eqb geomtype "Solid") eqn:Hs;
    [|destruct (String.eqb geomtype "MultiSurface") eqn:Hm]; cbn [orb].
  1,2: destruct (get_outcome record "geom") as [[geom Hg] | Hg].
  1,3: left; split; [split; [eauto | intros _; eauto]|];
       unfold db3dnl.record_to_cityobject; rewrite Hc, bind_ret_l, ?Hs, ?Hm, Hg, !bind_ret_l;
       eexists _, _; split; [reflexivity|]; split; [reflexivity|]; split; reflexivity.
  1,2: right; split;
       [intros [_ H]; destruct (H eq_refl) as [g Hg']; rewrite Hg in Hg'; discriminate|];
       exists "geom"; split; [right; reflexivity|];
       unfold db3dnl.record_to_cityobject; rewrite Hc, bind_ret_l, ?Hs, ?Hm, Hg; reflexivity.
  left. split; [split; [eauto | discriminate]|].
  unfold db3dnl.record_to_cityobject. rewrite Hc, bind_ret_l, Hs, Hm, !bind_ret_l.
  eexists _, _; split; [reflexivity|]; split; [reflexivity|]; split; reflexivity.
Qed.

(** The run of [table_to_cityobjects] over records that all convert. *)
Lemma table_to_cityobjects_all :
  forall (tabledata : list db.record) (cotype geomtype lod : string),
    Forall (Spec.convertible geomtype) tabledata ->
    let g := db3dnl.table_to_cityobjects tabledata cotype geomtype lod in
    Run.ending g = Py.Finished ∧ Run.logged g = [] ∧
    Forall2 (fun record coid_co =>
               db3dnl.get record "coid" = Run.ret (fst coid_co) ∧
               cjio.id (snd coid_co) = fst coid_co ∧
               cjio.co_type (snd coid_co) = Some cotype)
            tabledata (Run.yields g).
Proof.
  intros tabledata cotype geomtype lod Hall. cbv zeta.
  induction Hall as [|record tabledata Hrec Hall IH]; [repeat split; constructor|].
  cbn [db3dnl.table_to_cityobjects].
  destruct (record_to_cityobject_outcome record cotype geomtype lod)
    as [(_ & coid & co & -> & Hc & Hid & Hty) | (Hno & _)]; [|done].
  destruct IH as (He & Hl & Hy). cbn.
  split; [exact He|]. split; [exact Hl|]. constructor; [|exact Hy]. auto.
Qed.

(** X6: when every record has the keys that are read ([coid], and [geom]
    for the kinds [Solid] and [MultiSurface]), [table_to_cityobjects]
    finishes without logging and yields one city object per record, in
    order, each under the record's [coid], with that id and the object
    type. *)
Theorem table_to_cityobjects_complete :
  forall (tabledata : list db.record) (cotype geomtype lod : string),
    Forall (Spec.convertible geomtype) tabledata ->
    let g := db3dnl.table_to_cityobjects tabledata cotype geomtype lod in
    Run.ending g = Py.Finished ∧ Run.logged g = [] ∧
    Forall2 (fun record coid_co =>
               db3dnl.get record "coid" = Run.ret (fst coid_co) ∧
               cjio.id (snd coid_co) = fst coid_co ∧
               cjio.co_type (snd coid_co) = Some cotype)
            tabledata (Run.yields g).
Proof. intros tabledata cotype geomtype lod Hall. exact (table_to_cityobjects_all tabledata cotype geomtype lod Hall). Qed.

Lemma table_to_cityobjects_complete_witness :
  let tabledata :=
    [[("pk", db.PyInt 1); ("geom", db.PyList []); ("coid", db.PyStr "b1")];
     [("pk", db.PyInt 2); ("geom", db.PyList []); ("coid", db.PyStr "b2")]] in
  Run.ending (db3dnl.table_to_cityobjects tabledata "Building" "Solid" "1.2") = Py.Finished.
Proof.
  cbv zeta.
  refine (proj1 (table_to_cityobjects_complete _ "Building" "Solid" "1.2" _)).
  repeat constructor; eexists; reflexivity.
Defined.

(** The run of [table_to_cityobjects] up to the first record that does
    not convert. *)
Lemma table_to_cityobjects_stops :
  forall (before after : list db.record) (bad : db.record) (cotype geomtype lod : string),
    Forall (Spec.convertible geomtype) before ->
    ~ Spec.convertible geomtype bad ->
    let g := db3dnl.table_to_cityobjects (before ++ bad :: after) cotype geomtype lod in
    Run.yields g = Run.yields (db3dnl.table_to_cityobjects before cotype geomtype lod) ∧
    length (Run.yields g) = length before ∧
    (Run.ending g = Py.Raised (Py.KeyError "coid") ∨
     Run.ending g = Py.Raised (Py.KeyError "geom")).
Proof.
  intros before after bad cotype geomtype lod Hall Hbad. cbv zeta.
  induction Hall as [|record before Hrec Hall IH].
  - cbn [app db3dnl.table_to_cityobjects].
    destruct (record_to_cityobject_outcome bad cotype geomtype lod)
      as [(Hok & _) | (_ & key & Hkey & ->)]; [done|].
    cbn. split; [reflexivity|]. split; [reflexivity|].
    destruct Hkey as [-> | ->]; auto.
  - cbn [app db3dnl.table_to_cityobjects].
    destruct (record_to_cityobject_outcome record cotype geomtype lod)
      as [(_ & coid & co & -> & _) | (Hno & _)]; [|done].
    destruct IH as (Hy & Hlen & He). cbn.
    split; [f_equal; exact Hy|]. split; [f_equal; exact Hlen | exact He].
Qed.

(** X7: [table_to_cityobjects] stops at the first record that lacks a key
    that is read: the records before it are yielded, it raises
    [KeyError] of [coid] or [geom], and no later record is converted. *)
Theorem table_to_cityobjects_first_error :
  forall (before after : list db.record) (bad : db.record) (cotype geomtype lod : string),
    Forall (Spec.convertible geomtype) before ->
    ~ Spec.convertible geomtype bad ->
    let g := db3dnl.table_to_cityobjects (before ++ bad :: after) cotype geomtype lod in
    Run.yields g = Run.yields (db3dnl.table_to_cityobjects before cotype geomtype lod) ∧
    length (Run.yields g) = length before ∧
    (Run.ending g = Py.Raised (Py.KeyError "coid") ∨
     Run.ending g = Py.Raised (Py.KeyError "geom")).
Proof.
  intros before after bad cotype geomtype lod Hall Hbad.
  exact (table_to_cityobjects_stops before after bad cotype geomtype lod Hall Hbad).
Qed.

Lemma table_to_cityobjects_first_error_witness :
  let g := db3dnl.table_to_cityobjects
             ([[("geom", db.PyList []); ("coid", db.PyStr "b1")]] ++
              [("coid", db.PyStr "b2")] ::
              [[("geom", db.PyList []); ("coid", db.PyStr "b3")]])
             "Building" "Solid" "1.2" in
  length (Run.yields g) = 1%nat.
Proof.
  cbv zeta.
  refine (proj1 (proj2 (table_to_cityobjects_first_error
            [[("geom", db.PyList []); ("coid", db.PyStr "b1")]]
            [[("geom", db.PyList []); ("coid", db.PyStr "b3")]]
            [("coid", db.PyStr "b2")] "Building" "Solid" "1.2" _ _))).
  - repeat constructor; eexists; reflexivity.
  - intros [_ H]. destruct (H eq_refl) as [g Hg]. discriminate.
Defined.

(** ** The attributes of a record *)

Lemma parse_attributes_cons key attr record attrs :
  db3dnl.parse_attributes ((key, attr) :: record) attrs =
  db3dnl.parse_attributes record
    (if bool_decide (key ∈ Spec.skipped_keys) then attrs
     else <[key := Spec.attribute_value attr]> attrs).
Proof.
  unfold db3dnl.parse_attributes. cbn [fold_left]. f_equal.
  unfold Spec.skipped_keys.
  destruct (String.eqb_spec key "pk") as [->|N1]; [reflexivity|].
  destruct (String.eqb_spec key "geom") as [->|N2]; [reflexivity|].
  destruct (String.eqb_spec key "coid") as [->|N3]; [reflexivity|].
  rewrite bool_decide_eq_false_2.
  2:{ rewrite !not_elem_of_cons. repeat split; try assumption. apply not_elem_of_nil. }
  destruct attr; reflexivity.
Qed.

Lemma parse_attributes_lookup_NoDup (record : db.record) :
  NoDup (map fst record) ->
  forall (attrs : gmap string db.pyval) (key : string),
    db3dnl.parse_attributes record attrs !! key =
    match (list_to_map record : gmap string db.pyval) !! key with
    | Some v => if bool_decide (key ∈ Spec.skipped_keys) then attrs !! key
                else Some (Spec.attribute_value v)
    | None => attrs !! key
    end.
Proof.
  induction record as [|[k v] record IH]; intros Hnd attrs key.
  - reflexivity.
  - cbn [map fst] in Hnd. apply NoDup_cons in Hnd. destruct Hnd as [Hk Hnd].
    rewrite parse_attributes_cons, (IH Hnd).
    cbn [list_to_map foldr]. change (foldr _ ∅ record) with (list_to_map record : gmap string db.pyval).
    destruct (decide (k = key)) as [->|Hne].
    + rewrite lookup_insert_eq.
      rewrite (not_elem_of_list_to_map_1 record key) by exact Hk.
      destruct (bool_decide (key ∈ Spec.skipped_keys)); [reflexivity|].
      apply lookup_insert_eq.
    + rewrite (lookup_insert_ne _ k key) by exact Hne.
      destruct ((list_to_map record : gmap string db.pyval) !! key) as [v'|];
        destruct (bool_decide (k ∈ Spec.skipped_keys)); try reflexivity;
        destruct (bool_decide (key ∈ Spec.skipped_keys)); try reflexivity;
        apply lookup_insert_ne, Hne.
Qed.

(** X8: the attributes of a converted record, whose keys are distinct as
    those of a dictionary are: every item but [pk], [geom] and [coid] is
    an attribute under its key, a timestamp as its ISO text and any other
    value unchanged, and there is no other attribute. *)
Theorem attributes_of_record :
  forall (record : db.record) (cotype geomtype lod : string)
         (attrs : gmap string db.pyval),
    NoDup (map fst record) ->
    Spec.attributes_of record cotype geomtype lod = Some attrs ->
    forall key : string,
      attrs !! key =
      if bool_decide (key ∈ Spec.skipped_keys) then None
      else Spec.attribute_value <$> (list_to_map record : gmap string db.pyval) !! key.
Proof.
  intros record cotype geomtype lod attrs Hnd Hattrs key.
  apply attributes_of_spec in Hattrs. subst attrs.
  rewrite (parse_attributes_lookup_NoDup record Hnd), lookup_empty.
  destruct ((list_to_map record : gmap string db.pyval) !! key);
    destruct (bool_decide (key ∈ Spec.skipped_keys)); reflexivity.
Qed.

Lemma attributes_of_record_witness :
  let record := [("pk", db.PyInt 7); ("geom", db.PyList []); ("coid", db.PyStr "b1");
                 ("built", db.PyDatetime "1999-12-31T00:00:00"); ("floors", db.PyInt 3)] in
  exists attrs, Spec.attributes_of record "Building" "Solid" "1.2" = Some attrs ∧
    attrs !! "built" = Some (db.PyStr "1999-12-31T00:00:00") ∧ attrs !! "pk" = None.
Proof.
  cbv zeta.
  destruct (Spec.attributes_of
              [("pk", db.PyInt 7); ("geom", db.PyList []); ("coid", db.PyStr "b1");
               ("built", db.PyDatetime "1999-12-31T00:00:00"); ("floors", db.PyInt 3)]
              "Building" "Solid" "1.2") as [attrs|] eqn:E; [|vm_compute in E; discriminate].
  assert (NoDup (map fst
            [("pk", db.PyInt 7); ("geom", db.PyList []); ("coid", db.PyStr "b1");
             ("built", db.PyDatetime "1999-12-31T00:00:00"); ("floors", db.PyInt 3)])) as Hnd.
  { repeat constructor; rewrite ?elem_of_cons; intros Hin;
      repeat (destruct Hin as [Hin | Hin]; [discriminate|]); inversion Hin. }
  exists attrs. split; [reflexivity|]. split.
  - rewrite (attributes_of_record _ "Building" "Solid" "1.2" attrs Hnd E "built"). reflexivity.
  - rewrite (attributes_of_record _ "Building" "Solid" "1.2" attrs Hnd E "pk"). reflexivity.
Defined.

(** ** The objects of an export *)

Lemma gen_then_Finished {A} (g next : Run.gen A) :
  Run.ending g = Py.Finished ->
  Run.yields (db3dnl.gen_then g next) = Run.yields g ++ Run.yields next ∧
  Run.ending (db3dnl.gen_then g next) = Run.ending next.
Proof. intros E. unfold db3dnl.gen_then. rewrite E. split; reflexivity. Qed.

Lemma gen_then_Raised {A} (g next : Run.gen A) e :
  Run.ending g = Py.Raised e -> db3dnl.gen_then g next = g.
Proof. intros E. unfold db3dnl.gen_then. rewrite E. reflexivity. Qed.

(** X9: when the records of every exported table have the keys that are
    read, [dbexport_to_cityobjects] yields the city objects of the tables
    one table after the other, each table converted with the geometry kind
    of its object type, and ends as the export does: an error of the
    export is raised after the objects of the tables that were yielded. *)
Theorem dbexport_to_cityobjects_complete :
  forall (dbexport : list db3dnl.table_result) (at_end : Py.outcome) (lod : string),
    Forall (fun tr => Forall (Spec.convertible (db3dnl.geomtype (fst (fst tr)))) (snd tr))
           dbexport ->
    let g := db3dnl.dbexport_to_cityobjects dbexport at_end lod in
    Run.yields g =
      (tr ← dbexport;
       Run.yields (db3dnl.table_to_cityobjects (snd tr) (fst (fst tr))
                     (db3dnl.geomtype (fst (fst tr))) lod)) ∧
    length (Run.yields g) = length (dbexport ≫= snd) ∧
    Run.ending g = at_end.
Proof.
  intros dbexport at_end lod Hall. cbv zeta.
  induction Hall as [|[[cotype cotable] tabledata] dbexport Htab Hall IH].
  - repeat split; reflexivity.
  - cbn [db3dnl.dbexport_to_cityobjects]. cbn [fst snd] in Htab.
    destruct (table_to_cityobjects_all tabledata cotype (db3dnl.geomtype cotype) lod Htab)
      as (He & _ & Hy).
    destruct (gen_then_Finished _
                (db3dnl.dbexport_to_cityobjects dbexport at_end lod) He) as [-> ->].
    destruct IH as (IHy & IHl & IHe).
    rewrite !bind_cons. cbn [fst snd]. rewrite IHy, !length_app, IHe.
    split; [reflexivity|]. split; [|reflexivity].
    rewrite <- IHl, IHy. f_equal. symmetry. eapply Forall2_length. exact Hy.
Qed.

Lemma dbexport_to_cityobjects_complete_witness :
  let dbexport :=
    [(("Building", "a"), [[("geom", db.PyList []); ("coid", db.PyStr "b1")]]);
     (("Road", "r"), [[("geom", db.PyList []); ("coid", db.PyStr "r1")];
                      [("geom", db.PyList []); ("coid", db.PyStr "r2")]])] in
  length (Run.yields (db3dnl.dbexport_to_cityobjects dbexport Py.Finished "1.2")) = 3%nat.
Proof.
  cbv zeta.
  refine (proj1 (proj2 (dbexport_to_cityobjects_complete _ Py.Finished "1.2" _))).
  repeat constructor; eexists; reflexivity.
Defined.

(** X10: [dbexport_to_cityobjects] stops at the first record of the export
    that lacks a key that is read: the objects before it are yielded, a
    [KeyError] is raised, and neither the later tables nor the end of the
    export are reached. *)
Theorem dbexport_to_cityobjects_first_error :
  forall (done later : list db3dnl.table_result) (cotype cotable : string)
         (before after : list db.record) (bad : db.record)
         (at_end : Py.outcome) (lod : string),
    Forall (fun tr => Forall (Spec.convertible (db3dnl.geomtype (fst (fst tr)))) (snd tr))
           done ->
    Forall (Spec.convertible (db3dnl.geomtype cotype)) before ->
    ~ Spec.convertible (db3dnl.geomtype cotype) bad ->
    let g := db3dnl.dbexport_to_cityobjects
               (done ++ ((cotype, cotable), before ++ bad :: after) :: later) at_end lod in
    length (Run.yields g) = (length (done ≫= snd) + length before)%nat ∧
    (Run.ending g = Py.Raised (Py.KeyError "coid") ∨
     Run.ending g = Py.Raised (Py.KeyError "geom")).
Proof.
  intros done later cotype cotable before after bad at_end lod Hdone Hbefore Hbad. cbv zeta.
  induction Hdone as [|[[cotype' cotable'] tabledata] done Htab Hdone IH].
  - cbn [app db3dnl.dbexport_to_cityobjects].
    destruct (table_to_cityobjects_stops before after bad cotype
                (db3dnl.geomtype cotype) lod Hbefore Hbad) as (_ & Hlen & He).
    destruct He as [He | He]; rewrite (gen_then_Raised _ _ _ He), Hlen, He; auto.
  - cbn [app db3dnl.dbexport_to_cityobjects]. cbn [fst snd] in Htab.
    destruct (table_to_cityobjects_all tabledata cotype' (db3dnl.geomtype cotype') lod Htab)
      as (He & _ & Hy).
    match goal with
    | |- context [db3dnl.gen_then ?g ?next] =>
        destruct (gen_then_Finished g next He) as [-> ->]
    end.
    destruct IH as (IHl & IHe).
    rewrite bind_cons, !length_app, IHl. cbn [snd].
    split; [|exact IHe].
    rewrite <- (Forall2_length _ _ _ Hy). lia.
Qed.

Lemma dbexport_to_cityobjects_first_error_witness :
  let g := db3dnl.dbexport_to_cityobjects
             ([(("Building", "a"), [[("geom", db.PyList []); ("coid", db.PyStr "b1")]])] ++
              (("Road", "r"), [] ++ [("geom", db.PyList [])] :: []) ::
              [(("Bridge", "g"), [[("geom", db.PyList []); ("coid", db.PyStr "g1")]])])
             Py.Finished "1.2" in
  length (Run.yields g) = 1%nat.
Proof.
  cbv zeta.
  refine (proj1 (dbexport_to_cityobjects_first_error
            [(("Building", "a"), [[("geom", db.PyList []); ("coid", db.PyStr "b1")]])]
            [(("Bridge", "g"), [[("geom", db.PyList []); ("coid", db.PyStr "g1")]])]
            "Road" "r" [] [] [("geom", db.PyList [])] Py.Finished "1.2" _ _ _)).
  - repeat constructor; eexists; reflexivity.
  - constructor.
  - intros [[c Hc] _]. discriminate.
Defined.

(** ** Parsing a POLYGON Z: what is no polygon, what is no number *)

Lemma starts_with_prefix (w before : list ascii) :
  re.starts_with w before = true -> exists rest, before = w ++ rest.
Proof.
  revert before. induction w as [|a w IH]; intros before H; [exists before; reflexivity|].
  destruct before as [|b before]; [discriminate|]. cbn [re.starts_with] in H.
  apply andb_prop in H. destruct H as [Hab H].
  apply Ascii.eqb_eq in Hab. subst b.
  destruct (IH before H) as [rest ->]. exists rest. reflexivity.
Qed.

Lemma prefix_app (w t : string) : String.prefix w (w +:+ t) = true.
Proof.
  induction w as [|c w IH]; [destruct t; reflexivity|].
  change (String.prefix (String c w) (String c (w +:+ t)) = true).
  cbn [String.prefix]. destruct (ascii_dec c c) as [_|N]; [exact IH | congruence].
Qed.

Lemma contains_occurrence (w : string) (a0 a2 : list ascii) :
  Py.contains w (string_of_list_ascii (a0 ++ list_ascii_of_string w ++ a2)) = true.
Proof.
  induction a0 as [|c a0 IH].
  - cbn [app]. destruct (list_ascii_of_string w ++ a2) as [|c cs] eqn:E.
    + destruct w; [reflexivity | discriminate].
    + rewrite <- E. clear E.
      assert (string_of_list_ascii (list_ascii_of_string w ++ a2)
              = w +:+ string_of_list_ascii a2) as ->.
      { rewrite <- (string_of_list_ascii_of_string w) at 2.
        generalize (list_ascii_of_string w). intros l.
        induction l as [|x l IHl]; [reflexivity|]. cbn. rewrite IHl. reflexivity. }
      destruct (w +:+ string_of_list_ascii a2) eqn:E;
        cbn [Py.contains]; rewrite <- E, prefix_app; reflexivity.
  - cbn [app string_of_list_ascii Py.contains]. rewrite IH. apply orb_true_r.
Qed.

(** Where the text before the opening parenthesis occurs nowhere, the
    outer pattern matches nowhere. *)
Lemma findall_outer_none (after : list ascii) : forall skip before,
  (forall a1 a2, after = a1 ++ a2 ->
     re.starts_with (rev (list_ascii_of_string "POLYGON Z (")) (rev a1 ++ before) = false) ->
  re.findall_from db3dnl.outer_pat skip before after = [].
Proof.
  induction after as [|c after IH]; intros skip before Hno.
  - destruct skip; [|reflexivity]. cbn [re.findall_from db3dnl.outer_pat re.match_here].
    pose proof (Hno [] [] eq_refl) as H0. cbn [rev app] in H0. rewrite H0. reflexivity.
  - assert (forall a1 a2, after = a1 ++ a2 ->
              re.starts_with (rev (list_ascii_of_string "POLYGON Z ("))
                             (rev a1 ++ c :: before) = false) as Hno'.
    { intros a1 a2 E. specialize (Hno (c :: a1) a2). cbn [rev] in Hno.
      rewrite <- app_assoc in Hno. apply Hno. rewrite E. reflexivity. }
    destruct skip as [|skip]; cbn [re.findall_from].
    + cbn [db3dnl.outer_pat re.match_here].
      pose proof (Hno [] (c :: after) eq_refl) as H0. cbn [rev app] in H0. rewrite H0.
      apply IH, Hno'.
    + apply IH, Hno'.
Qed.

Section parse_polygonz_errors.

Variable F : Type.
Variable float : string -> option F.

(** X11: a text in which [POLYGON Z (] occurs nowhere yields no ring:
    [parse_polygonz] logs the error and finishes without raising. *)
Theorem parse_polygonz_not_a_polygon :
  forall wkt : string,
    Py.contains "POLYGON Z (" wkt = false ->
    db3dnl.parse_polygonz F float wkt =
    Run.Gen [] [Run.LogRecord Run.ERROR "Not a POLYGON Z" []] Py.Finished.
Proof.
  intros wkt Hno. unfold db3dnl.parse_polygonz, re.findall.
  rewrite findall_outer_none; [reflexivity|].
  intros a1 a2 E. rewrite app_nil_r.
  destruct (re.starts_with _ (rev a1)) eqn:Hs; [|reflexivity]. exfalso.
  apply starts_with_prefix in Hs. destruct Hs as [z Hz].
  assert (a1 = rev z ++ list_ascii_of_string "POLYGON Z (") as Ha1.
  { rewrite <- (rev_involutive a1), Hz, rev_app_distr, rev_involutive. reflexivity. }
  pose proof (contains_occurrence "POLYGON Z (" (rev z) a2) as Hc.
  rewrite app_assoc, <- Ha1, <- E, string_of_list_ascii_of_string in Hc. congruence.
Qed.

Lemma parse_rings_app (good rest : list string) :
  Run.ending (db3dnl.parse_rings F float good) = Py.Finished ->
  db3dnl.parse_rings F float (good ++ rest) =
  Run.Gen (Run.yields (db3dnl.parse_rings F float good) ++
           Run.yields (db3dnl.parse_rings F float rest))
          [] (Run.ending (db3dnl.parse_rings F float rest)).
Proof.
  assert (forall rings, Run.logged (db3dnl.parse_rings F float rings) = []) as Hlog.
  { induction rings as [|r rings IH]; [reflexivity|]. cbn [db3dnl.parse_rings].
    destruct (db3dnl.parse_ring F float r); [|reflexivity]. cbn. exact IH. }
  induction good as [|ring good IH]; intros Hend.
  - cbn [app db3dnl.parse_rings Run.yields].
    specialize (Hlog rest). destruct (db3dnl.parse_rings F float rest). cbn in *.
    rewrite Hlog. reflexivity.
  - cbn [app db3dnl.parse_rings] in *.
    destruct (db3dnl.parse_ring F float ring); [|discriminate].
    cbn in Hend. rewrite (IH Hend). reflexivity.
Qed.

(** X12: [parse_polygonz] is lazy about numbers: when the first ring that
    holds a text that is no number comes after rings that are well
    formed, those rings are yielded, each without its first point; then
    [ValueError] is raised, and no later ring is yielded. *)
Theorem parse_polygonz_value_error :
  forall (good rest : list (list string)) (bad : list string),
    Forall (Spec.well_formed_ring float) good ->
    bad <> [] ∧ Forall Spec.point_text bad ->
    mapM (db3dnl.parse_point F float) bad = None ->
    Forall (fun ring => ring <> [] ∧ Forall Spec.point_text ring) rest ->
    let g := db3dnl.parse_polygonz F float (Spec.polygonz_text (good ++ bad :: rest)) in
    Run.yields g =
      Run.yields (db3dnl.parse_polygonz F float (Spec.polygonz_text good)) ∧
    length (Run.yields g) = length good ∧
    Run.ending g = Py.Raised (Py.ValueError "could not convert string to float").
Proof.
  intros good rest bad Hgood [Hne Hpts] Hbad Hrest. cbv zeta.
  assert (forall rings,
            Forall (fun ring => ring <> [] ∧ Forall Spec.point_text ring) rings ->
            db3dnl.parse_polygonz F float (Spec.polygonz_text rings) =
            db3dnl.parse_rings F float (map (Py.join ",") rings)) as Hparse.
  { intros rings Hshape. unfold db3dnl.parse_polygonz, Spec.polygonz_text.
    destruct (findall_outer _ (rings_chars rings Hshape)) as [more ->].
    unfold re.findall. rewrite (findall_rings rings [] Hshape). reflexivity. }
  assert (Forall (fun ring => ring <> [] ∧ Forall Spec.point_text ring) good) as Hshape.
  { eapply Forall_impl; [exact Hgood|]. intros ring Hring.
    destruct (well_formed_ring_points F float ring Hring) as (H1 & H2 & _). auto. }
  destruct (parse_rings_well_formed F float good Hgood) as (raw & Hraw & Hrings).
  rewrite (Hparse good Hshape), Hparse.
  2:{ apply Forall_app. split; [exact Hshape|]. constructor; [split; assumption | exact Hrest]. }
  rewrite map_app, parse_rings_app by (rewrite Hrings; reflexivity).
  cbn [map db3dnl.parse_rings]. unfold db3dnl.parse_ring.
  rewrite (split_join bad Hne Hpts), Hbad, Hrings. cbn.
  rewrite app_nil_r, length_map. split; [reflexivity|].
  split; [symmetry; eapply Forall2_length; exact Hraw | reflexivity].
Qed.

End parse_polygonz_errors.

Lemma parse_polygonz_not_a_polygon_witness :
  db3dnl.parse_polygonz string Some "LINESTRING Z (0 0 0,1 0 0,1 1 0)" =
  Run.Gen [] [Run.LogRecord Run.ERROR "Not a POLYGON Z" []] Py.Finished.
Proof. apply parse_polygonz_not_a_polygon. reflexivity. Defined.

(** A number is a text of digits. *)
Lemma parse_polygonz_value_error_witness :
  let float := fun s : string =>
    if forallb (fun c => (48 <=? nat_of_ascii c)%nat && (nat_of_ascii c <=? 57)%nat)
               (list_ascii_of_string s)
    then Some s else None in
  length (Run.yields
    (db3dnl.parse_polygonz string float
       (Spec.polygonz_text ([["0 0 0"; "1 0 0"; "0 0 0"]] ++ ["2 2 2"; "3 x 3"] :: [["4 4 4"]]))))
  = 1%nat.
Proof.
  cbv zeta.
  refine (proj1 (proj2 (parse_polygonz_value_error string _
            [["0 0 0"; "1 0 0"; "0 0 0"]] [["4 4 4"]] ["2 2 2"; "3 x 3"] _ _ _ _))).
  - repeat constructor; try discriminate; eexists; reflexivity.
  - repeat constructor; discriminate.
  - reflexivity.
  - repeat constructor; discriminate.
Defined.

(** ** Tile selection: what is returned, what is raised, what is logged *)

(** X13: [with_list] returns a list of tile ids that is never empty, has
    no tile id twice (whatever the index and the tile list repeat) and
    holds tiles of the index only; it raises [IndexError] for the empty
    tile list, which has no first element to read, the empty-selection
    error for a tile list that selects nothing, and nothing else. *)
Theorem with_list_outcome :
  forall index tile_list : list string,
    match snd (db3dnl.with_list index tile_list) with
    | Run.Ok ids => ids <> [] ∧ NoDup ids ∧ (forall x, x ∈ ids -> x ∈ index) ∧ tile_list <> []
    | Run.Err e => (e = Py.IndexError ∧ tile_list = []) ∨
                   (e = Spec.none_present ∧ tile_list <> [])
    end.
Proof.
  intros index [|first rest]; [left; split; reflexivity|].
  destruct (decide (Py.lower first = "all")) as [E | E].
  - rewrite (with_list_all _ _ _ E). cbn [snd].
    destruct (db3dnl.all_in_index index) as [|x ids] eqn:Hall; [right; split; done|].
    split; [done|]. rewrite <- Hall. split; [apply NoDup_remove_dups|].
    split; [|done]. intros y. apply all_in_index_elem.
  - rewrite (with_list_explicit _ _ _ E). cbn [snd].
    destruct (remove_dups _) as [|x ids] eqn:Hin; [right; split; done|].
    split; [done|]. rewrite <- Hin. split; [apply NoDup_remove_dups|].
    split; [|done]. intros y Hy. apply in_index_elem in Hy. tauto.
Qed.

(** X14: for supplied ids that are not empty (PostgreSQL rejects the
    empty [IN] list), [tiles_in_index] does not raise, also when no
    supplied id is in the index: it returns the supplied ids that the
    index has, each once. It logs one warning exactly when a supplied id
    is not in the index, and the warning names exactly the supplied ids
    that the index lacks. *)
Theorem tiles_in_index_warns_iff_missing :
  forall index tile_list : list string,
    tile_list <> [] ->
    exists ids,
      snd (db3dnl.tiles_in_index index tile_list) = Run.Ok ids ∧
      NoDup ids ∧ (forall x, x ∈ ids <-> x ∈ tile_list ∧ x ∈ index) ∧
      ((forall t, t ∈ tile_list -> t ∈ index) <->
       fst (db3dnl.tiles_in_index index tile_list) = []) ∧
      ((exists t, t ∈ tile_list ∧ t ∉ index) <->
       exists missing,
         fst (db3dnl.tiles_in_index index tile_list) = [Spec.skipped missing] ∧
         forall t, t ∈ missing <-> t ∈ tile_list ∧ t ∉ index).
Proof.
  intros index tile_list _. unfold db3dnl.tiles_in_index.
  set (in_index := remove_dups (filter (fun t => t ∈ tile_list) index)).
  set (not_found := (list_to_set tile_list ∖ list_to_set in_index : gset string)).
  assert (forall t, t ∈ not_found <-> t ∈ tile_list ∧ t ∉ index) as Hnf.
  { intros t. unfold not_found, in_index.
    rewrite elem_of_difference, !elem_of_list_to_set, in_index_elem. tauto. }
  assert ((0 <? size not_found)%nat = true <-> exists t, t ∈ tile_list ∧ t ∉ index) as Hsize.
  { rewrite Nat.ltb_lt. split.
    - intros Hpos. destruct (elements not_found) as [|t ts] eqn:Hel.
      + apply elements_empty_iff in Hel. rewrite (leibniz_equiv _ _ Hel), size_empty in Hpos. lia.
      + exists t. apply Hnf, elem_of_elements. rewrite Hel. left.
    - intros (t & Ht). apply Hnf in Ht. destruct (size not_found) eqn:Hsz; [|lia].
      apply size_empty_iff in Hsz. rewrite (leibniz_equiv _ _ Hsz) in Ht. set_solver. }
  exists in_index.
  destruct (0 <? size not_found)%nat eqn:Hpos; cbn.
  - assert (exists t, t ∈ tile_list ∧ t ∉ index) as Hex by (apply Hsize; reflexivity).
    split; [reflexivity|]. split; [apply NoDup_remove_dups|].
    split; [intros x; apply in_index_elem|]. split.
    + split; [|discriminate]. intros Hall. destruct Hex as (t & Ht & Hnt). destruct (Hnt (Hall t Ht)).
    + split; [|intros _; exact Hex]. intros _. exists (elements not_found).
      split; [reflexivity|]. intros t. rewrite elem_of_elements. apply Hnf.
  - assert (~ exists t, t ∈ tile_list ∧ t ∉ index) as Hex.
    { intros H. apply Hsize in H. discriminate. }
    split; [reflexivity|]. split; [apply NoDup_remove_dups|].
    split; [intros x; apply in_index_elem|]. split.
    + split; [reflexivity|]. intros _ t Ht.
      destruct (decide (t ∈ index)) as [|Hn]; [assumption|]. exfalso. apply Hex. eauto.
    + split; [intros H; destruct (Hex H) | intros (missing & [=] & _)].
Qed.

Lemma tiles_in_index_warns_iff_missing_witness :
  exists ids,
    snd (db3dnl.tiles_in_index ["t1"; "t2"; "t2"] ["t2"; "t9"]) = Run.Ok ids ∧ NoDup ids ∧
    fst (db3dnl.tiles_in_index ["t1"; "t2"; "t2"] ["t2"; "t9"]) <> [].
Proof.
  destruct (tiles_in_index_warns_iff_missing ["t1"; "t2"; "t2"] ["t2"; "t9"])
    as (ids & Hids & Hnd & _ & Hquiet & _); [discriminate|].
  exists ids. split; [exact Hids|]. split; [exact Hnd|].
  intros Hlog.
  assert ("t9" ∈ ["t1"; "t2"; "t2"]) as Hin by (apply (proj2 Hquiet Hlog "t9"); right; left).
  repeat (apply elem_of_cons in Hin; destruct Hin as [Hin|Hin]; [discriminate|]).
  inversion Hin.
Defined.

(** ** The schedulers *)

(** X15: the number of threads of [query] defaults to the number of
    tables. When it is not positive, as for an export without tables and
    without [threads], [query] raises [ValueError] and neither opens a
    connection nor builds a query; with a positive number and no table it
    finishes and yields nothing. *)
Theorem query_threads_not_positive :
  forall (server : db3dnl.Server) (tile_index : db.TileSchema)
         (cityobject_type : list (string * list db.Schema)) (threads : option Z)
         (tile_list : option (list string)) (bbox : option (list Q))
         (extent : option utils.polygon) (completion : list nat),
    let n := default (Z.of_nat (length (db3dnl.tables cityobject_type))) threads in
    let r := db3dnl.query server tile_index cityobject_type threads tile_list bbox extent
               completion in
    ((n <= 0)%Z ->
     r = {| db3dnl.run := Run.Gen [] []
              (Py.Raised (Py.ValueError "Number of threads must be greater than 0."));
            db3dnl.executed := [] |}) ∧
    (threads = None -> db3dnl.tables cityobject_type = [] ->
     Run.ending (db3dnl.run r) =
       Py.Raised (Py.ValueError "Number of threads must be greater than 0.")) ∧
    ((0 < n)%Z -> db3dnl.tables cityobject_type = [] ->
     r = {| db3dnl.run := Run.Gen [] [] Py.Finished; db3dnl.executed := [] |}).
Proof.
  intros server tile_index cityobject_type threads tile_list bbox extent completion.
  cbv zeta. unfold db3dnl.query.
  set (n := default (Z.of_nat (length (db3dnl.tables cityobject_type))) threads).
  split; [|split].
  - intros Hn. destruct (Z.eqb_spec n 1) as [E|_]; [lia|].
    destruct (Z.ltb_spec 1 n) as [E|_]; [lia | reflexivity].
  - intros -> Hnone. subst n. rewrite Hnone. reflexivity.
  - intros Hn Hnone. rewrite Hnone.
    destruct (Z.eqb_spec n 1) as [_|Hne]; [reflexivity|].
    destruct (Z.ltb_spec 1 n) as [_|E]; [reflexivity | lia].
Qed.
Lemma query_threads_not_positive_witness :
  Run.ending
    (db3dnl.run (db3dnl.query Fixture.server Fixture.tile_index [] None None None None [])) =
  Py.Raised (Py.ValueError "Number of threads must be greater than 0.").
Proof.
  exact (proj1 (proj2 (query_threads_not_positive Fixture.server Fixture.tile_index []
                         None None None None [])) eq_refl eq_refl).
Defined.


(** The table a result of [_query_single] comes from. *)
Lemma _query_single_yields conn tile_index tile_list bbox extent todo :
  Forall (fun y =>
            exists cotable l q,
              (fst (fst y), cotable) ∈ todo ∧ snd (fst y) = db.table cotable ∧
              db3dnl.build_query conn cotable tile_index tile_list bbox extent = (l, Run.Ok q) ∧
              db.get_dict conn (db.ArgSql q) = db.Rows (snd y))
         (Run.yields (db3dnl.run
            (db3dnl._query_single conn tile_index tile_list bbox extent todo))).
Proof.
  induction todo as [|[cotype cotable] todo IH]; cbn [db3dnl._query_single]; [constructor|].
  destruct (db3dnl.build_query conn cotable tile_index tile_list bbox extent)
    as [l [q|e]] eqn:Hb; [|constructor].
  destruct (db.get_dict conn (db.ArgSql q)) as [rows|c m|e] eqn:Hd; cbn;
    [|constructor|constructor].
  constructor.
  - cbn beta. exists cotable, l, q. cbn. split; [left|]. auto.
  - eapply Forall_impl; [exact IH|]. intros y (ct & l' & q' & Hin & H).
    exists ct, l', q'. split; [right; exact Hin | exact H].
Qed.

Lemma _query_single_executed conn tile_index tile_list bbox extent todo :
  let r := db3dnl._query_single conn tile_index tile_list bbox extent todo in
  Forall (fun arg => exists q, arg = db.ArgSql q) (db3dnl.executed r) ∧
  map fst (Run.yields (db3dnl.run r)) `prefix_of`
    map (fun t => (fst t, db.table (snd t))) todo ∧
  (length (Run.yields (db3dnl.run r)) <= length (db3dnl.executed r))%nat.
Proof.
  cbv zeta.
  induction todo as [|[cotype cotable] todo IH]; cbn [db3dnl._query_single].
  - split; [constructor|]. split; [apply prefix_nil | reflexivity].
  - destruct (db3dnl.build_query conn cotable tile_index tile_list bbox extent)
      as [l [q|e]]; cbn; [|split; [constructor|]; split; [apply prefix_nil | lia]].
    destruct (db.get_dict conn (db.ArgSql q)) as [rows|c m|e]; cbn.
    + destruct IH as (IH1 & IH2 & IH3).
      split; [constructor; [eexists; reflexivity | exact IH1]|].
      split; [apply prefix_cons, IH2 | apply le_n_S, IH3].
    + split; [constructor; [eexists; reflexivity | constructor]|].
      split; [apply prefix_nil | lia].
    + split; [constructor; [eexists; reflexivity | constructor]|].
      split; [apply prefix_nil | lia].
Qed.

(** X16: [_query_single] queries each table with the query built for it:
    every element it yields is ((object type, table name), rows) of a
    table of the map, the rows being the answer to the query built for
    that very table; the tables come in the order of the map; and
    [get_dict] is only ever called with a built query. *)
Theorem _query_single_yields_the_table_rows :
  forall (conn : db.Db) (tile_index : db.TileSchema)
         (tile_list : option (list string)) (bbox : option (list Q))
         (extent : option utils.polygon) (todo : list (string * db.Schema)),
    let r := db3dnl._query_single conn tile_index tile_list bbox extent todo in
    Forall (fun y =>
              exists cotable l q,
                (fst (fst y), cotable) ∈ todo ∧ snd (fst y) = db.table cotable ∧
                db3dnl.build_query conn cotable tile_index tile_list bbox extent
                  = (l, Run.Ok q) ∧
                db.get_dict conn (db.ArgSql q) = db.Rows (snd y))
           (Run.yields (db3dnl.run r)) ∧
    map fst (Run.yields (db3dnl.run r)) `prefix_of`
      map (fun t => (fst t, db.table (snd t))) todo ∧
    Forall (fun arg => exists q, arg = db.ArgSql q) (db3dnl.executed r).
Proof.
  intros conn tile_index tile_list bbox extent todo. cbv zeta.
  destruct (_query_single_executed conn tile_index tile_list bbox extent todo) as (H1 & H2 & _).
  split; [apply _query_single_yields|]. split; assumption.
Qed.

(** X17: [_query_single] fails fast: when the query of a table is
    answered with a database error, after tables that were answered with
    rows, the rows of those tables have been yielded, [ClickException]
    names the failing table, and no later table is queried. *)
Theorem _query_single_fails_fast :
  forall (conn : db.Db) (tile_index : db.TileSchema)
         (tile_list : option (list string)) (bbox : option (list Q))
         (extent : option utils.polygon)
         (done later : list (string * db.Schema)) (cotype : string) (cotable : db.Schema)
         (l : list Run.log_record) (q : sql.Composable) (pgcode pgerror : string),
    Forall (fun t => exists l' q' rows,
              db3dnl.build_query conn (snd t) tile_index tile_list bbox extent
                = (l', Run.Ok q') ∧
              db.get_dict conn (db.ArgSql q') = db.Rows rows) done ->
    db3dnl.build_query conn cotable tile_index tile_list bbox extent = (l, Run.Ok q) ->
    db.get_dict conn (db.ArgSql q) = db.PgError pgcode pgerror ->
    let r := db3dnl._query_single conn tile_index tile_list bbox extent
               (done ++ (cotype, cotable) :: later) in
    map fst (Run.yields (db3dnl.run r)) = map (fun t => (fst t, db.table (snd t))) done ∧
    Run.ending (db3dnl.run r) = Py.Raised (db3dnl.could_not_query cotable) ∧
    length (db3dnl.executed r) = S (length done) ∧
    last (db3dnl.executed r) = Some (db.ArgSql q).
Proof.
  intros conn tile_index tile_list bbox extent done later cotype cotable l q pgcode pgerror
         Hdone Hb Hd. cbv zeta.
  induction Hdone as [|[ct t] done (l' & q' & rows & Hb' & Hd') Hdone IH].
  - cbn [app db3dnl._query_single]. rewrite Hb, Hd. repeat split; reflexivity.
  - cbn [app db3dnl._query_single]. cbn [snd] in Hb'. rewrite Hb', Hd'.
    destruct IH as (IH1 & IH2 & IH3 & IH4). cbn.
    split; [f_equal; exact IH1|]. split; [exact IH2|]. split; [f_equal; exact IH3|].
    destruct (db3dnl.executed _) as [|a ex] eqn:E; [discriminate|]. exact IH4.
Qed.

Lemma _query_single_fails_fast_witness :
  let r := db3dnl._query_single Fixture.conn_without_b Fixture.tile_index None None None
             ([("Building", Fixture.building_a)] ++
              ("Building", Fixture.building_b) :: [("Road", Fixture.building_a)]) in
  map fst (Run.yields (db3dnl.run r)) = [("Building", "a")] ∧
  Run.ending (db3dnl.run r) = Py.Raised (db3dnl.could_not_query Fixture.building_b) ∧
  length (db3dnl.executed r) = 2%nat.
Proof.
  cbv zeta.
  destruct (db3dnl.build_query Fixture.conn_without_b Fixture.building_b Fixture.tile_index
              None None None) as [l [q|e]] eqn:Hb; [|vm_compute in Hb; discriminate].
  destruct (_query_single_fails_fast Fixture.conn_without_b Fixture.tile_index None None None
              [("Building", Fixture.building_a)] [("Road", Fixture.building_a)]
              "Building" Fixture.building_b l q "42P01" "relation does not exist")
    as (H1 & H2 & H3 & _).
  - constructor; [|constructor]. do 3 eexists. split; vm_compute; reflexivity.
  - exact Hb.
  - revert Hb. vm_compute. intros [= <- <-]. reflexivity.
  - split; [exact H1|]. split; [exact H2 | exact H3].
Defined.

(** The futures of the submission loop, when every table is answered. *)
Lemma submit_all_answered server tile_index tile_list bbox extent todo :
  Forall (Spec.answered server tile_index tile_list bbox extent) todo ->
  exists l futures,
    db3dnl.submit_all server tile_index tile_list bbox extent todo = (l, Run.Ok futures) ∧
    Forall2 (fun t f =>
               db3dnl.key f = (fst t, db.table (snd t)) ∧
               db3dnl.outcome f =
                 db.Rows (Spec.table_rows server tile_index tile_list bbox extent t))
            todo futures.
Proof.
  induction 1 as [|[cotype cotable] todo (l & q & rows & Hb & Hd) Hall IH].
  - exists [], []. split; [reflexivity | constructor].
  - destruct IH as (l' & futures & Hs & Hf). cbn [fst snd] in Hb, Hd.
    cbn [db3dnl.submit_all]. rewrite Hb, Hs. cbn.
    eexists _, _. split; [reflexivity|]. constructor; [|exact Hf].
    cbn. split; [reflexivity|]. unfold Spec.table_rows. cbn [fst snd].
    rewrite Hb, Hd. reflexivity.
Qed.

Lemma yield_completed_rows cotable (completed : list db3dnl.future) :
  Forall (fun f => exists rows, db3dnl.outcome f = db.Rows rows) completed ->
  let g := db3dnl.yield_completed cotable completed in
  Run.ending g = Py.Finished ∧ Run.logged g = [] ∧
  Forall2 (fun f y => fst (fst y) = fst (db3dnl.key f) ∧ snd (fst y) = db.table cotable ∧
                      db3dnl.outcome f = db.Rows (snd y))
          completed (Run.yields g).
Proof.
  cbv zeta. induction 1 as [|f completed [rows Hf] Hall IH]; [repeat split; constructor|].
  cbn [db3dnl.yield_completed]. destruct (db3dnl.key f) as [cotype tablename] eqn:Hk.
  rewrite Hf. destruct IH as (IH1 & IH2 & IH3). cbn.
  split; [exact IH1|]. split; [exact IH2|]. constructor; [|exact IH3].
  cbn. rewrite Hf, Hk. auto.
Qed.

Lemma last_Some {A} (ts : list A) :
  ts <> [] -> exists c, List.last (map Some ts) None = Some c ∧ last ts = Some c.
Proof.
  induction ts as [|a [|b ts] IH]; intros Hne; [done | exists a; split; reflexivity |].
  destruct IH as (c & H1 & H2); [discriminate|]. exists c. split; [exact H1 | exact H2].
Qed.

(** With a thread per table and every table answered, the results come
    in the order of completion, each with its object type and its own
    rows, under the name of the last table. *)
Lemma query_pool_completion_order server tile_index tile_list bbox extent todo completion :
  Forall (Spec.answered server tile_index tile_list bbox extent) todo ->
  Forall (fun i => (i < length todo)%nat) completion ->
  let r := db3dnl.query_pool server tile_index tile_list bbox extent todo completion in
  Run.ending (db3dnl.run r) = Py.Finished ∧
  Forall2 (fun i y =>
             exists t, todo !! i = Some t ∧ fst (fst y) = fst t ∧
                       snd y = Spec.table_rows server tile_index tile_list bbox extent t ∧
                       Some (snd (fst y)) = db.table <$> last (map snd todo))
          completion (Run.yields (db3dnl.run r)) ∧
  length (db3dnl.executed r) = length todo.
Proof.
  intros Hall Hcompl. cbv zeta.
  destruct (submit_all_answered _ _ _ _ _ _ Hall) as (l & futures & Hs & Hf).
  unfold db3dnl.query_pool. rewrite Hs.
  pose proof (Forall2_length _ _ _ Hf) as Hlen.
  destruct (decide (todo = [])) as [-> | Hne].
  { destruct completion as [|i c]; [|apply Forall_cons in Hcompl; cbn in Hcompl; lia].
    apply Forall2_nil_inv_l in Hf. subst futures. cbn. repeat split; constructor. }
  destruct (last_Some (map snd todo)) as (cotable & -> & Hlast).
  { destruct todo; [done | discriminate]. }
  assert (Forall2 (fun i f => exists t, todo !! i = Some t ∧
                     db3dnl.key f = (fst t, db.table (snd t)) ∧
                     db3dnl.outcome f =
                       db.Rows (Spec.table_rows server tile_index tile_list bbox extent t))
                  completion (db3dnl.as_completed completion futures)) as Hc.
  { unfold db3dnl.as_completed. clear -Hf Hcompl.
    induction Hcompl as [|i completion Hi Hcompl IH]; [constructor|].
    cbn [omap list_omap].
    destruct (lookup_lt_is_Some_2 todo i Hi) as [t Ht].
    destruct (Forall2_lookup_l _ _ _ _ _ Hf Ht) as (f & Hfi & Hkey & Hout).
    rewrite Hfi. constructor; [eauto | exact IH]. }
  destruct (yield_completed_rows cotable (db3dnl.as_completed completion futures))
    as (He & Hl & Hy).
  { clear -Hc. induction Hc as [|i f c fs (t & _ & _ & Hout) Hc IH]; constructor; eauto. }
  cbn. split; [exact He|]. split.
  - clear -Hc Hy Hlast.
    revert Hy. generalize (Run.yields (db3dnl.yield_completed cotable
                                         (db3dnl.as_completed completion futures))).
    induction Hc as [|i f c fs (t & Ht & Hkey & Hout) Hc IH]; intros ys Hy;
      inversion Hy as [|f' y fs' ys' (Hy1 & Hy2 & Hy3) Hys]; subst; constructor.
    + exists t. rewrite Hkey in Hy1. rewrite Hout in Hy3. injection Hy3 as <-.
      rewrite Hlast. cbn. rewrite Hy2. auto.
    + apply IH, Hys.
  - rewrite length_map. symmetry. exact Hlen.
Qed.

(** X18: with more than one thread and every table answered, [query]
    yields one result per completed query in the order of completion, not
    of submission; each result carries the object type and the rows of
    its own table (under the name of the table submitted last), and every
    table's query is executed. *)
Theorem query_results_in_completion_order :
  forall (server : db3dnl.Server) (tile_index : db.TileSchema)
         (cityobject_type : list (string * list db.Schema)) (n : Z)
         (tile_list : option (list string)) (bbox : option (list Q))
         (extent : option utils.polygon) (completion : list nat),
    (1 < n)%Z ->
    Forall (Spec.answered server tile_index tile_list bbox extent)
           (db3dnl.tables cityobject_type) ->
    Forall (fun i => (i < length (db3dnl.tables cityobject_type))%nat) completion ->
    let r := db3dnl.query server tile_index cityobject_type (Some n) tile_list bbox extent
               completion in
    Run.ending (db3dnl.run r) = Py.Finished ∧
    Forall2 (fun i y =>
               exists t, db3dnl.tables cityobject_type !! i = Some t ∧ fst (fst y) = fst t ∧
                         snd y = Spec.table_rows server tile_index tile_list bbox extent t ∧
                         Some (snd (fst y)) =
                           db.table <$> last (map snd (db3dnl.tables cityobject_type)))
            completion (Run.yields (db3dnl.run r)) ∧
    length (db3dnl.executed r) = length (db3dnl.tables cityobject_type).
Proof.
  intros server tile_index cityobject_type n tile_list bbox extent completion Hn Hall Hc.
  cbv zeta. unfold db3dnl.query.
  change (default (Z.of_nat (length (db3dnl.tables cityobject_type))) (Some n)) with n.
  destruct (Z.eqb_spec n 1) as [E|_]; [lia|].
  destruct (Z.ltb_spec 1 n) as [_|E]; [|lia].
  apply query_pool_completion_order; assumption.
Qed.

Lemma query_results_in_completion_order_witness :
  let r := db3dnl.query Fixture.server Fixture.tile_index Fixture.cityobject_type (Some 2%Z)
             None None None [1; 0]%nat in
  Run.ending (db3dnl.run r) = Py.Finished ∧
  length (db3dnl.executed r) = length (db3dnl.tables Fixture.cityobject_type).
Proof.
  cbv zeta.
  destruct (query_results_in_completion_order Fixture.server Fixture.tile_index
              Fixture.cityobject_type 2 None None None [1; 0]%nat) as (H1 & _ & H3).
  - reflexivity.
  - repeat constructor; do 3 eexists; split; vm_compute; reflexivity.
  - repeat constructor.
  - split; assumption.
Defined.

(** X19: [_query_no_pool] runs every table's query on the one connection.
    With a number of threads that is not positive (the default is the
    number of tables) the executor refuses to start and [ValueError] is
    raised before any query is built; otherwise, every table answered,
    the results come in the order of completion, each with the object
    type and rows of its own table. *)
Theorem _query_no_pool_results :
  forall (conn : db.Db) (tile_index : db.TileSchema)
         (cityobject_type : list (string * list db.Schema)) (threads : option Z)
         (tile_list : option (list string)) (bbox : option (list Q))
         (extent : option utils.polygon) (completion : list nat),
    let server := {| db3dnl.connect := conn; db3dnl.getconn := fun _ => conn |} in
    let n := default (Z.of_nat (length (db3dnl.tables cityobject_type))) threads in
    let r := db3dnl._query_no_pool conn tile_index cityobject_type threads tile_list bbox
               extent completion in
    ((n <= 0)%Z ->
     r = {| db3dnl.run := Run.Gen [] []
              (Py.Raised (Py.ValueError "max_workers must be greater than 0"));
            db3dnl.executed := [] |}) ∧
    ((0 < n)%Z ->
     Forall (Spec.answered server tile_index tile_list bbox extent)
            (db3dnl.tables cityobject_type) ->
     Forall (fun i => (i < length (db3dnl.tables cityobject_type))%nat) completion ->
     Run.ending (db3dnl.run r) = Py.Finished ∧
     Forall2 (fun i y =>
                exists t, db3dnl.tables cityobject_type !! i = Some t ∧ fst (fst y) = fst t ∧
                          snd y = Spec.table_rows server tile_index tile_list bbox extent t)
             completion (Run.yields (db3dnl.run r)) ∧
     length (db3dnl.executed r) = length (db3dnl.tables cityobject_type)).
Proof.
  intros conn tile_index cityobject_type threads tile_list bbox extent completion.
  cbv zeta. unfold db3dnl._query_no_pool.
  set (n := default (Z.of_nat (length (db3dnl.tables cityobject_type))) threads).
  split.
  - intros Hn. destruct (Z.leb_spec n 0) as [_|E]; [reflexivity | lia].
  - intros Hn Hall Hc. destruct (Z.leb_spec n 0) as [E|_]; [lia|].
    destruct (query_pool_completion_order _ _ _ _ _ _ _ Hall Hc) as (H1 & H2 & H3).
    split; [exact H1|]. split; [|exact H3].
    eapply Forall2_impl; [exact H2|]. intros i y (t & Ht & Hy1 & Hy2 & _). eauto.
Qed.
Lemma _query_no_pool_results_witness :
  let r := db3dnl._query_no_pool Fixture.conn Fixture.tile_index Fixture.cityobject_type None
             None None None [1; 0]%nat in
  Run.ending (db3dnl.run r) = Py.Finished ∧
  map (fun y => fst (fst y)) (Run.yields (db3dnl.run r)) =
    map fst (rev (db3dnl.tables Fixture.cityobject_type)).
Proof.
  cbv zeta.
  destruct (proj2 (_query_no_pool_results Fixture.conn Fixture.tile_index
                     Fixture.cityobject_type None None None None [1; 0]%nat))
    as (H1 & H2 & _).
  - reflexivity.
  - repeat constructor; do 3 eexists; split; vm_compute; reflexivity.
  - repeat constructor.
  - split; [exact H1|]. vm_compute. reflexivity.
Defined.


(** ** From the export to the file *)

Lemma dbexport_to_cityobjects_raised dbexport e lod :
  exists e', Run.ending (db3dnl.dbexport_to_cityobjects dbexport (Py.Raised e) lod)
             = Py.Raised e'.
Proof.
  induction dbexport as [|[[cotype cotable] tabledata] dbexport [e' IH]].
  - exists e. reflexivity.
  - cbn [db3dnl.dbexport_to_cityobjects]. unfold db3dnl.gen_then.
    destruct (Run.ending (db3dnl.table_to_cityobjects _ _ _ _)) as [|e''] eqn:E.
    + exists e'. exact IH.
    + exists e''. exact E.
Qed.

(** With one thread, the export ends with an exception as soon as there
    is a table, unless the connection answers the function [query] with
    rows. *)
Lemma query_single_raises conn tile_index tile_list bbox extent t todo :
  (forall rows, db.get_dict conn db.ArgFunctionQuery <> db.Rows rows) ->
  let r := db3dnl.query_single conn tile_index tile_list bbox extent (t :: todo) in
  Run.yields (db3dnl.run r) = [] ∧ exists e, Run.ending (db3dnl.run r) = Py.Raised e.
Proof.
  intros Hno. cbv zeta. destruct t as [cotype cotable]. cbn [db3dnl.query_single].
  destruct (db3dnl.build_query _ _ _ _ _ _) as [l [q|e]]; [|cbn; eauto].
  destruct (db.get_dict conn db.ArgFunctionQuery) as [rows|c m|e] eqn:Hd; cbn; eauto.
  destruct (Hno rows eq_refl).
Qed.

Section export_properties.

Variable CityJSON : Type.
Variable assemble : list (db.pyval * cjio.CityObject) -> Run.res CityJSON.
Variable bool_of : CityJSON -> bool.
Variable remove_duplicate_vertices : CityJSON -> Run.res CityJSON.
Variable remove_orphan_vertices : CityJSON -> Run.res CityJSON.
Variable dumps : CityJSON -> Run.res string.
Variable write : string -> string -> db3dnl.written.

Local Abbreviation to_citymodel :=
  (db3dnl.to_citymodel CityJSON assemble bool_of remove_duplicate_vertices
                       remove_orphan_vertices).
Local Abbreviation export :=
  (db3dnl.export CityJSON assemble bool_of remove_duplicate_vertices
                 remove_orphan_vertices dumps write).

Lemma to_citymodel_raised dbexport lod e :
  Run.ending (db3dnl.run dbexport) = Py.Raised e ->
  snd (to_citymodel dbexport lod) = None.
Proof.
  intros He. unfold db3dnl.to_citymodel, db3dnl.convert. rewrite He.
  destruct (dbexport_to_cityobjects_raised (Run.yields (db3dnl.run dbexport)) e lod)
    as [e' ->]. reflexivity.
Qed.

(** X20: an error of the export does not come out of [export]. Whenever
    the export of the tile ends with an exception (a query that cannot be
    built, a database error, a type error), [export] returns
    [(False, filepath)] and leaves the files as they were. As [query] with
    one thread passes the function [query] to [get_dict], this is what
    happens for every configuration with a table, unless the connection
    answers that call with rows. *)
Theorem export_reports_failure :
  forall (can_open : string -> bool) (fs : db3dnl.files) (tile filepath : string)
         (cfg : db3dnl.Config),
    let dbexport :=
      db3dnl.query (db3dnl.database cfg) (db3dnl.cfg_tile_index cfg)
                   (db3dnl.cfg_cityobject_type cfg) (Some 1%Z) (Some [tile]) None None [] in
    let result := export can_open fs tile filepath cfg in
    ((exists e, Run.ending (db3dnl.run dbexport) = Py.Raised e) ->
     fst result = fs ∧ snd (snd result) = Run.Ok (false, filepath)) ∧
    (db3dnl.tables (db3dnl.cfg_cityobject_type cfg) <> [] ->
     (forall rows,
        db.get_dict (db3dnl.connect (db3dnl.database cfg)) db.ArgFunctionQuery
        <> db.Rows rows) ->
     fst result = fs ∧ snd (snd result) = Run.Ok (false, filepath)).
Proof.
  intros can_open fs tile filepath cfg. cbv zeta.
  assert ((exists e, Run.ending (db3dnl.run
             (db3dnl.query (db3dnl.database cfg) (db3dnl.cfg_tile_index cfg)
                (db3dnl.cfg_cityobject_type cfg) (Some 1%Z) (Some [tile]) None None []))
             = Py.Raised e) ->
          fst (export can_open fs tile filepath cfg) = fs ∧
          snd (snd (export can_open fs tile filepath cfg)) = Run.Ok (false, filepath)) as H.
  { intros [e He]. unfold db3dnl.export.
    pose proof (to_citymodel_raised _ (db3dnl.cfg_lod cfg) e He) as Hnone.
    destruct (to_citymodel _ _) as [l [cm|]]; [discriminate|]. split; reflexivity. }
  split; [exact H|].
  intros Htables Hno. apply H. unfold db3dnl.query. cbn [default].
  change (1 =? 1)%Z with true. cbv iota.
  destruct (db3dnl.tables (db3dnl.cfg_cityobject_type cfg)) as [|t todo]; [done|].
  destruct (query_single_raises (db3dnl.connect (db3dnl.database cfg))
              (db3dnl.cfg_tile_index cfg) (Some [tile]) None None t todo Hno) as (_ & e & He).
  exists e. exact He.
Qed.

(** X21: what [export] returns tells what it did to the files. It returns
    [(True, filepath)] only after writing the JSON text of the cleaned
    city model to [filepath]. When it returns [(False, filepath)], either
    no city model was made or the file could not be opened, and the files
    are as they were; or the file was opened and writing to it failed,
    and the file holds what the failed writing left. The only exception
    that comes out of it is one of [json.dumps], which leaves the file
    opened and empty. In every case no file but [filepath] is touched. *)
Theorem export_outcome :
  forall (can_open : string -> bool) (fs : db3dnl.files) (tile filepath : string)
         (cfg : db3dnl.Config),
    let citymodel :=
      to_citymodel
        (db3dnl.query (db3dnl.database cfg) (db3dnl.cfg_tile_index cfg)
           (db3dnl.cfg_cityobject_type cfg) (Some 1%Z) (Some [tile]) None None [])
        (db3dnl.cfg_lod cfg) in
    let result := export can_open fs tile filepath cfg in
    match snd (snd result) with
    | Run.Ok (true, path) =>
        path = filepath ∧ can_open filepath = true ∧
        exists cm json_str,
          snd citymodel = Some cm ∧ dumps cm = Run.Ok json_str ∧
          write filepath json_str = db3dnl.Written ∧
          fst result = <[filepath := json_str]> fs
    | Run.Ok (false, path) =>
        path = filepath ∧
        (((snd citymodel = None ∨ can_open filepath = false) ∧ fst result = fs) ∨
         (can_open filepath = true ∧
          exists cm json_str kept,
            snd citymodel = Some cm ∧ dumps cm = Run.Ok json_str ∧
            write filepath json_str = db3dnl.WriteFailed kept ∧
            fst result = <[filepath := kept]> fs))
    | Run.Err e =>
        can_open filepath = true ∧
        (exists cm, snd citymodel = Some cm ∧ dumps cm = Run.Err e) ∧
        fst result = <[filepath := EmptyString]> fs
    end ∧
    (forall path, path <> filepath -> fst result !! path = fs !! path).
Proof.
  intros can_open fs tile filepath cfg. cbv zeta. unfold db3dnl.export.
  destruct (to_citymodel _ _) as [l [cm|]] eqn:E; cbn [snd].
  2:{ split; [|reflexivity]. cbn. split; [reflexivity|]. left. auto. }
  destruct (can_open filepath) eqn:Hopen.
  2:{ split; [|reflexivity]. cbn. split; [reflexivity|]. left. auto. }
  destruct (dumps cm) as [json_str|e] eqn:Hd.
  - destruct (write filepath json_str) as [|kept] eqn:Hw; cbn.
    + split; [|intros path Hp; apply lookup_insert_ne; congruence].
      split; [reflexivity|]. split; [reflexivity|]. exists cm, json_str. auto.
    + split; [|intros path Hp; apply lookup_insert_ne; congruence].
      split; [reflexivity|]. right. split; [reflexivity|].
      exists cm, json_str, kept. auto.
  - cbn. split; [|intros path Hp; apply lookup_insert_ne; congruence].
    split; [reflexivity|]. split; [eauto | reflexivity].
Qed.

End export_properties.

(** A disk that fills up while the text is written: [export] reports the
    failure and the file is left with what was written. *)
Example export_write_fails :
  forall (CityJSON : Type) (cm : CityJSON) (kept : string),
    db3dnl.export CityJSON (fun _ => Run.Ok cm) (fun _ => true) Run.Ok Run.Ok
      (fun _ => Run.Ok "{}") (fun _ _ => db3dnl.WriteFailed kept) (fun _ => true)
      ∅ "t1" "t1.json"
      {| db3dnl.database := Fixture.server; db3dnl.cfg_tile_index := Fixture.tile_index;
         db3dnl.cfg_cityobject_type := []; db3dnl.cfg_lod := "lod12" |}
    = (<[ "t1.json" := kept ]> ∅,
       ([Run.LogRecord Run.INFO "Exported CityModel" [];
         Run.LogRecord Run.ERROR "Invalid output file" ["t1.json"]],
        Run.Ok (false, "t1.json"))).
Proof. intros CityJSON cm kept. reflexivity. Qed.

Lemma export_reports_failure_witness :
  let result :=
    db3dnl.export (list (db.pyval * cjio.CityObject)) Run.Ok (fun _ => true) Run.Ok Run.Ok
      (fun _ => Run.Ok "{}") (fun _ _ => db3dnl.Written) (fun _ => true) ∅ "t1" "t1.json"
      Fixture.cfg in
  fst result = ∅ ∧ snd (snd result) = Run.Ok (false, "t1.json").
Proof.
  cbv zeta.
  refine (proj2 (export_reports_failure (list (db.pyval * cjio.CityObject)) Run.Ok
                   (fun _ => true) Run.Ok Run.Ok (fun _ => Run.Ok "{}")
                   (fun _ _ => db3dnl.Written)
                   (fun _ => true) ∅ "t1" "t1.json" Fixture.cfg) _ _).
  - discriminate.
  - intros rows. discriminate.
Defined.
